(** * Customer-support workflow agent: state store, capability client and stages

    A shallow embedding of the orchestration core of the repository
    (src/agent/state_manager.py, src/mcp/mcp_client.py and the stage
    executors stage_01_intake, stage_05_wait, stage_07_decide and
    stage_08_update), with the properties of its specification that concern
    them.

    Python values are embedded as a small JSON-like universe.  The program is
    dynamically typed, so every operation that Python checks at run time
    ([.get] on something that is not a dict, [<] on something that is not a
    number, ...) returns a result that is either a value or a raised
    exception.  The two list objects that the state manager mutates in place
    ([execution_log] and [errors]) live in a heap and are referred to by
    location, because the versions of a session share them. *)

From Stdlib Require Import ZArith QArith String Ascii List Bool Lia DecimalString.
From stdpp Require Import base option gmap strings list.

Open Scope Z_scope.
Open Scope string_scope.

(* ===================================================================== *)
(** ** Python values *)
(* ===================================================================== *)

(** [StageStatus] of state_manager.py. *)
Inductive StageStatus := PENDING | IN_PROGRESS | COMPLETED | FAILED | SKIPPED.

(** [ExecutionLog] of state_manager.py, over the type [V] of the values kept
    in its [output] snapshot. *)
Record ExecutionLog_ (V : Type) := mkExecutionLog {
  stage_id : Z;
  stage_name : string;
  timestamp : Z;
  status : StageStatus;
  abilities_executed : list string;
  server_used : option string;
  duration_ms : option Z;
  error_message : option string;
  output : option V
}.
Arguments mkExecutionLog {V}.
Arguments stage_id {V}.
Arguments stage_name {V}.
Arguments timestamp {V}.
Arguments status {V}.
Arguments abilities_executed {V}.
Arguments server_used {V}.
Arguments duration_ms {V}.
Arguments error_message {V}.
Arguments output {V}.

(** Heap locations of list objects. *)
Abbreviation loc := nat (only parsing).

(** The values the modelled code handles.  Dict keys are strings and a dict
    keeps its insertion order, as Python's does.  A float is the rational
    number it denotes (NaN and the infinities are left out).  [VTime] is a
    [datetime], counted in milliseconds.  [VList] is a list that is only
    read; [VRef] is a reference to a list object that may be appended to in
    place.  [VLog] is an [ExecutionLog] instance. *)
#[local] Set Warnings "-register-all".
Inductive PyVal :=
| VNone
| VBool (b : bool)
| VInt (z : Z)
| VFloat (q : Q)
| VStr (s : string)
| VTime (t : Z)
| VList (l : list PyVal)
| VDict (d : list (string * PyVal))
| VRef (l : loc)
| VLog (e : ExecutionLog_ PyVal).

Abbreviation Dict := (list (string * PyVal)) (only parsing).
Abbreviation ExecutionLog := (ExecutionLog_ PyVal) (only parsing).
Abbreviation Heap := (gmap loc (list PyVal)) (only parsing).

(** Exceptions.  [ValueError] and [Exception_] carry the message they were
    raised with; [ValidationError] is pydantic's, naming the model and the
    field it refused; [Unmodelled] is no exception of Python: it marks
    an append to a list that the embedding holds as a value ([VList]) and
    not as an object ([VRef]), where the embedding does not follow the
    program (see [py_append]). *)
Inductive Exn :=
| ValueError (msg : string)
| Exception_ (msg : string)
| KeyError (key : string)
| IndexError
| TypeError
| AttributeError
| UnboundLocalError (name : string)
| ValidationError (model field : string)
| Unmodelled.

Inductive Res (A : Type) :=
| Ok (a : A)
| Raise (e : Exn).
Arguments Ok {A}.
Arguments Raise {A}.

Definition res_bind {A B} (r : Res A) (k : A -> Res B) : Res B :=
  match r with
  | Ok a => k a
  | Raise e => Raise e
  end.

Declare Scope res_scope.
Delimit Scope res_scope with res.
Notation "x <-? c ;; k" := (res_bind c (fun x => k))
  (at level 20, c at level 99, k at level 200) : res_scope.

(** *** Dicts *)

Fixpoint dict_get (d : Dict) (k : string) : option PyVal :=
  match d with
  | [] => None
  | (k', v) :: d' => if String.eqb k k' then Some v else dict_get d' k
  end.

Definition dict_has (d : Dict) (k : string) : bool :=
  match dict_get d k with Some _ => true | None => false end.

(** [d[k] = v]: an existing key keeps its place, a new one goes last. *)
Fixpoint dict_set (d : Dict) (k : string) (v : PyVal) : Dict :=
  match d with
  | [] => [(k, v)]
  | (k', v') :: d' =>
      if String.eqb k k' then (k', v) :: d' else (k', v') :: dict_set d' k v
  end.

(** [d.get(k, dflt)] on a dict. *)
Definition dict_get_or (d : Dict) (k : string) (dflt : PyVal) : PyVal :=
  match dict_get d k with Some v => v | None => dflt end.

(** [d.update(d2)]. *)
Definition dict_update (d d2 : Dict) : Dict :=
  fold_left (fun acc kv => dict_set acc (fst kv) (snd kv)) d2 d.

(** [v.get(k, dflt)]: only dicts have [.get]. *)
Definition py_get (v : PyVal) (k : string) (dflt : PyVal) : Res PyVal :=
  match v with
  | VDict d => Ok (dict_get_or d k dflt)
  | _ => Raise AttributeError
  end.

(** [v[k]] for a string [k]. *)
Definition py_item (v : PyVal) (k : string) : Res PyVal :=
  match v with
  | VDict d => match dict_get d k with Some x => Ok x | None => Raise (KeyError k) end
  | _ => Raise TypeError
  end.

(** *** Truth values, numbers, membership *)

(** [bool(v)].  The truth value of a list object depends on its contents. *)
Definition truthy (h : Heap) (v : PyVal) : bool :=
  match v with
  | VNone => false
  | VBool b => b
  | VInt z => negb (Z.eqb z 0)
  | VFloat q => negb (Qeq_bool q 0)
  | VStr s => negb (String.eqb s "")
  | VTime _ => true
  | VList l => match l with [] => false | _ => true end
  | VDict d => match d with [] => false | _ => true end
  | VRef l => match h !! l with Some (_ :: _) => true | _ => false end
  | VLog _ => true
  end.

(** The number a value denotes, when it is one ([bool] is a subclass of
    [int]). *)
Definition as_num (v : PyVal) : option Q :=
  match v with
  | VBool b => Some (inject_Z (if b then 1 else 0))
  | VInt z => Some (inject_Z z)
  | VFloat q => Some q
  | _ => None
  end.

Definition Qlt_bool (a b : Q) : bool := negb (Qle_bool b a).

(** [a < b], [a > b] and [a >= b] on numbers; a [TypeError] otherwise
    (the modelled code compares scores only). *)
Definition py_lt (a b : PyVal) : Res bool :=
  match as_num a, as_num b with
  | Some x, Some y => Ok (Qlt_bool x y)
  | _, _ => Raise TypeError
  end.

Definition py_gt (a b : PyVal) : Res bool := py_lt b a.

Definition py_ge (a b : PyVal) : Res bool :=
  match as_num a, as_num b with
  | Some x, Some y => Ok (Qle_bool y x)
  | _, _ => Raise TypeError
  end.

Fixpoint contains_at (needle hay : string) : bool :=
  match needle, hay with
  | EmptyString, _ => true
  | String a n', String b h' => Ascii.eqb a b && contains_at n' h'
  | String _ _, EmptyString => false
  end.

(** [needle in hay] for two strings. *)
Fixpoint str_contains (needle hay : string) : bool :=
  contains_at needle hay ||
  match hay with
  | EmptyString => false
  | String _ h' => str_contains needle h'
  end.

Definition is_str (k : string) (v : PyVal) : bool :=
  match v with VStr s => String.eqb k s | _ => false end.

(** [k in v] for a string [k]: key of a dict, substring of a string, element
    of a list; an [ExecutionLog] iterates over pairs, none of which equals a
    string. *)
Definition str_in (h : Heap) (k : string) (v : PyVal) : Res bool :=
  match v with
  | VDict d => Ok (dict_has d k)
  | VStr s => Ok (str_contains k s)
  | VList l => Ok (existsb (is_str k) l)
  | VRef l => Ok (existsb (is_str k) (default [] (h !! l)))
  | VLog _ => Ok false
  | _ => Raise TypeError
  end.

(** [x in d] for a dict [d] and any [x]: the key is hashed first, and lists,
    dicts and pydantic models are not hashable. *)
Definition in_dict (x : PyVal) (d : Dict) : Res bool :=
  match x with
  | VStr s => Ok (dict_has d s)
  | VList _ | VDict _ | VRef _ | VLog _ => Raise TypeError
  | _ => Ok false
  end.

(** *** Text

    A [str] is held as its UTF-8 encoding: a character of ASCII is one byte
    of the string, any other character two to four bytes.  Equality and the
    substring test on the encodings are those on the texts. *)

(** The bytes that continue a character (10xxxxxx). *)
Definition is_continuation (c : ascii) : bool :=
  let n := nat_of_ascii c in (128 <=? n)%nat && (n <? 192)%nat.

(** The number of characters of a text: of the bytes that start one. *)
Fixpoint utf8_length (s : string) : nat :=
  match s with
  | EmptyString => 0%nat
  | String c s' => if is_continuation c then utf8_length s' else S (utf8_length s')
  end.

(** [len(v)]. *)
Definition py_len (h : Heap) (v : PyVal) : Res Z :=
  match v with
  | VStr s => Ok (Z.of_nat (utf8_length s))
  | VList l => Ok (Z.of_nat (List.length l))
  | VDict d => Ok (Z.of_nat (List.length d))
  | VRef l => Ok (Z.of_nat (List.length (default [] (h !! l))))
  | _ => Raise TypeError
  end.

(** [str(z)] for an int. *)
Definition str_of_Z (z : Z) : string := NilZero.string_of_int (Z.to_int z).

(** What the embedding takes from the Python runtime and its libraries
    without defining it: date formatting, the text of a float, of a container
    and of a built-in error, and [str.lower]. *)
Record Runtime := {
  strftime_Ymd : Z -> string;
  isoformat : Z -> string;
  float_repr : Q -> string;
  container_repr : PyVal -> string;
  str_lower : string -> string;
  builtin_msg : Exn -> string
}.

(* ===================================================================== *)
(** ** The world the program runs in *)
(* ===================================================================== *)

(** An [AgentState] is a plain dict at run time ([TypedDict]). *)
Abbreviation AgentState := Dict (only parsing).

(** [state_history] is [StateManager._state_history].  [heap] holds the list
    objects.  [clock] is what [datetime.now()] reads, in milliseconds, and
    every reading advances it.  [uuid_src] and [uuid_ix] stand for
    [uuid.uuid4()]: the identifiers it will draw, and how many were drawn.
    [mcp_calls] records the abilities sent to the MCP client, oldest
    first. *)
Record World := mkWorld {
  state_history : gmap string (list AgentState);
  heap : Heap;
  clock : Z;
  uuid_src : nat -> string;
  uuid_ix : nat;
  mcp_calls : list string
}.

Definition set_history (f : gmap string (list AgentState) -> gmap string (list AgentState))
    (w : World) : World :=
  mkWorld (f (state_history w)) (heap w) (clock w) (uuid_src w) (uuid_ix w) (mcp_calls w).

Definition set_heap (f : Heap -> Heap) (w : World) : World :=
  mkWorld (state_history w) (f (heap w)) (clock w) (uuid_src w) (uuid_ix w) (mcp_calls w).

(** A computation reads and changes the world and returns or raises; what it
    changed before raising stays changed. *)
Definition M (A : Type) := World -> Res A * World.

Definition ret {A} (a : A) : M A := fun w => (Ok a, w).

Definition raise {A} (e : Exn) : M A := fun w => (Raise e, w).

Definition bind {A B} (c : M A) (k : A -> M B) : M B :=
  fun w => match c w with
           | (Ok a, w') => k a w'
           | (Raise e, w') => (Raise e, w')
           end.

(** [try: c except Exception as e: handler e]. *)
Definition try_except {A} (c : M A) (handler : Exn -> M A) : M A :=
  fun w => match c w with
           | (Ok a, w') => (Ok a, w')
           | (Raise e, w') => handler e w'
           end.

Definition lift {A} (r : Res A) : M A := fun w => (r, w).

Definition get_heap : M Heap := fun w => (Ok (heap w), w).

Declare Scope M_scope.
Delimit Scope M_scope with M.
Notation "x <- c ;; k" := (bind c (fun x => k))
  (at level 20, c at level 99, k at level 200) : M_scope.
Notation "c ;;; k" := (bind c (fun _ => k))
  (at level 100, k at level 200, right associativity) : M_scope.
Open Scope M_scope.

(** [datetime.now()]. *)
Definition now : M Z :=
  fun w => (Ok (clock w),
            mkWorld (state_history w) (heap w) (clock w + 1) (uuid_src w) (uuid_ix w)
                    (mcp_calls w)).

(** [str(uuid.uuid4())]. *)
Definition uuid4 : M string :=
  fun w => (Ok (uuid_src w (uuid_ix w)),
            mkWorld (state_history w) (heap w) (clock w) (uuid_src w) (S (uuid_ix w))
                    (mcp_calls w)).

(** A new list object [[]] (or with the given contents). *)
Definition new_list (l : list PyVal) : M PyVal :=
  fun w => let a := fresh (dom (heap w)) in
           (Ok (VRef a), set_heap (fun h => <[a := l]> h) w).

(** [v.append(x)]: [v] has to be a list.  The lists that the program
    appends to are list objects: [create_initial_state] makes the two of a
    session, and a list that an update writes under [errors] becomes one
    ([stored_value]).  A list for [execution_log] is given to an update as
    an object, as a caller in Python gives it; on a list value the append
    is outside the embedding. *)
Definition py_append (v x : PyVal) : M unit :=
  match v with
  | VRef a => fun w => (Ok tt, set_heap (fun h => <[a := (default [] (h !! a) ++ [x])%list ]> h) w)
  | VList _ => raise Unmodelled
  | _ => raise AttributeError
  end.

(** The contents of a list object. *)
Definition deref (h : Heap) (v : PyVal) : list PyVal :=
  match v with
  | VRef a => default [] (h !! a)
  | VList l => l
  | _ => []
  end.

(* ===================================================================== *)
(** ** The state manager (src/agent/state_manager.py) *)
(* ===================================================================== *)

Section StateManager.

Variable rt : Runtime.

Definition session_not_found (session_id : string) : Exn :=
  ValueError ("Session ID " +:+ session_id +:+ " not found").

(** [StateManager.create_initial_state].  The keys of the new dict are in
    the order of the constructor call. *)
Definition create_initial_state
    (customer_name email query priority ticket_id : PyVal) : M AgentState :=
  session_id <- uuid4 ;;
  current_time <- now ;;
  h <- get_heap ;;
  let ticket_id :=
    if truthy h ticket_id then ticket_id
    else VStr ("TKT-" +:+ strftime_Ymd rt current_time +:+ "-" +:+ substring 0 8 session_id) in
  execution_log <- new_list [] ;;
  errors <- new_list [] ;;
  let initial_state : AgentState :=
    [ ("customer_name", customer_name);
      ("email", email);
      ("query", query);
      ("priority", priority);
      ("ticket_id", ticket_id);
      ("parsed_request", VNone);
      ("extracted_entities", VNone);
      ("normalized_fields", VNone);
      ("enriched_records", VNone);
      ("calculated_flags", VNone);
      ("clarification_needed", VNone);
      ("questions_asked", VNone);
      ("customer_responses", VNone);
      ("knowledge_base_results", VNone);
      ("retrieved_solutions", VNone);
      ("solution_scores", VNone);
      ("escalation_decision", VNone);
      ("selected_solution", VNone);
      ("decision_reasoning", VNone);
      ("ticket_updates", VNone);
      ("ticket_status", VStr "open");
      ("generated_response", VNone);
      ("api_calls_executed", VNone);
      ("notifications_sent", VNone);
      ("final_payload", VNone);
      ("session_id", VStr session_id);
      ("current_stage", VStr "INTAKE");
      ("execution_log", execution_log);
      ("created_at", VTime current_time);
      ("updated_at", VTime current_time);
      ("errors", errors) ] in
  fun w => (Ok initial_state, set_history (fun m => <[session_id := [initial_state] ]> m) w).

Definition unknown_key_msg (key stage_name : string) : string :=
  "Unknown state key: " +:+ key +:+ " from stage " +:+ stage_name.

(** The value that [current_state[key] = value] stores.  A list given for
    [errors] is the list that later notes are appended to, by this loop and
    by [log_stage_execution]: it is a list object from here on. *)
Definition stored_value (key : string) (value : PyVal) : M PyVal :=
  if String.eqb key "errors"
  then match value with
       | VList l => new_list l
       | _ => ret value
       end
  else ret value.

(** The loop of [update_state] over [updates.items()], on the copy
    [current_state] of the latest version.  A key of the state is
    overwritten; for any other key a note is appended to
    [current_state.setdefault("errors", [])]. *)
Fixpoint apply_updates (updates : Dict) (stage_name : string)
    (current_state : AgentState) : M AgentState :=
  match updates with
  | [] => ret current_state
  | (key, value) :: rest =>
      if dict_has current_state key then
        value <- stored_value key value ;;
        apply_updates rest stage_name (dict_set current_state key value)
      else
        match dict_get current_state "errors" with
        | Some errs =>
            py_append errs (VStr (unknown_key_msg key stage_name)) ;;;
            apply_updates rest stage_name current_state
        | None =>
            errs <- new_list [] ;;
            py_append errs (VStr (unknown_key_msg key stage_name)) ;;;
            apply_updates rest stage_name (dict_set current_state "errors" errs)
        end
  end.

(** [StateManager.update_state].  [.copy()] is shallow: the copy holds the
    same values, and so the same list objects, as the latest version. *)
Definition update_state (session_id : string) (updates : Dict) (stage_name : string)
    : M AgentState :=
  fun w =>
    match state_history w !! session_id with
    | None => (Raise (session_not_found session_id), w)
    | Some hist =>
        match last hist with
        | None => (Raise IndexError, w)
        | Some latest =>
            (current_state <- apply_updates updates stage_name latest ;;
             let current_state := dict_set current_state "current_stage" (VStr stage_name) in
             t <- now ;;
             let current_state := dict_set current_state "updated_at" (VTime t) in
             fun w' =>
               (Ok current_state,
                set_history (fun m => <[session_id := (hist ++ [current_state])%list ]> m) w')) w
        end
    end.

(** [StateManager.get_current_state]. *)
Definition get_current_state (session_id : string) : M AgentState :=
  fun w =>
    match state_history w !! session_id with
    | None => (Raise (session_not_found session_id), w)
    | Some hist =>
        match last hist with
        | None => (Raise IndexError, w)
        | Some latest => (Ok latest, w)
        end
    end.

(** [StateManager.get_state_history]. *)
Definition get_state_history (session_id : string) : M (list AgentState) :=
  fun w => (Ok (default [] (state_history w !! session_id)), w).

(** [if error_message:] on an optional string. *)
Definition nonempty (s : option string) : bool :=
  match s with
  | Some m => negb (String.eqb m "")
  | None => false
  end.

(** What pydantic accepts for the field [output] of [ExecutionLog],
    declared [Optional[Dict[str, Any]]]: [None] or a dict. *)
Definition valid_output (output : option PyVal) : bool :=
  match output with
  | None | Some VNone | Some (VDict _) => true
  | Some _ => false
  end.

(** [ExecutionLog(...)].  pydantic checks the declared types of the fields
    when the model is built.  The embedding gives every field but [output]
    its declared type, so [output] is the one that can be refused. *)
Definition make_execution_log (stage_id : Z) (stage_name : string) (timestamp : Z)
    (status : StageStatus) (abilities_executed : list string)
    (server_used : option string) (duration_ms : option Z)
    (error_message : option string) (output : option PyVal) : Res ExecutionLog :=
  if valid_output output then
    Ok (mkExecutionLog stage_id stage_name timestamp status abilities_executed
                       server_used duration_ms error_message output)
  else Raise (ValidationError "ExecutionLog" "output").

(** [StateManager.log_stage_execution].  The entry is built first, then
    appended to the list object that the latest version refers to; no
    version is added. *)
Definition log_stage_execution (session_id : string) (stage_id : Z) (stage_name : string)
    (status : StageStatus) (abilities_executed : option (list string))
    (server_used : option string) (duration_ms : option Z)
    (error_message : option string) (output : option PyVal) : M unit :=
  fun w =>
    match state_history w !! session_id with
    | None => (Raise (session_not_found session_id), w)
    | Some hist =>
        (t <- now ;;
         log_entry <-
           lift (make_execution_log stage_id stage_name t status
                   (default [] abilities_executed) server_used duration_ms
                   error_message output) ;;
         match last hist with
         | None => raise IndexError
         | Some current_state =>
             match dict_get current_state "execution_log" with
             | None => raise (KeyError "execution_log")
             | Some log =>
                 py_append log (VLog log_entry) ;;;
                 if nonempty error_message then
                   match dict_get current_state "errors" with
                   | None => raise (KeyError "errors")
                   | Some errs =>
                       py_append errs
                         (VStr (stage_name +:+ ": " +:+ default "" error_message))
                   end
                 else ret tt
             end
         end) w
    end.

(** [StateManager.cleanup_session]. *)
Definition cleanup_session (session_id : string) : M unit :=
  fun w => (Ok tt, set_history (fun m => delete session_id m) w).

End StateManager.

(* ===================================================================== *)
(** ** The MCP client (src/mcp/mcp_client.py) *)
(* ===================================================================== *)

(** [MCPServerType]. *)
Inductive MCPServerType := ATLAS | COMMON.

(** [MCPRequest].  pydantic checks the declared field types when the model
    is built: [parameters] and [context] have to be dicts and [session_id] a
    string. *)
Module MCPRequest.
Record t := mk {
  ability_name : string;
  parameters : Dict;
  context : Dict;
  session_id : string;
  timestamp : Z
}.

Definition make (ability_name : string) (parameters context session_id : PyVal)
    (timestamp : Z) : Res t :=
  match parameters, context, session_id with
  | VDict p, VDict c, VStr s => Ok (mk ability_name p c s timestamp)
  | VDict _, VDict _, _ => Raise (ValidationError "MCPRequest" "session_id")
  | VDict _, _, _ => Raise (ValidationError "MCPRequest" "context")
  | _, _, _ => Raise (ValidationError "MCPRequest" "parameters")
  end.
End MCPRequest.

(** [MCPResponse].  [data] is declared [Optional[Dict[str, Any]]], so it is
  [VNone] or a dict.  [server_type] is declared [MCPServerType], with no
  default and not optional: building the model with [server_type=None] is
  refused by pydantic with a [ValidationError]. *)
Module MCPResponse.
Record t := mk {
  success : bool;
  data : PyVal;
  error : option string;
  execution_time_ms : option Z;
  server_type : MCPServerType
}.

Definition make (success : bool) (data : PyVal) (error : option string)
    (execution_time_ms : option Z) (server_type : option MCPServerType) : Res t :=
  match data, server_type with
  | (VNone | VDict _), Some st => Ok (mk success data error execution_time_ms st)
  | (VNone | VDict _), None => Raise (ValidationError "MCPResponse" "server_type")
  | _, _ => Raise (ValidationError "MCPResponse" "data")
  end.
End MCPResponse.

(** What a server answers to a request, at the time it answers: the data of
    the response, or an exception. *)
Definition Backend := MCPRequest.t -> Z -> Res PyVal.

(** [MCPClient.server_mapping]. *)
Definition server_mapping : list (string * MCPServerType) :=
  [ ("extract_entities", ATLAS);
    ("enrich_records", ATLAS);
    ("clarify_question", ATLAS);
    ("extract_answer", ATLAS);
    ("knowledge_base_search", ATLAS);
    ("escalation_decision", ATLAS);
    ("update_ticket", ATLAS);
    ("close_ticket", ATLAS);
    ("execute_api_calls", ATLAS);
    ("trigger_notifications", ATLAS);
    ("parse_request_text", COMMON);
    ("normalize_fields", COMMON);
    ("add_flags_calculations", COMMON);
    ("solution_evaluation", COMMON);
    ("response_generation", COMMON) ].

Fixpoint mapping_get (m : list (string * MCPServerType)) (k : string)
    : option MCPServerType :=
  match m with
  | [] => None
  | (k', v) :: m' => if String.eqb k k' then Some v else mapping_get m' k
  end.

(** Notes that an ability was sent to the client (a trace kept for stating
    which abilities a stage invokes; the program has no such list). *)
Definition record_call (ability_name : string) : M unit :=
  fun w => (Ok tt,
            mkWorld (state_history w) (heap w) (clock w) (uuid_src w) (uuid_ix w)
                    (mcp_calls w ++ [ability_name])%list).

Section MCPClient.

Variable rt : Runtime.

(** [str(v)], as an f-string formats a value. *)
Definition py_str (v : PyVal) : string :=
  match v with
  | VNone => "None"
  | VBool true => "True"
  | VBool false => "False"
  | VInt z => str_of_Z z
  | VFloat q => float_repr rt q
  | VStr s => s
  | _ => container_repr rt v
  end.

(** [str(e)]. *)
Definition str_exn (e : Exn) : string :=
  match e with
  | ValueError msg => msg
  | Exception_ msg => msg
  | KeyError key => "'" +:+ key +:+ "'"
  | _ => builtin_msg rt e
  end.

(** The two servers behind the client.  The repository simulates them
    ([simulate_atlas_response] and [simulate_common_response] below); the
    client and the stages are written over any pair. *)
Variable atlas common : Backend.

(** [MCPClient._call_atlas_server]. *)
Definition _call_atlas_server (request : MCPRequest.t) : M MCPResponse.t :=
  start_time <- now ;;
  try_except
    (t <- now ;;
     response_data <- lift (atlas request t) ;;
     end_time <- now ;;
     lift (MCPResponse.make true response_data None (Some (end_time - start_time))
             (Some ATLAS)))
    (fun e =>
       end_time <- now ;;
       lift (MCPResponse.make false VNone (Some (str_exn e)) (Some (end_time - start_time))
               (Some ATLAS))).

(** [MCPClient._call_common_server]. *)
Definition _call_common_server (request : MCPRequest.t) : M MCPResponse.t :=
  start_time <- now ;;
  try_except
    (t <- now ;;
     response_data <- lift (common request t) ;;
     end_time <- now ;;
     lift (MCPResponse.make true response_data None (Some (end_time - start_time))
             (Some COMMON)))
    (fun e =>
       end_time <- now ;;
       lift (MCPResponse.make false VNone (Some (str_exn e)) (Some (end_time - start_time))
               (Some COMMON))).

(** [x or dflt]. *)
Definition py_or (h : Heap) (x dflt : PyVal) : PyVal :=
  if truthy h x then x else dflt.

(** [MCPClient.execute_ability]. *)
Definition execute_ability (ability_name : string) (parameters context session_id : PyVal)
    : M MCPResponse.t :=
  record_call ability_name ;;;
  match mapping_get server_mapping ability_name with
  | None =>
      lift (MCPResponse.make false VNone (Some ("Unknown ability: " +:+ ability_name))
              None None)
  | Some server_type =>
      h <- get_heap ;;
      t <- now ;;
      request <- lift (MCPRequest.make ability_name
                         (py_or h parameters (VDict []))
                         (py_or h context (VDict []))
                         (py_or h session_id (VStr "UnknownSession"))
                         t) ;;
      match server_type with
      | ATLAS => _call_atlas_server request
      | COMMON => _call_common_server request
      end
  end.

End MCPClient.

(** *** The simulated servers *)

Section Simulation.

Variable rt : Runtime.

Definition vstrs (l : list string) : PyVal := VList (map VStr l).

(** [MCPClient._simulate_atlas_response]; [t] is the time at which
    [datetime.now()] is read for the answers that carry a timestamp. *)
Definition _simulate_atlas_response : Backend := fun request t =>
  let ability := MCPRequest.ability_name request in
  let params := MCPRequest.parameters request in
  let context := MCPRequest.context request in
  if String.eqb ability "extract_entities" then
    Ok (VDict
      [ ("entities", VDict
          [ ("product", VStr "Premium Subscription");
            ("account_id", VStr "ACC-12345");
            ("issue_type", VStr "Billing");
            ("dates_mentioned", vstrs ["2024-01-15"]);
            ("urgency_keywords", vstrs ["urgent"; "immediately"]) ]);
        ("confidence_score", VDict
          [ ("product", VFloat (95 # 100));
            ("account_id", VFloat (88 # 100));
            ("issue_type", VFloat (92 # 100)) ]) ])
  else if String.eqb ability "enrich_records" then
    Ok (VDict
      [ ("customer_tier", VStr "premium");
        ("sla_response_time", VStr "4 hours");
        ("previous_tickets", VInt 3);
        ("satisfaction_score", VFloat (42 # 10));
        ("account_value", VStr "$2,400/year");
        ("risk_flags", vstrs ["high_value_customer"]) ])
  else if String.eqb ability "clarify_question" then
    Ok (VDict
      [ ("questions needed", VBool true);
        ("questions", vstrs
          [ "Could you please provide your account ID?";
            "When did this billing issue first occur?";
            "What specific error message are you seeing?" ]);
        ("priority", VStr "high") ])
  else if String.eqb ability "extract_answer" then
    Ok (VDict
      [ ("extracted_info", VDict
          [ ("account_id", VStr "ACC-12345");
            ("error_date", VStr "2024-01-15");
            ("error_message", VStr "Payment failed - card declined") ]);
        ("completeness", VFloat (85 # 100)) ])
  else if String.eqb ability "knowledge_base_search" then
    Ok (VDict
      [ ("solutions_found", VList
          [ VDict
              [ ("id", VStr "SOL-001");
                ("title", VStr "Billing Payment Failure Resolution");
                ("relevance_score", VFloat (92 # 100));
                ("steps", vstrs
                  [ "Verify payment method is valid";
                    "Check account balance";
                    "Update billing information";
                    "Process manual payment if needed" ]);
                ("estimated_resolution_time", VStr "15 minutes") ];
            VDict
              [ ("id", VStr "SOL-002");
                ("title", VStr "Card Decline Troubleshooting");
                ("relevance_score", VFloat (87 # 100));
                ("steps", vstrs
                  [ "Contact bank to verify card status";
                    "Try alternative payment method";
                    "Update card information" ]);
                ("estimated_resolution_time", VStr "10 minutes") ] ]);
        ("total_results", VInt 2) ])
  else if String.eqb ability "escalation_decision" then
    (let solution_score := dict_get_or params "solution_score" (VInt 0) in
     b1 <-? py_lt solution_score (VInt 90) ;;
     b2 <-? py_lt solution_score (VInt 90) ;;
     b3 <-? py_lt solution_score (VInt 90) ;;
     b4 <-? py_lt solution_score (VInt 70) ;;
     Ok (VDict
       [ ("should_escalate", VBool b1);
         ("escalation_reason",
            if b2 then VStr "Solution confidence below threshold" else VNone);
         ("assigned_agent", if b3 then VStr "senior_agent_001" else VNone);
         ("escalation_priority", if b4 then VStr "high" else VStr "medium") ]))%res
  else if String.eqb ability "update_ticket" then
    Ok (VDict
      [ ("ticket_updated", VBool true);
        ("new_status", VStr "In Progress");
        ("fields_updated", vstrs ["status"; "priority"; "assigned_agent"; "sla_target"]);
        ("timestamp", VStr (isoformat rt t)) ])
  else if String.eqb ability "close_ticket" then
    Ok (VDict
      [ ("ticket_closed", VBool true);
        ("resolution_code", VStr "resolved_payment_issue");
        ("customer_satisfaction_survey_sent", VBool true);
        ("timestamp", VStr (isoformat rt t)) ])
  else if String.eqb ability "execute_api_calls" then
    Ok (VDict
      [ ("api_calls_executed", VList
          [ VDict
              [ ("system", VStr "billing_system");
                ("action", VStr "update_payment_method");
                ("success", VBool true);
                ("response_code", VInt 200) ];
            VDict
              [ ("system", VStr "crm_system");
                ("action", VStr "update_customer_record");
                ("success", VBool true);
                ("response_code", VInt 200) ] ]);
        ("total_calls", VInt 2);
        ("failures", VInt 0) ])
  else if String.eqb ability "trigger_notifications" then
    Ok (VDict
      [ ("notifications_sent", VList
          [ VDict
              [ ("type", VStr "email");
                ("recipient", dict_get_or context "email" (VStr "customer@example.com"));
                ("subject", VStr "Your support ticket has been resolved");
                ("sent", VBool true);
                ("timestamp", VStr (isoformat rt t)) ];
            VDict
              [ ("type", VStr "sms");
                ("recipient", VStr "+1234567890");
                ("message", VStr
                  "Your billing issue has been resolved. Check your email for details.");
                ("sent", VBool true);
                ("timestamp", VStr (isoformat rt t)) ] ]);
        ("delivery_status", VStr "all_sent") ])
  else
    Ok (VDict [ ("message", VStr ("Atlas ability '" +:+ ability +:+ "' executed successfully")) ]).

(** The letter that the simulated [response_generation] writes. *)
Definition simulated_letter (customer_name ticket_id : string) : string :=
  "Dear " +:+ customer_name +:+ ",

Thank you for contacting us regarding your billing issue. I've reviewed your account and identified the problem with your recent payment.

Here's what I've found and resolved:
• Your payment method was declined due to insufficient funds
• I've updated your billing information and processed the payment manually
• Your account is now current and services are fully restored

To prevent this in the future, I recommend:
• Setting up automatic payment notifications
• Adding a backup payment method to your account

Your ticket has been resolved. If you have any other questions, please don't hesitate to reach out.

Best regards,
Customer Support Team
Ticket ID: " +:+ ticket_id.

(** [MCPClient._simulate_common_response]. *)
Definition _simulate_common_response : Backend := fun request t =>
  let ability := MCPRequest.ability_name request in
  let params := MCPRequest.parameters request in
  let context := MCPRequest.context request in
  if String.eqb ability "parse_request_text" then
    Ok (VDict
      [ ("structured_request", VDict
          [ ("category", VStr "Billing");
            ("sub_category", VStr "Payment Issue");
            ("urgency", VStr "High");
            ("customer_sentiment", VStr "Frustrated");
            ("key_phrases", vstrs ["payment failed"; "card declined"; "need help"]);
            ("intent", VStr "resolve_billing_issue") ]);
        ("parsing_confidence", VFloat (91 # 100)) ])
  else if String.eqb ability "normalize_fields" then
    Ok (VDict
      [ ("normalized_data", VDict
          [ ("customer_name", VStr "Brijesh Kapadiya");
            ("email", VStr "brijesh.kapadiya@example.com");
            ("phone", VStr "+91 1234567890");
            ("priority", VStr "HIGH");
            ("created_date", VStr "2024-01-15T10:30:00Z");
            ("ticket_id", VStr "TKT-20240115-12345678") ]);
        ("normalization_rules_applied", vstrs
          [ "name_proper_case";
            "email_lowercase";
            "phone_international_format";
            "priority_uppercase";
            "date_iso_format" ]) ])
  else if String.eqb ability "add_flags_calculations" then
    Ok (VDict
      [ ("calculated_flags", VDict
          [ ("sla_risk_score", VInt 75);
            ("customer_value_tier", VStr "premium");
            ("escalation_probability", VFloat (25 # 100));
            ("resolution_complexity", VStr "medium");
            ("customer_satisfaction_risk", VStr "low") ]);
        ("priority_adjustments", VDict
          [ ("original_priority", VStr "medium");
            ("adjusted_priority", VStr "high");
            ("adjustment_reason", VStr "premium_customer + sla_risk") ]);
        ("sla_targets", VDict
          [ ("first_response", VStr "4 hours");
            ("resolution", VStr "24 hours");
            ("time_remaining", VStr "3.5 hours") ]) ])
  else if String.eqb ability "solution_evaluation" then
    Ok (VDict
      [ ("solution_scores", VDict
          [ ("SOL-001", VDict
              [ ("overall_score", VInt 92);
                ("relevance", VInt 95);
                ("complexity", VInt 20);
                ("success_rate", VInt 88);
                ("customer_satisfaction_predicted", VFloat (42 # 10)) ]);
            ("SOL-002", VDict
              [ ("overall_score", VInt 78);
                ("relevance", VInt 85);
                ("complexity", VInt 40);
                ("success_rate", VInt 72);
                ("customer_satisfaction_predicted", VFloat (38 # 10)) ]) ]);
        ("recommended_solution", VStr "SOL-001");
        ("confidence", VFloat (92 # 100));
        ("evaluation_criteria", vstrs
          [ "relevance_to_issue";
            "historical_success_rate";
            "implementation_complexity";
            "customer_satisfaction_impact" ]) ])
  else if String.eqb ability "response_generation" then
    (let customer_name := dict_get_or context "customer_name" (VStr "Valued Customer") in
     Ok (VDict
       [ ("generated_response", VStr
            (simulated_letter (py_str rt customer_name)
               (py_str rt (dict_get_or context "ticket_id" (VStr "N/A")))));
         ("response_metadata", VDict
           [ ("tone", VStr "professional_friendly");
             ("length", VStr "medium");
             ("personalization_score", VFloat (85 # 100));
             ("clarity_score", VFloat (92 # 100));
             ("completeness_score", VFloat (88 # 100)) ]) ]))
  else
    Ok (VDict [ ("message", VStr ("Common ability '" +:+ ability +:+ "' executed successfully")) ]).

End Simulation.

(* ===================================================================== *)
(** ** Stage 1: INTAKE (src/stages/stage_01_intake.py) *)
(* ===================================================================== *)

(** [d[k]] on a dict. *)
Definition item (d : Dict) (k : string) : Res PyVal :=
  match dict_get d k with
  | Some v => Ok v
  | None => Raise (KeyError k)
  end.

(** White space, as [str.strip] and [str.isspace] know it.  Of one byte:
    U+0009 to U+000D and U+001C to U+0020. *)
Definition is_space (c : ascii) : bool :=
  let n := nat_of_ascii c in
  ((9 <=? n)%nat && (n <=? 13)%nat) || ((28 <=? n)%nat && (n <=? 32)%nat).

(** Of two bytes: U+0085 (C2 85) and U+00A0 (C2 A0). *)
Definition is_space2 (c1 c2 : ascii) : bool :=
  let a := nat_of_ascii c1 in
  let b := nat_of_ascii c2 in
  (a =? 194)%nat && ((b =? 133)%nat || (b =? 160)%nat).

(** Of three bytes: U+1680 (E1 9A 80), U+2000 to U+200A (E2 80 80 to
    E2 80 8A), U+2028 and U+2029 (E2 80 A8, E2 80 A9), U+202F (E2 80 AF),
    U+205F (E2 81 9F) and U+3000 (E3 80 80). *)
Definition is_space3 (c1 c2 c3 : ascii) : bool :=
  let a := nat_of_ascii c1 in
  let b := nat_of_ascii c2 in
  let c := nat_of_ascii c3 in
  ((a =? 225)%nat && (b =? 154)%nat && (c =? 128)%nat)
  || ((a =? 226)%nat && (b =? 128)%nat
      && (((128 <=? c)%nat && (c <=? 138)%nat)
          || (c =? 168)%nat || (c =? 169)%nat || (c =? 175)%nat))
  || ((a =? 226)%nat && (b =? 129)%nat && (c =? 159)%nat)
  || ((a =? 227)%nat && (b =? 128)%nat && (c =? 128)%nat).

(** [not s.strip()]: the text is made of white space only. *)
Fixpoint is_blank (s : string) : bool :=
  match s with
  | EmptyString => true
  | String c1 s1 =>
      if is_space c1 then is_blank s1
      else
        match s1 with
        | String c2 s2 =>
            if is_space2 c1 c2 then is_blank s2
            else
              match s2 with
              | String c3 s3 => is_space3 c1 c2 c3 && is_blank s3
              | EmptyString => false
              end
        | EmptyString => false
        end
  end.

Section Intake.

Variable rt : Runtime.

(** The session a stage names when it calls the state manager with a value
    read from a state: a value that is not a string is no key of the store
    (and a list or a dict cannot even be looked up). *)
Definition session_key (v : PyVal) : Res string :=
  match v with
  | VStr s => Ok s
  | VList _ | VDict _ | VRef _ | VLog _ => Raise TypeError
  | _ => Raise (session_not_found (py_str rt v))
  end.

(** One round of the loop over the required fields in
    [_validate_payload]. *)
Definition check_required (h : Heap) (payload : Dict) (field : string) : list string :=
  if negb (truthy h (dict_get_or payload field VNone)) then
    ["Missing required field: " +:+ field]
  else
    match dict_get_or payload field VNone with
    | VStr s =>
        if is_blank s then ["Field '" +:+ field +:+ "' must be a non-empty string"] else []
    | _ => ["Field '" +:+ field +:+ "' must be a non-empty string"]
    end.

Definition valid_priorities : list string := ["low"; "medium"; "high"; "urgent"].

(** [priority in ["low", "medium", "high", "urgent"]]. *)
Definition is_valid_priority (priority : PyVal) : bool :=
  match priority with
  | VStr s => existsb (String.eqb s) valid_priorities
  | _ => false
  end.

(** [IntakeStage._validate_payload]. *)
Definition _validate_payload (h : Heap) (payload : Dict) : Res (list string) :=
  (let errors := flat_map (check_required h payload) ["customer_name"; "email"; "query"] in
   let email := dict_get_or payload "email" (VStr "") in
   errors <-?
     (if truthy h email then
        has_at <-? str_in h "@" email ;;
        Ok (if has_at then errors else errors ++ ["Invalid email format"])%list
      else Ok errors) ;;
   let priority := dict_get_or payload "priority" (VStr "medium") in
   let errors :=
     if truthy h priority && negb (is_valid_priority priority) then
       (errors ++ ["Invalid priority '" +:+ py_str rt priority
                     +:+ "'. Must be: low, medium, high, or urgent"])%list
     else errors in
   let query := dict_get_or payload "query" (VStr "") in
   n <-? py_len h query ;;
   Ok (if Z.ltb 5000 n then errors ++ ["Query too long (max 5000 characters)"] else errors)%list
  )%res.

(** [IntakeStage.execute].  It returns the initial state, or [None] when
    the [except] branch runs to its end: that branch has no [raise].
    Durations are whole milliseconds. *)
Definition intake_execute (input_payload : Dict) : M PyVal :=
  start_time <- now ;;
  try_except
    (h <- get_heap ;;
     validation_errors <- lift (_validate_payload h input_payload) ;;
     match validation_errors with
     | _ :: _ =>
         raise (ValueError ("Payload validation failed: " +:+ String.concat "," validation_errors))
     | [] =>
         customer_name <- lift (item input_payload "customer_name") ;;
         email <- lift (item input_payload "email") ;;
         query <- lift (item input_payload "query") ;;
         let priority := dict_get_or input_payload "priority" (VStr "medium") in
         let ticket_id := dict_get_or input_payload "ticket_id" VNone in
         initial_state <- create_initial_state rt customer_name email query priority ticket_id ;;
         end_time <- now ;;
         sid <- lift (sv <-? item initial_state "session_id" ;; session_key sv)%res ;;
         tid <- lift (item initial_state "ticket_id") ;;
         sidv <- lift (item initial_state "session_id") ;;
         log_stage_execution sid 1 "INTAKE" COMPLETED (Some ["accept_payload"]) None
           (Some (end_time - start_time)) None
           (Some (VDict [("ticket_id", tid); ("session_id", sidv);
                         ("validation_passed", VBool true)])) ;;;
         ret (VDict initial_state)
     end)
    (fun e =>
       end_time <- now ;;
       try_except
         (session_state <-
            create_initial_state rt
              (dict_get_or input_payload "customer_name" (VStr "Unknown"))
              (dict_get_or input_payload "email" (VStr "unknown@example.com"))
              (dict_get_or input_payload "query" (VStr "Failed to process"))
              (VStr "high") VNone ;;
          sid <- lift (sv <-? item session_state "session_id" ;; session_key sv)%res ;;
          log_stage_execution sid 1 "INTAKE" FAILED (Some ["accept_payload"]) None
            (Some (end_time - start_time)) (Some (str_exn rt e)) None)
         (fun _ => ret tt) ;;;
       ret VNone).

End Intake.

(* ===================================================================== *)
(** ** Stages 5, 7 and 8 (src/stages) *)
(* ===================================================================== *)

Section Stages.

Variable rt : Runtime.
Variable atlas common : Backend.

(** The [except Exception as e:] branch that the stages share: the failure
    is logged with the abilities executed so far and the exception is raised
    again. *)
Definition log_failure (session_id : string) (stage_id : Z) (stage_name : string)
    (start_time : Z) (abilities_executed : list string) (e : Exn) : M unit :=
  end_time <- now ;;
  log_stage_execution session_id stage_id stage_name FAILED (Some abilities_executed) None
    (Some (end_time - start_time)) (Some (str_exn rt e)) None.

Definition on_failure {A} (session_id : string) (stage_id : Z) (stage_name : string)
    (start_time : Z) (abilities_executed : list string) (c : M A) : M A :=
  try_except c
    (fun e =>
       log_failure session_id stage_id stage_name start_time abilities_executed e ;;;
       raise e).

(** The same branch reached while the local [abilities_executed] is not
    bound yet, in a stage that reads it without a guard: evaluating the
    arguments of the logging call raises [UnboundLocalError]. *)
Definition on_failure_unbound {A} (c : M A) : M A :=
  try_except c
    (fun e => _ <- now ;; raise (UnboundLocalError "abilities_executed")).

(** [if not response.success: raise Exception(f"<what>: {response.error}")],
    then [return response.data]. *)
Definition data_or_raise (what : string) (response : MCPResponse.t) : M PyVal :=
  if MCPResponse.success response then ret (MCPResponse.data response)
  else raise (Exception_
                (what +:+ ": " +:+
                 match MCPResponse.error response with Some m => m | None => "None" end)).

(** *** Stage 5: WAIT (stage_05_wait.py) *)

(** [WaitStage._extract_answer]. *)
Definition _extract_answer (state : Dict) (customer_responses : PyVal) : M PyVal :=
  query <- lift (item state "query") ;;
  customer_name <- lift (item state "customer_name") ;;
  let context :=
    VDict [ ("questions_asked", dict_get_or state "questions_asked" (VList []));
            ("customer_responses", customer_responses);
            ("original_query", query);
            ("customer_name", customer_name) ] in
  sid <- lift (item state "session_id") ;;
  response <- execute_ability rt atlas common "extract_answer" (VDict []) context sid ;;
  data_or_raise "Failed to extract customer answers" response.

(** [WaitStage._store_answer]. *)
Definition _store_answer (extracted_data : PyVal) : M Dict :=
  t <- now ;;
  completeness <- lift (py_get extracted_data "completeness" (VFloat 1)) ;;
  ret [ ("customer_responses", extracted_data);
        ("waiting_for_response", VBool false);
        ("responses_received_at", VStr (isoformat rt t));
        ("response_completeness", completeness) ].

(** [f"{v:.2%}"] raises unless [v] is a number; its text is only logged. *)
Definition format_percent (v : PyVal) : Res unit :=
  match as_num v with
  | Some _ => Ok tt
  | None => Raise TypeError
  end.

(** [WaitStage.execute]. *)
Definition wait_execute (session_id : string) (customer_responses : PyVal) : M Dict :=
  start_time <- now ;;
  r <- on_failure_unbound
    (current_state <- get_current_state session_id ;;
     h <- get_heap ;;
     if negb (truthy h (dict_get_or current_state "clarification_needed" (VBool false))) then
       end_time <- now ;;
       log_stage_execution session_id 5 "WAIT" SKIPPED (Some []) None
         (Some (end_time - start_time)) None
         (Some (VDict [("reason", VStr "No clarification needed")])) ;;;
       ret (inl current_state)
     else if negb (truthy h customer_responses) then
       t <- now ;;
       let results :=
         [ ("customer_responses", VNone);
           ("waiting_for_response", VBool true);
           ("questions_sent_at", VStr (isoformat rt t)) ] in
       updated_state <- update_state session_id results "WAIT" ;;
       end_time <- now ;;
       log_stage_execution session_id 5 "WAIT" IN_PROGRESS (Some []) None
         (Some (end_time - start_time)) None
         (Some (VDict [("status", VStr "waiting_for_customer_response")])) ;;;
       ret (inl updated_state)
     else ret (inr current_state)) ;;
  match r with
  | inl state => ret state
  | inr current_state =>
      extract_result <- on_failure session_id 5 "WAIT" start_time []
                          (_extract_answer current_state customer_responses) ;;
      store_result <- on_failure session_id 5 "WAIT" start_time ["extract_answer"]
                        (_store_answer extract_result) ;;
      on_failure session_id 5 "WAIT" start_time ["extract_answer"; "store_answer"]
        (let results := dict_update [] store_result in
         updated_state <- update_state session_id results "WAIT" ;;
         end_time <- now ;;
         log_stage_execution session_id 5 "WAIT" COMPLETED
           (Some ["extract_answer"; "store_answer"]) (Some "ATLAS,STATE")
           (Some (end_time - start_time)) None (Some (VDict results)) ;;;
         h <- get_heap ;;
         info <- lift (py_get extract_result "extracted_info" (VDict [])) ;;
         _ <- lift (py_len h info) ;;
         completeness <- lift (py_get extract_result "completeness" (VInt 0)) ;;
         _ <- lift (format_percent completeness) ;;
         ret updated_state)
  end.

(** [WaitStage.is_waiting_for_response]. *)
Definition is_waiting_for_response (session_id : string) : M PyVal :=
  try_except
    (current_state <- get_current_state session_id ;;
     ret (dict_get_or current_state "waiting_for_response" (VBool false)))
    (fun _ => ret (VBool false)).

(** *** Stage 7: DECIDE (stage_07_decide.py) *)

(** [DecideStage.escalation_threshold]. *)
Definition escalation_threshold : Z := 90.

(** [DecideStage._evaluate_solutions]. *)
Definition _evaluate_solutions (state : Dict) : M PyVal :=
  customer_tier <- lift (py_get (dict_get_or state "enriched_records" (VDict []))
                           "customer_tier" (VStr "standard")) ;;
  priority <- lift (item state "priority") ;;
  let context :=
    VDict [ ("retrieved_solutions", dict_get_or state "retrieved_solutions" (VList []));
            ("customer_tier", customer_tier);
            ("priority", priority);
            ("extracted_entities", dict_get_or state "extracted_entities" (VDict []));
            ("customer_history", dict_get_or state "enriched_records" (VDict [])) ] in
  sid <- lift (item state "session_id") ;;
  response <- execute_ability rt atlas common "solution_evaluation"
                (VDict [ ("scoring_method", VStr "weighted_average");
                         ("criteria", vstrs ["relevance"; "complexity"; "success_rate";
                                             "customer_satisfaction"]) ])
                context sid ;;
  data_or_raise "Failed to evaluate solutions" response.

(** [DecideStage._make_escalation_decision]. *)
Definition _make_escalation_decision (state : Dict) (solution_evaluation best_score : PyVal)
    : M PyVal :=
  customer_tier <- lift (py_get (dict_get_or state "enriched_records" (VDict []))
                           "customer_tier" (VStr "standard")) ;;
  priority <- lift (item state "priority") ;;
  sla_risk <- lift (py_get (dict_get_or state "calculated_flags" (VDict []))
                      "sla_risk_score" (VInt 50)) ;;
  satisfaction_risk <- lift (py_get (dict_get_or state "calculated_flags" (VDict []))
                               "customer_satisfaction_risk" (VStr "medium")) ;;
  let context :=
    VDict [ ("solution_scores", solution_evaluation);
            ("best_score", best_score);
            ("escalation_threshold", VInt escalation_threshold);
            ("customer_tier", customer_tier);
            ("priority", priority);
            ("sla_risk", sla_risk);
            ("customer_satisfaction_risk", satisfaction_risk) ] in
  sid <- lift (item state "session_id") ;;
  response <- execute_ability rt atlas common "escalation_decision"
                (VDict [ ("solution_score", best_score);
                         ("threshold", VInt escalation_threshold) ])
                context sid ;;
  data_or_raise "Failed to make escalation decision" response.

(** The loop of [_find_best_solution] over [solution_scores.items()]: a
    solution replaces the best one only when its [overall_score] is strictly
    greater. *)
Fixpoint best_loop (items : Dict) (best_solution_id best_score : PyVal)
    : Res (PyVal * PyVal) :=
  match items with
  | [] => Ok (best_solution_id, best_score)
  | (solution_id, scores) :: rest =>
      (overall_score <-? py_get scores "overall_score" (VInt 0) ;;
       better <-? py_gt overall_score best_score ;;
       if better then best_loop rest (VStr solution_id) overall_score
       else best_loop rest best_solution_id best_score)%res
  end.

(** [d.get(k, {})] for a key that is [None] or a string. *)
Definition details_of (solution_scores : Dict) (best_solution_id : PyVal) : PyVal :=
  match best_solution_id with
  | VStr s => dict_get_or solution_scores s (VDict [])
  | _ => VDict []
  end.

(** [DecideStage._find_best_solution]: the best solution's details and its
    score. *)
Definition _find_best_solution (h : Heap) (solution_evaluation : PyVal)
    : Res (PyVal * PyVal) :=
  (solution_scores <-? py_get solution_evaluation "solution_scores" (VDict []) ;;
   if negb (truthy h solution_scores) then Ok (VDict [], VFloat 0)
   else
     match solution_scores with
     | VDict scores =>
         best <-? best_loop scores VNone (VFloat 0) ;;
         recommended_solution_id <-? py_get solution_evaluation "recommended_solution" VNone ;;
         best <-?
           (if truthy h recommended_solution_id then
              present <-? in_dict recommended_solution_id scores ;;
              if present then
                recommended <-?
                  match recommended_solution_id with
                  | VStr s => item scores s
                  | _ => Raise TypeError
                  end ;;
                score <-? py_item recommended "overall_score" ;;
                Ok (recommended_solution_id, score)
              else Ok best
            else Ok best) ;;
         let best_solution :=
           VDict [ ("solution_id", fst best);
                   ("score", snd best);
                   ("details", details_of scores (fst best)) ] in
         Ok (best_solution, snd best)
     | _ => Raise AttributeError
     end)%res.

(** [DecideStage.execute].  Its [except] branch reads [abilities_executed]
    behind a guard, so that an unbound name counts as the empty list. *)
Definition decide_execute (session_id : string) : M Dict :=
  start_time <- now ;;
  current_state <- on_failure session_id 7 "DECIDE" start_time []
    (current_state <- get_current_state session_id ;;
     h <- get_heap ;;
     if negb (truthy h (dict_get_or current_state "retrieved_solutions" VNone)) then
       raise (Exception_ "No solutions found to evaluate")
     else ret current_state) ;;
  solution_evaluation <- on_failure session_id 7 "DECIDE" start_time []
    (_evaluate_solutions current_state) ;;
  let results := [("solution_scores", solution_evaluation)] in
  branch <- on_failure session_id 7 "DECIDE" start_time ["solution_evaluation"]
    (h <- get_heap ;;
     best <- lift (_find_best_solution h solution_evaluation) ;;
     let best_solution := fst best in
     let best_score := snd best in
     below <- lift (py_lt best_score (VInt escalation_threshold)) ;;
     if below then
       escalation_result <- _make_escalation_decision current_state solution_evaluation
                              best_score ;;
       ret (true, best_score, escalation_result)
     else ret (false, best_score, best_solution)) ;;
  let '(escalated, best_score, payload) := branch in
  let abilities_executed :=
    if escalated then ["solution_evaluation"; "escalation_decision"]
    else ["solution_evaluation"] in
  let results :=
    if escalated then
      (results ++
       [ ("escalation_decision", VBool true);
         ("escalation_details", payload);
         ("selected_solution", VNone);
         ("decision_reasoning",
            VStr ("Escalated due to low solution score (" +:+ py_str rt best_score +:+ ")")) ])%list
    else
      (results ++
       [ ("escalation_decision", VBool false);
         ("selected_solution", payload);
         ("decision_reasoning",
            VStr ("Auto-resolved with solution score " +:+ py_str rt best_score)) ])%list in
  results <- on_failure session_id 7 "DECIDE" start_time abilities_executed
    (t <- now ;;
     confidence <- lift (py_get solution_evaluation "confidence" (VFloat (1 # 2))) ;;
     ret (results ++ [ ("decision_timestamp", VStr (isoformat rt t));
                       ("decision_confidence", confidence) ])%list) ;;
  let abilities_executed := (abilities_executed ++ ["update_payload"])%list in
  on_failure session_id 7 "DECIDE" start_time abilities_executed
    (updated_state <- update_state session_id results "DECIDE" ;;
     end_time <- now ;;
     log_stage_execution session_id 7 "DECIDE" COMPLETED (Some abilities_executed)
       (Some "COMMON,ATLAS") (Some (end_time - start_time)) None (Some (VDict results)) ;;;
     ret updated_state).

(** *** Stage 8: UPDATE (stage_08_update.py) *)

(** [UpdateStage._should_close_ticket]. *)
Definition _should_close_ticket (h : Heap) (state : Dict) : Res bool :=
  if truthy h (dict_get_or state "escalation_decision" (VBool false)) then Ok false
  else
    let selected_solution := dict_get_or state "selected_solution" VNone in
    if truthy h selected_solution then
      (let solution_scores := dict_get_or state "solution_scores" (VDict []) in
       solution_id <-? py_get selected_solution "id" VNone ;;
       if truthy h solution_id then
         scores <-?
           match solution_scores, solution_id with
           | VDict d, VStr s => Ok (dict_get_or d s (VDict []))
           | VDict d, (VList _ | VDict _ | VRef _ | VLog _) => Raise TypeError
           | VDict d, _ => Ok (VDict [])
           | _, _ => Raise AttributeError
           end ;;
         overall_score <-? py_get scores "overall_score" (VInt 0) ;;
         high <-? py_ge overall_score (VInt 85) ;;
         Ok high
       else Ok false)%res
    else Ok false.

(** [UpdateStage._prepare_update_parameters].  [fields_to_update] is the
    list that the function extends while it fills the dict. *)
Definition _prepare_update_parameters (h : Heap) (state : Dict) : Res PyVal :=
  (let escalated := truthy h (dict_get_or state "escalation_decision" (VBool false)) in
   let status_params :=
     if escalated then
       [ ("new_status", VStr "escalated");
         ("assigned_agent", VStr "human_agent");
         ("priority", VStr "high") ]
     else [ ("new_status", VStr "in_progress") ] in
   let status_fields :=
     if escalated then ["new_status"; "assigned_agent"; "priority"] else ["new_status"] in
   let selected_solution := dict_get_or state "selected_solution" VNone in
   solution <-?
     (if truthy h selected_solution then
        title <-? py_get selected_solution "title" VNone ;;
        time <-? py_get selected_solution "estimated_resolution_time" VNone ;;
        Ok ([ ("resolution_approach", title); ("estimated_resolution_time", time) ],
            ["resolution_approach"; "estimated_resolution_time"])
      else Ok ([], [])) ;;
   let calculated_flags := dict_get_or state "calculated_flags" (VDict []) in
   has_sla <-? str_in h "sla_targets" calculated_flags ;;
   sla <-?
     (if has_sla then
        targets <-? py_item calculated_flags "sla_targets" ;;
        resolution <-? py_item targets "resolution" ;;
        Ok ([ ("sla_target", resolution) ], ["sla_target"])
      else Ok ([], [])) ;;
   Ok (VDict
         (("fields_to_update", vstrs (status_fields ++ snd solution ++ snd sla))
          :: status_params ++ fst solution ++ fst sla)%list))%res.

(** [UpdateStage._update_ticket]. *)
Definition _update_ticket (state : Dict) : M PyVal :=
  ticket_id <- lift (item state "ticket_id") ;;
  customer_name <- lift (item state "customer_name") ;;
  let context :=
    VDict [ ("ticket_id", ticket_id);
            ("customer_name", customer_name);
            ("escalation_decision", dict_get_or state "escalation_decision" VNone);
            ("selected_solution", dict_get_or state "selected_solution" VNone);
            ("decision_reasoning", dict_get_or state "decision_reasoning" VNone);
            ("solution_scores", dict_get_or state "solution_scores" VNone);
            ("enriched_records", dict_get_or state "enriched_records" VNone);
            ("calculated_flags", dict_get_or state "calculated_flags" VNone) ] in
  h <- get_heap ;;
  parameters <- lift (_prepare_update_parameters h state) ;;
  sid <- lift (item state "session_id") ;;
  response <- execute_ability rt atlas common "update_ticket" parameters context sid ;;
  data_or_raise "Failed to update ticket" response.

(** [UpdateStage._determine_resolution_code]. *)
Definition _determine_resolution_code (state : Dict) : Res string :=
  (title <-? py_get (dict_get_or state "selected_solution" (VDict [])) "title" (VStr "") ;;
   match title with
   | VStr s =>
       let solution_title := str_lower rt s in
       Ok (if str_contains "billing" solution_title || str_contains "payment" solution_title
           then "resolved_billing_issue"
           else if str_contains "account" solution_title || str_contains "login" solution_title
           then "resolved_account_issue"
           else if str_contains "technical" solution_title || str_contains "bug" solution_title
           then "resolved_technical_issue"
           else "resolved_general_inquiry")
   | _ => Raise AttributeError
   end)%res.

(** [UpdateStage._generate_resolution_summary]. *)
Definition _generate_resolution_summary (h : Heap) (state : Dict) : Res string :=
  (let selected_solution := dict_get_or state "selected_solution" (VDict []) in
   let customer_name := dict_get_or state "customer_name" (VStr "Customer") in
   title <-? py_get selected_solution "title" (VStr "Standard Resolution") ;;
   let summary :=
     "Issue resolved for " +:+ py_str rt customer_name +:+ " using solution: "
       +:+ py_str rt title +:+ ". " in
   has_steps <-? str_in h "steps" selected_solution ;;
   summary <-?
     (if has_steps then
        steps <-? py_item selected_solution "steps" ;;
        n <-? py_len h steps ;;
        Ok (summary +:+ "Resolution involved " +:+ str_of_Z n +:+ " steps. ")
      else Ok summary) ;;
   let decision_reasoning := dict_get_or state "decision_reasoning" VNone in
   Ok (if truthy h decision_reasoning
       then summary +:+ "Decision rationale: " +:+ py_str rt decision_reasoning
       else summary))%res.

(** [UpdateStage._close_ticket]. *)
Definition _close_ticket (state : Dict) : M PyVal :=
  ticket_id <- lift (item state "ticket_id") ;;
  customer_name <- lift (item state "customer_name") ;;
  h <- get_heap ;;
  summary <- lift (_generate_resolution_summary h state) ;;
  let context :=
    VDict [ ("ticket_id", ticket_id);
            ("customer_name", customer_name);
            ("selected_solution", dict_get_or state "selected_solution" VNone);
            ("resolution_summary", VStr summary) ] in
  code <- lift (_determine_resolution_code state) ;;
  let parameters :=
    VDict [ ("resolution_code", VStr code);
            ("customer_satisfaction_survey", VBool true);
            ("follow_up_required", VBool false) ] in
  sid <- lift (item state "session_id") ;;
  response <- execute_ability rt atlas common "close_ticket" parameters context sid ;;
  data_or_raise "Failed to close ticket" response.

(** [UpdateStage.execute].  Its [except] branch reads [abilities_executed]
    without a guard. *)
Definition update_execute (session_id : string) : M Dict :=
  start_time <- now ;;
  current_state <- on_failure_unbound
    (current_state <- get_current_state session_id ;;
     h <- get_heap ;;
     if negb (truthy h (dict_get_or current_state "escalation_decision" VNone))
        && negb (truthy h (dict_get_or current_state "selected_solution" VNone)) then
       raise (Exception_ "Missing decision information from DECIDE stage")
     else ret current_state) ;;
  update_result <- on_failure session_id 8 "UPDATE" start_time []
    (_update_ticket current_state) ;;
  let results := [("ticket_updates", update_result)] in
  close <- on_failure session_id 8 "UPDATE" start_time ["update_ticket"]
    (h <- get_heap ;;
     should_close <- lift (_should_close_ticket h current_state) ;;
     if should_close then _ <- _close_ticket current_state ;; ret true
     else ret false) ;;
  let abilities_executed :=
    if close then ["update_ticket"; "close_ticket"] else ["update_ticket"] in
  on_failure session_id 8 "UPDATE" start_time abilities_executed
    (ticket_status <-
       (if close then ret (VStr "closed")
        else lift (py_get update_result "new_status" (VStr "in_progress"))) ;;
     let results := (results ++ [("ticket_status", ticket_status)])%list in
     updated_state <- update_state session_id results "UPDATE" ;;
     end_time <- now ;;
     log_stage_execution session_id 8 "UPDATE" COMPLETED (Some abilities_executed)
       (Some "ATLAS") (Some (end_time - start_time)) None (Some (VDict results)) ;;;
     ret updated_state).

End Stages.

(* ===================================================================== *)
(** ** More of the state manager and of the orchestrator *)
(* ===================================================================== *)

Definition status_value (s : StageStatus) : string :=
  match s with
  | PENDING => "pending"
  | IN_PROGRESS => "in_progress"
  | COMPLETED => "completed"
  | FAILED => "failed"
  | SKIPPED => "skipped"
  end.

Definition status_eqb (a b : StageStatus) : bool :=
  String.eqb (status_value a) (status_value b).

Definition opt_val {A} (f : A -> PyVal) (o : option A) : PyVal :=
  match o with
  | Some a => f a
  | None => VNone
  end.

(** What iterating over an [ExecutionLog] yields: pydantic models iterate
    over their (field name, value) pairs. *)
Definition log_pairs (e : ExecutionLog_ PyVal) : list PyVal :=
  [ VList [VStr "stage_id"; VInt (stage_id e)];
    VList [VStr "stage_name"; VStr (stage_name e)];
    VList [VStr "timestamp"; VTime (timestamp e)];
    VList [VStr "status"; VStr (status_value (status e))];
    VList [VStr "abilities_executed"; VList (map VStr (abilities_executed e))];
    VList [VStr "server_used"; opt_val VStr (server_used e)];
    VList [VStr "duration_ms"; opt_val VInt (duration_ms e)];
    VList [VStr "error_message"; opt_val VStr (error_message e)];
    VList [VStr "output"; opt_val (fun v => v) (output e)] ].

(** The characters of a text: every byte that starts a character, with the
    bytes that continue it.  [chars_from s] gives the continuation bytes at
    the head of [s], which belong to a character that started before, and
    the characters after them. *)
Fixpoint chars_from (s : string) : string * list PyVal :=
  match s with
  | EmptyString => (EmptyString, [])
  | String c s' =>
      let (pending, chars) := chars_from s' in
      if is_continuation c then (String c pending, chars)
      else (EmptyString, VStr (String c pending) :: chars)
  end.

Definition chars_of (s : string) : list PyVal :=
  let (pending, chars) := chars_from s in
  match pending with
  | EmptyString => chars
  | _ => VStr pending :: chars
  end.

(** The items of [for x in v]. *)
Definition py_iter (h : Heap) (v : PyVal) : Res (list PyVal) :=
  match v with
  | VRef l => Ok (default [] (h !! l))
  | VList l => Ok l
  | VDict d => Ok (map (fun kv => VStr (fst kv)) d)
  | VStr s => Ok (chars_of s)
  | VLog e => Ok (log_pairs e)
  | _ => Raise TypeError
  end.

(** The loop of [is_stage_completed]: only an [ExecutionLog] has the
    attributes [stage_name] and [status]. *)
Fixpoint completed_among (items : list PyVal) (stage : string) : Res bool :=
  match items with
  | [] => Ok false
  | VLog e :: rest =>
      if String.eqb (stage_name e) stage && status_eqb (status e) COMPLETED then Ok true
      else completed_among rest stage
  | _ :: _ => Raise AttributeError
  end.

(** [StateManager.is_stage_completed]. *)
Definition is_stage_completed (session_id stage : string) : M bool :=
  fun w =>
    match state_history w !! session_id with
    | None => (Ok false, w)
    | Some hist =>
        match last hist with
        | None => (Raise IndexError, w)
        | Some current_state =>
            (match dict_get current_state "execution_log" with
             | None => Raise (KeyError "execution_log")
             | Some log =>
                 res_bind (py_iter (heap w) log) (fun items => completed_among items stage)
             end, w)
        end
    end.

(** The loop of [get_stage_output]: the output of the first entry with
    the stage's name. *)
Fixpoint output_among (items : list PyVal) (stage : string) : Res PyVal :=
  match items with
  | [] => Ok VNone
  | VLog e :: rest =>
      if String.eqb (stage_name e) stage then Ok (opt_val (fun v => v) (output e))
      else output_among rest stage
  | _ :: _ => Raise AttributeError
  end.

(** [StateManager.get_stage_output]. *)
Definition get_stage_output (session_id stage : string) : M PyVal :=
  fun w =>
    match state_history w !! session_id with
    | None => (Ok VNone, w)
    | Some hist =>
        match last hist with
        | None => (Raise IndexError, w)
        | Some current_state =>
            (match dict_get current_state "execution_log" with
             | None => Raise (KeyError "execution_log")
             | Some log =>
                 res_bind (py_iter (heap w) log) (fun items => output_among items stage)
             end, w)
        end
    end.

(** [LangGraphCustomerSupportAgent._decide_next_stage]
    (src/agent/langgraph_agent.py). *)
Definition _decide_next_stage (h : Heap) (state : Dict) : string :=
  if truthy h (dict_get_or state "escalation_decision" (VBool false)) then "escalate"
  else "update".

(** One round of the loop of [_calculate_processing_time]: an item without
    a [duration_ms] attribute, or with none or zero, adds nothing. *)
Definition duration_of (item : PyVal) : Z :=
  match item with
  | VLog e => match duration_ms e with Some d => d | None => 0 end
  | _ => 0
  end.

(** [LangGraphCustomerSupportAgent._calculate_processing_time]. *)
Definition _calculate_processing_time (h : Heap) (state : Dict) : Res Z :=
  res_bind (py_iter h (dict_get_or state "execution_log" (VList [])))
    (fun items => Ok (fold_left (fun total item => total + duration_of item) items 0)).

Section Orchestrator.

Variable rt : Runtime.

(** [LangGraphCustomerSupportAgent._simulate_stage_execution]: the entry is
    logged first, the state updated after. *)
Definition _simulate_stage_execution (state : Dict) (stage : string) (stage_id : Z)
    : M Dict :=
  sid <- lift (res_bind (item state "session_id") (session_key rt)) ;;
  log_stage_execution sid stage_id stage COMPLETED
    (Some ["simulated_" +:+ str_lower rt stage]) (Some "SIMULATED") (Some 100) None
    (Some (VDict [("simulated", VBool true); ("stage", VStr stage)])) ;;;
  updates <-
    (if String.eqb stage "CREATE" then
       customer_name <- lift (item state "customer_name") ;;
       ret [ ("generated_response",
              VStr ("Dear " +:+ py_str rt customer_name
                      +:+ ", your issue has been resolved successfully.")) ]
     else ret []) ;;
  sid <- lift (res_bind (item state "session_id") (session_key rt)) ;;
  update_state sid updates stage.

End Orchestrator.

(* ===================================================================== *)
(** ** Scenarios: drivers and sample inputs for the properties below *)
(* ===================================================================== *)

(** A world with no session, an empty heap and a numbered supply of session
    identifiers, used to run the operations on concrete inputs. *)
Definition empty_world : World :=
  mkWorld ∅ ∅ 0 (fun n => "session-" +:+ str_of_Z (Z.of_nat n)) 0 [].

(** Runs a computation and keeps the world it leaves. *)
Definition exec {A} (c : M A) (w : World) : World := snd (c w).

(** Runs a computation and keeps what it returned or raised. *)
Definition eval {A} (c : M A) (w : World) : Res A := fst (c w).

(** The scenario of the history invariant: [update_state] is called on one
    session with each element of [calls] in turn, a caller catching what a
    call raises; the number of calls that returned is counted. *)
Fixpoint run_updates (session_id : string) (calls : list (Dict * string)) (w : World)
    : nat * World :=
  match calls with
  | [] => (0%nat, w)
  | (updates, stage) :: rest =>
      let (r, w1) := update_state session_id updates stage w in
      let (n, w2) := run_updates session_id rest w1 in
      (match r with Ok _ => S n | Raise _ => n end, w2)
  end.

(** The calls that the stages make on the store after a session was
    created. *)
Inductive StoreOp :=
| OpUpdate (session_id : string) (updates : Dict) (stage_name : string)
| OpLog (session_id : string) (stage_id : Z) (stage_name : string) (status : StageStatus)
        (abilities : option (list string)) (server : option string)
        (duration : option Z) (error_message : option string) (output : option PyVal).

Definition run_op (op : StoreOp) : M unit :=
  match op with
  | OpUpdate session_id updates stage => _ <- update_state session_id updates stage ;; ret tt
  | OpLog session_id sid stage st abilities server duration err out =>
      log_stage_execution session_id sid stage st abilities server duration err out
  end.

(** The calls are made one after the other, the caller catching what one
    raises. *)
Fixpoint run_ops (ops : list StoreOp) (w : World) : World :=
  match ops with
  | [] => w
  | op :: rest => run_ops rest (exec (run_op op) w)
  end.

(** An update that gives no new value to [execution_log] or [errors]. *)
Definition keeps_lists (op : StoreOp) : bool :=
  match op with
  | OpUpdate _ updates _ =>
      negb (dict_has updates "execution_log") && negb (dict_has updates "errors")
  | OpLog _ _ _ _ _ _ _ _ _ => true
  end.

(** Every version of the session refers to the list objects [a] and [b]. *)
Definition shares_lists (session_id : string) (a b : nat) (w : World) : Prop :=
  exists hist,
    state_history w !! session_id = Some hist /\
    hist <> [] /\
    Forall (fun v => dict_get v "execution_log" = Some (VRef a) /\
                     dict_get v "errors" = Some (VRef b)) hist.

(** [str.lower] on ASCII letters. *)
Definition ascii_lower (c : ascii) : ascii :=
  let n := nat_of_ascii c in
  if (65 <=? n)%nat && (n <=? 90)%nat then ascii_of_nat (n + 32) else c.

Fixpoint lower_ascii_string (s : string) : string :=
  match s with
  | EmptyString => EmptyString
  | String c s' => String (ascii_lower c) (lower_ascii_string s')
  end.

(** A runtime for running the embedding on concrete inputs: times are
    printed as their number of milliseconds, floats as a fraction, and only
    ASCII letters are lowered. *)
Definition sample_runtime : Runtime :=
  {| strftime_Ymd := str_of_Z;
     isoformat := str_of_Z;
     float_repr := fun q => str_of_Z (Qnum q) +:+ "/" +:+ str_of_Z (Zpos (Qden q));
     container_repr := fun _ => "<object>";
     str_lower := lower_ascii_string;
     builtin_msg := fun _ => "error" |}.

(** The store calls of an UNDERSTAND stage on the first session of
    [empty_world]. *)
Definition understand_ops : list StoreOp :=
  [ OpUpdate "session-0"
      [("parsed_request", VDict [("category", VStr "Billing")]);
       ("extracted_entities", VDict [("issue_type", VStr "Billing")])]
      "UNDERSTAND";
    OpLog "session-0" 2 "UNDERSTAND" COMPLETED
      (Some ["parse_request_text"; "extract_entities"]) (Some "COMMON,ATLAS") (Some 150)
      None None ].

(** A caller that gives the [execution_log] key a new list in an update,
    then logs a stage execution and reads the history. *)
Definition rebind_then_log : M (list Dict) :=
  _ <- create_initial_state sample_runtime (VStr "Jane Doe") (VStr "jane@x.com")
         (VStr "payment failed") (VStr "high") VNone ;;
  l <- new_list [] ;;
  _ <- update_state "session-0" [("execution_log", l)] "UNDERSTAND" ;;
  log_stage_execution "session-0" 2 "UNDERSTAND" COMPLETED (Some ["parse_request_text"])
    (Some "COMMON") (Some 5) None None ;;;
  get_state_history "session-0".

(** A payload without an email address. *)
Definition payload_without_email : Dict :=
  [ ("customer_name", VStr "Jane Doe");
    ("query", VStr "payment failed");
    ("priority", VStr "high") ].

(** The world after the client has handled one ability on a server: four
    readings of the clock, and the ability added to the trace. *)
Definition after_call (ability_name : string) (w : World) : World :=
  mkWorld (state_history w) (heap w) (clock w + 1 + 1 + 1 + 1) (uuid_src w) (uuid_ix w)
          (mcp_calls w ++ [ability_name])%list.

(** The keys of [AgentState], in the order of the class. *)
Definition state_keys : list string :=
  [ "customer_name"; "email"; "query"; "priority"; "ticket_id";
    "parsed_request"; "extracted_entities";
    "normalized_fields"; "enriched_records"; "calculated_flags";
    "clarification_needed"; "questions_asked";
    "customer_responses";
    "knowledge_base_results"; "retrieved_solutions";
    "solution_scores"; "escalation_decision"; "selected_solution"; "decision_reasoning";
    "ticket_updates"; "ticket_status";
    "generated_response";
    "api_calls_executed"; "notifications_sent";
    "final_payload";
    "session_id"; "current_stage"; "execution_log"; "created_at"; "updated_at"; "errors" ].

(** A dict that has every key of [AgentState]. *)
Definition is_agent_state (st : Dict) : Prop :=
  forall k, In k state_keys -> dict_has st k = true.

(** What a key holds after the loop of [update_state] has applied
    [updates] to a copy of [st]: the last value that [updates] gives it if
    [st] has the key, and nothing if it has not. *)
Definition updated_value (st updates : Dict) (k : string) : option PyVal :=
  if dict_has st k then
    match dict_get (rev updates) k with
    | Some v => Some v
    | None => dict_get st k
    end
  else None.

(** The world after [datetime.now()] was read once. *)
Definition tick (w : World) : World :=
  mkWorld (state_history w) (heap w) (clock w + 1) (uuid_src w) (uuid_ix w) (mcp_calls w).

(** A valid payload, and the session it gives once the stages before
    DECIDE have written what DECIDE reads. *)
Definition payload_jane : Dict :=
  [ ("customer_name", VStr "Jane Doe");
    ("email", VStr "jane@x.com");
    ("query", VStr "payment failed");
    ("priority", VStr "high") ].

Definition prepare_session : M Dict :=
  _ <- intake_execute sample_runtime payload_jane ;;
  update_state "session-0"
    [ ("enriched_records", VDict [("customer_tier", VStr "premium")]);
      ("calculated_flags", VDict [("sla_risk_score", VInt 75)]);
      ("retrieved_solutions",
         VList [ VDict [ ("id", VStr "SOL-001");
                         ("title", VStr "Billing Payment Failure Resolution");
                         ("relevance_score", VFloat (92 # 100)) ] ]) ]
    "RETRIEVE".

Definition prepared_world : World := exec prepare_session empty_world.

Definition prepared_history : list Dict :=
  default [] (state_history prepared_world !! "session-0").

Definition prepared_state : Dict := default [] (last prepared_history).

(** A COMMON server that answers [solution_evaluation] with a given
    evaluation, and everything else as the simulated one does. *)
Definition stub_common (evaluation : Dict) : Backend := fun request t =>
  if String.eqb (MCPRequest.ability_name request) "solution_evaluation"
  then Ok (VDict evaluation)
  else _simulate_common_response sample_runtime request t.

(** An evaluation whose only and recommended solution scores 85. *)
Definition evaluation_85 : Dict :=
  [ ("solution_scores", VDict [ ("SOL-001", VDict [("overall_score", VInt 85)]) ]);
    ("recommended_solution", VStr "SOL-001");
    ("confidence", VFloat (6 # 10)) ].

(** An evaluation result without any [solution_scores]. *)
Definition evaluation_without_scores : Dict :=
  [ ("recommended_solution", VNone); ("confidence", VFloat (1 # 10)) ].

(** A scored solution: a dict whose [overall_score], 0 when it has none, is
    a number. *)
Definition is_scored (scores : PyVal) : bool :=
  match scores with
  | VDict d =>
      match as_num (dict_get_or d "overall_score" (VInt 0)) with
      | Some _ => true
      | None => false
      end
  | _ => false
  end.

Definition well_scored (solution_scores : Dict) : bool :=
  forallb (fun kv => is_scored (snd kv)) solution_scores.

(** The evaluation of the specification's example: A scores 92 and is
    recommended, B scores 95. *)
Definition evaluation_A92_B95 : Dict :=
  [ ("solution_scores",
       VDict [ ("A", VDict [("overall_score", VInt 92)]);
               ("B", VDict [("overall_score", VInt 95)]) ]);
    ("recommended_solution", VStr "A");
    ("confidence", VFloat (9 # 10)) ].

(** A recommended below the threshold: A scores 80 and is recommended, B
    scores 95. *)
Definition evaluation_A80_B95 : Dict :=
  [ ("solution_scores",
       VDict [ ("A", VDict [("overall_score", VInt 80)]);
               ("B", VDict [("overall_score", VInt 95)]) ]);
    ("recommended_solution", VStr "A");
    ("confidence", VFloat (9 # 10)) ].

(** The simulated servers of the repository, and a run of DECIDE and then
    UPDATE with them on the prepared session. *)
Definition sim_atlas : Backend := _simulate_atlas_response sample_runtime.

Definition sim_common : Backend := _simulate_common_response sample_runtime.

Definition decide_on_prepared : M Dict :=
  _ <- prepare_session ;;
  decide_execute sample_runtime sim_atlas sim_common "session-0".

Definition decide_then_update : M Dict :=
  _ <- decide_on_prepared ;;
  update_execute sample_runtime sim_atlas sim_common "session-0".

(** A session on which ASK has asked for a clarification, a first run of
    WAIT without an answer, and a second run with one. *)
Definition ask_session : M Dict :=
  _ <- intake_execute sample_runtime payload_jane ;;
  update_state "session-0"
    [ ("clarification_needed", VBool true);
      ("questions_asked", vstrs ["Could you please provide your account ID?"]) ]
    "ASK".

Definition wait_without_answer : M Dict :=
  _ <- ask_session ;;
  wait_execute sample_runtime sim_atlas sim_common "session-0" VNone.

Definition wait_then_answer : M Dict :=
  _ <- wait_without_answer ;;
  wait_execute sample_runtime sim_atlas sim_common "session-0"
    (VDict [("account_id", VStr "ACC-12345")]).

(** The status of the last entry of a state's execution log. *)
Definition last_status (h : Heap) (st : Dict) : option StageStatus :=
  match last (deref h (dict_get_or st "execution_log" VNone)) with
  | Some (VLog e) => Some (status e)
  | _ => None
  end.

(** The notes that the loop of [update_state] appends to [errors]: one for
    each key of [updates] that the state does not have, in the order of
    [updates]. *)
Definition unknown_notes (st updates : Dict) (stage : string) : list PyVal :=
  map (fun kv => VStr (unknown_key_msg (fst kv) stage))
      (List.filter (fun kv => negb (dict_has st (fst kv))) updates).

(** The session an operation on the store is about. *)
Definition op_session (op : StoreOp) : string :=
  match op with
  | OpUpdate session_id _ _ => session_id
  | OpLog session_id _ _ _ _ _ _ _ _ => session_id
  end.

(** The stage names of the logging calls among [ops] whose output the
    [ExecutionLog] model accepts ([None] or a dict), in order: the other
    logging calls raise before they append. *)
Definition logged_stages (ops : list StoreOp) : list string :=
  flat_map (fun op => match op with
                      | OpLog _ _ stage _ _ _ _ _ output =>
                          if valid_output output then [stage] else []
                      | OpUpdate _ _ _ => []
                      end) ops.

(** The stage names of the entries of a log. *)
Definition entry_stages (items : list PyVal) : list string :=
  flat_map (fun item => match item with VLog e => [stage_name e] | _ => [] end) items.

(** Every item of the list is an [ExecutionLog]. *)
Definition all_entries (items : list PyVal) : bool :=
  forallb (fun item => match item with VLog _ => true | _ => false end) items.

(** The number of [update_state] calls on a session among [ops]. *)
Definition updates_on (session_id : string) (ops : list StoreOp) : nat :=
  length (List.filter (fun op => match op with
                                 | OpUpdate s _ _ => String.eqb s session_id
                                 | OpLog _ _ _ _ _ _ _ _ _ => false
                                 end) ops).

(** The keys of [AgentState] that [create_initial_state] sets to [None]:
    the outputs of the stages. *)
Definition stage_output_keys : list string :=
  [ "parsed_request"; "extracted_entities";
    "normalized_fields"; "enriched_records"; "calculated_flags";
    "clarification_needed"; "questions_asked";
    "customer_responses";
    "knowledge_base_results"; "retrieved_solutions";
    "solution_scores"; "escalation_decision"; "selected_solution"; "decision_reasoning";
    "ticket_updates";
    "generated_response";
    "api_calls_executed"; "notifications_sent";
    "final_payload" ].

(** The first session of [empty_world], as [create_initial_state] makes
    it. *)
Definition created_world : World :=
  exec (create_initial_state sample_runtime (VStr "Jane Doe") (VStr "jane@x.com")
          (VStr "payment failed") (VStr "high") VNone) empty_world.

Definition created_state : Dict :=
  default [] (last (default [] (state_history created_world !! "session-0"))).

(** The updates of the WAIT stage while no answer has come. *)
Definition waiting_updates : Dict :=
  [ ("customer_responses", VNone);
    ("waiting_for_response", VBool true);
    ("questions_sent_at", VStr "2024-01-01T00:00:00") ].

(** Whether a log has an entry for a stage. *)
Definition has_entry (items : list PyVal) (stage : string) : bool :=
  existsb (fun name => String.eqb name stage) (entry_stages items).

(** A session on which WAIT has logged that it waits for the customer. *)
Definition waiting_world : World :=
  exec (log_stage_execution "session-0" 5 "WAIT" IN_PROGRESS (Some []) None (Some 2) None
          (Some (VDict [("status", VStr "waiting_for_customer_response")]))) created_world.

(** The overall score of a scored solution, 0 when it has none. *)
Definition overall_of (scores : PyVal) : option Q :=
  match scores with
  | VDict d => as_num (dict_get_or d "overall_score" (VInt 0))
  | _ => None
  end.

(** An evaluation that recommends nothing: A scores 92, B and C 95. *)
Definition evaluation_unrecommended : Dict :=
  [ ("solution_scores",
       VDict [ ("A", VDict [("overall_score", VInt 92)]);
               ("B", VDict [("overall_score", VInt 95)]);
               ("C", VDict [("overall_score", VFloat (95 # 1))]) ]);
    ("confidence", VFloat (9 # 10)) ].

(** A COMMON server that is down. *)
Definition failing_common : Backend := fun _ _ => Raise (Exception_ "connection refused").

(** The first session after ASK has asked for a clarification. *)
Definition asked_world : World :=
  exec (update_state "session-0"
          [ ("clarification_needed", VBool true);
            ("questions_asked", vstrs ["Could you please provide your account ID?"]) ]
          "ASK") created_world.

Definition asked_history : list Dict :=
  default [] (state_history asked_world !! "session-0").

Definition asked_state : Dict := default [] (last asked_history).

(** The first session after a decision was written to it. *)
Definition decided_world (escalation selected scores : PyVal) : World :=
  exec (update_state "session-0"
          [ ("escalation_decision", escalation);
            ("selected_solution", selected);
            ("solution_scores", scores);
            ("calculated_flags", VDict []) ]
          "DECIDE") created_world.

Definition decided_history (escalation selected scores : PyVal) : list Dict :=
  default [] (state_history (decided_world escalation selected scores) !! "session-0").

Definition decided_state (escalation selected scores : PyVal) : Dict :=
  default [] (last (decided_history escalation selected scores)).

(** The parameters that UPDATE prepares for a state. *)
Definition prepared_parameters (h : Heap) (state : Dict) : Dict :=
  match _prepare_update_parameters h state with
  | Ok (VDict params) => params
  | _ => []
  end.

(** An ATLAS server whose answers do not depend on the time. *)
Definition steady_atlas : Backend := fun request _ =>
  if String.eqb (MCPRequest.ability_name request) "update_ticket" then
    Ok (VDict [("ticket_updated", VBool true); ("new_status", VStr "In Progress")])
  else if String.eqb (MCPRequest.ability_name request) "close_ticket" then
    Ok (VDict [("ticket_closed", VBool true)])
  else Raise (Exception_ "not available").

(** A solution as RETRIEVE finds it, with its id under ["id"], and scores
    kept under that id. *)
Definition retrieved_solution : PyVal :=
  VDict [ ("id", VStr "SOL-001");
          ("title", VStr "Billing Payment Failure Resolution");
          ("steps", vstrs ["Verify payment method"; "Check account balance"]) ].

Definition scores_92 : PyVal := VDict [("SOL-001", VDict [("overall_score", VInt 92)])].

(** A selection as DECIDE writes it. *)
Definition decide_selection : PyVal :=
  VDict [ ("solution_id", VStr "SOL-001"); ("score", VInt 95);
          ("details", VDict [("overall_score", VInt 95)]) ].

(** The first session as the agent's workflow leaves it for DECIDE: PREPARE
    is simulated there, so that only RETRIEVE has written to the state, and
    [enriched_records] and [calculated_flags] are [None] as
    [create_initial_state] set them. *)
Definition retrieved_world : World :=
  exec (update_state "session-0"
          [ ("retrieved_solutions",
               VList [ VDict [ ("id", VStr "SOL-001");
                               ("title", VStr "Billing Payment Failure Resolution");
                               ("relevance_score", VFloat (92 # 100));
                               ("steps", vstrs [ "Verify payment method";
                                                 "Check account balance";
                                                 "Update billing info" ]) ] ]) ]
          "RETRIEVE") created_world.

Definition retrieved_history : list Dict :=
  default [] (state_history retrieved_world !! "session-0").

Definition retrieved_state : Dict := default [] (last retrieved_history).

(** The first session with enriched records and solutions, and with
    [calculated_flags] still [None]. *)
Definition unflagged_world : World :=
  exec (update_state "session-0"
          [ ("enriched_records", VDict [("customer_tier", VStr "premium")]);
            ("retrieved_solutions",
               VList [ VDict [ ("id", VStr "SOL-001");
                               ("title", VStr "Billing Payment Failure Resolution");
                               ("relevance_score", VFloat (92 # 100)) ] ]) ]
          "RETRIEVE") created_world.

Definition unflagged_history : list Dict :=
  default [] (state_history unflagged_world !! "session-0").

Definition unflagged_state : Dict := default [] (last unflagged_history).

(** An evaluation that recommends nothing, with every score below the
    threshold: 70 and 85. *)
Definition evaluation_70_85 : Dict :=
  [ ("solution_scores",
       VDict [ ("SOL-001", VDict [("overall_score", VInt 70)]);
               ("SOL-002", VDict [("overall_score", VInt 85)]) ]);
    ("confidence", VFloat (6 # 10)) ].

(** What UPDATE needs of [calculated_flags] to prepare its parameters: a
    dict whose [sla_targets], when it has one, is a dict with a
    [resolution]. *)
Definition sla_ready (calculated_flags : PyVal) : bool :=
  match calculated_flags with
  | VDict flags =>
      match dict_get flags "sla_targets" with
      | None => true
      | Some (VDict targets) => dict_has targets "resolution"
      | Some _ => false
      end
  | _ => false
  end.

(** What UPDATE needs of [selected_solution] to prepare its parameters:
    [None] or a dict. *)
Definition selection_ready (selected_solution : PyVal) : bool :=
  match selected_solution with
  | VNone | VDict _ => true
  | _ => false
  end.

(** A selection that UPDATE can put into words when it closes the ticket:
    its [title], when it has one, is a string, and its [steps], when it has
    them, have a length. *)
Definition summarisable (h : Heap) (solution : Dict) : bool :=
  match dict_get solution "title" with
  | None | Some (VStr _) => true
  | Some _ => false
  end
  && match dict_get solution "steps" with
     | None => true
     | Some steps => match py_len h steps with Ok _ => true | Raise _ => false end
     end.

(** A payload whose customer name is one no-break space, U+00A0 (the two
    bytes C2 A0), and a text of two characters in three bytes. *)
Definition no_break_space : string :=
  String (ascii_of_nat 194) (String (ascii_of_nat 160) EmptyString).

Definition payload_blank_name : Dict :=
  [ ("customer_name", VStr no_break_space);
    ("email", VStr "jane@x.com");
    ("query", VStr "payment failed");
    ("priority", VStr "high") ].

(** A session whose [errors] an update has given a new, empty list, and on
    which a later update names a key that the state does not have. *)
Definition rebind_errors_then_note : M (list Dict) :=
  _ <- create_initial_state sample_runtime (VStr "Jane Doe") (VStr "jane@x.com")
         (VStr "payment failed") (VStr "high") VNone ;;
  _ <- update_state "session-0" [("errors", VList [])] "PREPARE" ;;
  _ <- update_state "session-0" [("foo", VInt 1)] "PREPARE" ;;
  get_state_history "session-0".

(* ===================================================================== *)
(** ** Properties of the state manager *)
(* ===================================================================== *)

Lemma dict_get_set_eq (d : Dict) k v : dict_get (dict_set d k v) k = Some v.
Proof.
  induction d as [|[k' v'] d IH]; simpl.
  - now rewrite String.eqb_refl.
  - destruct (String.eqb k k') eqn:E; simpl; rewrite E; auto.
Qed.

Lemma dict_get_set_ne (d : Dict) k k' v :
  k <> k' -> dict_get (dict_set d k v) k' = dict_get d k'.
Proof.
  intros Hne. induction d as [|[k0 v0] d IH]; simpl.
  - destruct (String.eqb k' k) eqn:E; auto.
    apply String.eqb_eq in E. congruence.
  - destruct (String.eqb k k0) eqn:E; simpl.
    + apply String.eqb_eq in E. subst k0.
      destruct (String.eqb k' k) eqn:E'; auto.
      apply String.eqb_eq in E'. congruence.
    + now rewrite IH.
Qed.

Lemma dict_has_set (d : Dict) (k k' : string) (v : PyVal) :
  dict_has (dict_set d k v) k' = String.eqb k k' || dict_has d k'.
Proof.
  unfold dict_has. destruct (String.eqb k k') eqn:E.
  - apply String.eqb_eq in E. subst. now rewrite dict_get_set_eq.
  - apply String.eqb_neq in E. now rewrite dict_get_set_ne.
Qed.

(** C10. For a session id that the store does not hold,
    [get_state_history] returns the empty list and raises nothing, while
    [get_current_state], [update_state] and [log_stage_execution] each raise
    the error "Session ID <id> not found"; none of them changes the
    world. *)
Theorem unknown_session_asymmetry (w : World) (session_id : string)
    (updates : Dict) (stage : string) (sid : Z) (st : StageStatus)
    (abilities : option (list string)) (server : option string)
    (duration : option Z) (err : option string) (out : option PyVal) :
  state_history w !! session_id = None ->
  get_state_history session_id w = (Ok [], w) /\
  get_current_state session_id w = (Raise (session_not_found session_id), w) /\
  update_state session_id updates stage w = (Raise (session_not_found session_id), w) /\
  log_stage_execution session_id sid stage st abilities server duration err out w
    = (Raise (session_not_found session_id), w).
Proof.
  intros Hno.
  unfold get_state_history, get_current_state, update_state, log_stage_execution.
  split; [|split; [|split]]; cbv beta; now rewrite Hno.
Qed.

Lemma unknown_session_asymmetry_witness :
  state_history empty_world !! "no-such-session" = None /\
  get_state_history "no-such-session" empty_world = (Ok [], empty_world) /\
  get_current_state "no-such-session" empty_world
    = (Raise (ValueError "Session ID no-such-session not found"), empty_world) /\
  update_state "no-such-session" [("query", VStr "x")] "ASK" empty_world
    = (Raise (ValueError "Session ID no-such-session not found"), empty_world) /\
  log_stage_execution "no-such-session" 4 "ASK" COMPLETED None None None None None empty_world
    = (Raise (ValueError "Session ID no-such-session not found"), empty_world).
Proof.
  split; [reflexivity|].
  apply (unknown_session_asymmetry empty_world "no-such-session"
           [("query", VStr "x")] "ASK" 4 COMPLETED None None None None None).
  reflexivity.
Defined.

(** *** What the operations do to the session store *)

Lemma py_append_history (v x : PyVal) (w : World) :
  state_history (exec (py_append v x) w) = state_history w.
Proof. destruct v; reflexivity. Qed.

(** What is stored for a key is the value given, but for a list given for
    [errors], which gets a place in the heap. *)
Lemma stored_value_cases (key : string) (value : PyVal) (w : World) :
  exists v w',
    stored_value key value w = (Ok v, w') /\
    state_history w' = state_history w /\
    mcp_calls w' = mcp_calls w /\
    clock w' = clock w /\
    (key <> "errors" -> v = value /\ w' = w).
Proof.
  unfold stored_value.
  destruct (String.eqb key "errors") eqn:E.
  - apply String.eqb_eq in E.
    destruct value;
      do 2 eexists; do 4 (split; [reflexivity|]); intros Hne; contradiction.
  - do 2 eexists. do 4 (split; [reflexivity|]). intros _. split; reflexivity.
Qed.

Lemma apply_updates_known (key : string) (value : PyVal) (rest : Dict) (stage : string)
    (s : Dict) (w : World) :
  dict_has s key = true ->
  key <> "errors" ->
  apply_updates ((key, value) :: rest) stage s w
  = apply_updates rest stage (dict_set s key value) w.
Proof.
  intros Hk Hne. cbn [apply_updates]. rewrite Hk.
  destruct (stored_value_cases key value w) as (v & w' & Hsv & _ & _ & _ & Hsame).
  destruct (Hsame Hne) as [-> ->]. unfold bind. now rewrite Hsv.
Qed.

Lemma apply_updates_history (updates : Dict) (stage : string) :
  forall (s : Dict) (w : World),
    state_history (exec (apply_updates updates stage s) w) = state_history w.
Proof.
  induction updates as [|[key value] rest IH]; intros s w; simpl.
  - reflexivity.
  - destruct (dict_has s key).
    + destruct (stored_value_cases key value w) as (v & w' & Hsv & Hh & _).
      unfold exec, bind. rewrite Hsv. rewrite <- Hh. apply IH.
    + destruct (dict_get s "errors") as [errs|]; unfold exec, bind in *.
      * pose proof (py_append_history errs (VStr (unknown_key_msg key stage)) w) as Ha.
        unfold exec in Ha.
        destruct (py_append errs _ w) as [[[]|e] w1]; simpl in *; [|assumption].
        rewrite <- Ha. apply IH.
      * simpl. now rewrite IH.
Qed.

(** An [update_state] call on a session with a latest version either
    returns the new version, which it has appended to the history of that
    session, or raises and leaves every history as it was. *)
Lemma update_state_cases (session_id : string) (updates : Dict) (stage : string)
    (w : World) (hist : list Dict) (latest : Dict) :
  state_history w !! session_id = Some hist ->
  last hist = Some latest ->
  (exists s',
      eval (update_state session_id updates stage) w = Ok s' /\
      state_history (exec (update_state session_id updates stage) w)
        = <[session_id := (hist ++ [s'])%list]> (state_history w)) \/
  (exists e,
      eval (update_state session_id updates stage) w = Raise e /\
      state_history (exec (update_state session_id updates stage) w) = state_history w).
Proof.
  intros Hh Hl. unfold eval, exec, update_state. rewrite Hh, Hl.
  pose proof (apply_updates_history updates stage latest w) as Ha. unfold exec in Ha.
  unfold bind. destruct (apply_updates updates stage latest w) as [[s1|e] w1]; simpl in *.
  - left. eexists. split; [reflexivity|]. unfold set_history; simpl. now rewrite Ha.
  - right. eauto.
Qed.

Lemma dict_has_cons_false (k key : string) (value : PyVal) (rest : Dict) :
  dict_has ((key, value) :: rest) k = false ->
  k <> key /\ dict_has rest k = false.
Proof.
  unfold dict_has; simpl. destruct (String.eqb k key) eqn:E; [discriminate|].
  intros H. split; [|exact H]. now apply String.eqb_neq.
Qed.

Lemma dict_has_true_get (d : Dict) (k : string) :
  dict_has d k = true -> exists v, dict_get d k = Some v.
Proof. unfold dict_has. destruct (dict_get d k); [eauto|discriminate]. Qed.

(** When the [errors] slot of the copy refers to a list object, the loop of
    [update_state] raises nothing, and it leaves every key that [updates]
    does not name as it was. *)
Lemma apply_updates_ok (updates : Dict) (stage : string) :
  forall (s : Dict) (w : World) (b : nat),
    dict_get s "errors" = Some (VRef b) ->
    dict_has updates "errors" = false ->
    exists s',
      eval (apply_updates updates stage s) w = Ok s' /\
      forall k, dict_has updates k = false -> dict_get s' k = dict_get s k.
Proof.
  induction updates as [|[key value] rest IH]; intros s w b Hb Hno.
  - exists s. split; [reflexivity|auto].
  - apply dict_has_cons_false in Hno as [Hne Hrest].
    destruct (dict_has s key) eqn:Hk.
    + destruct (IH (dict_set s key value) w b) as (s' & Hev & Hkeep); auto.
      { rewrite dict_get_set_ne; auto. }
      exists s'. unfold eval. rewrite (apply_updates_known key value rest stage s w Hk)
        by congruence.
      split; [exact Hev|].
      intros k Hk'. apply dict_has_cons_false in Hk' as [Hk1 Hk2].
      rewrite (Hkeep k Hk2). apply dict_get_set_ne. auto.
    + cbn [apply_updates]. rewrite Hk, Hb. unfold eval, bind; simpl.
      match goal with |- context [apply_updates rest stage s ?w1] =>
        destruct (IH s w1 b) as (s' & Hev & Hkeep); auto end.
      exists s'. split; [exact Hev|].
      intros k Hk'. apply dict_has_cons_false in Hk' as [Hk1 Hk2]. auto.
Qed.

(** The loop keeps the keys that [updates] does not name, whenever it
    returns and the state has an [errors] key. *)
Lemma apply_updates_keeps (updates : Dict) (stage : string) :
  forall (s s' : Dict) (w : World),
    dict_has s "errors" = true ->
    eval (apply_updates updates stage s) w = Ok s' ->
    forall k, dict_has updates k = false -> dict_get s' k = dict_get s k.
Proof.
  induction updates as [|[key value] rest IH]; intros s s' w He Hev k Hk; simpl in *.
  - unfold eval in Hev; simpl in Hev. congruence.
  - apply dict_has_cons_false in Hk as [Hne Hrest].
    destruct (dict_has s key) eqn:Hkey.
    + destruct (stored_value_cases key value w) as (v & w' & Hsv & _).
      unfold eval, bind in Hev. rewrite Hsv in Hev.
      assert (He' : dict_has (dict_set s key v) "errors" = true).
      { unfold dict_has in *. destruct (String.eqb key "errors") eqn:E.
        - apply String.eqb_eq in E. subst. now rewrite dict_get_set_eq.
        - apply String.eqb_neq in E. now rewrite dict_get_set_ne. }
      rewrite (IH _ _ _ He' Hev k Hrest).
      apply dict_get_set_ne. auto.
    + destruct (dict_has_true_get _ _ He) as [errs Herrs]. rewrite Herrs in Hev.
      unfold eval, bind in Hev.
      destruct (py_append errs (VStr (unknown_key_msg key stage)) w) as [[[]|e] w1];
        simpl in Hev; [|discriminate].
      eapply IH; eauto.
Qed.

Lemma update_state_keeps (session_id : string) (updates : Dict) (stage : string)
    (w : World) (hist : list Dict) (latest s' : Dict) :
  state_history w !! session_id = Some hist ->
  last hist = Some latest ->
  dict_has latest "errors" = true ->
  eval (update_state session_id updates stage) w = Ok s' ->
  forall k, dict_has updates k = false -> k <> "current_stage" -> k <> "updated_at" ->
            dict_get s' k = dict_get latest k.
Proof.
  intros Hh Hl He Hev k Hk H1 H2. unfold eval, update_state in Hev.
  rewrite Hh, Hl in Hev. unfold bind in Hev.
  pose proof (fun s0 => apply_updates_keeps updates stage latest s0 w He) as Hkeep.
  unfold eval in Hkeep.
  destruct (apply_updates updates stage latest w) as [[s1|e] w1]; simpl in Hev; [|discriminate].
  inversion Hev; subst s'. rewrite !dict_get_set_ne by congruence.
  now apply Hkeep.
Qed.

Lemma update_state_ok (session_id : string) (updates : Dict) (stage : string)
    (w : World) (hist : list Dict) (latest : Dict) (b : nat) :
  state_history w !! session_id = Some hist ->
  last hist = Some latest ->
  dict_get latest "errors" = Some (VRef b) ->
  dict_has updates "errors" = false ->
  exists s', eval (update_state session_id updates stage) w = Ok s' /\
             dict_get s' "errors" = Some (VRef b).
Proof.
  intros Hh Hl Hb Hno.
  destruct (apply_updates_ok updates stage latest w b Hb Hno) as (s1 & Hev & Hkeep).
  unfold eval, update_state in *. rewrite Hh, Hl. unfold bind.
  destruct (apply_updates updates stage latest w) as [[s2|e] w1]; simpl in *; [|discriminate].
  inversion Hev; subst s2. eexists. split; [reflexivity|].
  rewrite !dict_get_set_ne by discriminate. rewrite (Hkeep _ Hno). exact Hb.
Qed.

(** Each call that returns adds exactly one version after those already
    there; a call that raises adds none. *)
Lemma run_updates_history (session_id : string) (calls : list (Dict * string)) :
  forall (w : World) (hist : list Dict),
    state_history w !! session_id = Some hist ->
    hist <> [] ->
    exists added,
      state_history (snd (run_updates session_id calls w)) !! session_id
        = Some (hist ++ added)%list /\
      length added = fst (run_updates session_id calls w).
Proof.
  induction calls as [|[updates stage] rest IH]; intros w hist Hh Hne; simpl.
  - exists []. rewrite app_nil_r. auto.
  - destruct (last hist) as [latest|] eqn:Hl.
    2:{ apply last_None in Hl. contradiction. }
    destruct (update_state_cases session_id updates stage w hist latest Hh Hl)
      as [(s' & Hev & Hst)|(e & Hev & Hst)];
      unfold eval, exec in *;
      destruct (update_state session_id updates stage w) as [r w1]; simpl in *; subst r.
    + destruct (IH w1 (hist ++ [s'])%list) as (added & Ha & Hlen).
      { rewrite Hst. apply lookup_insert_eq. }
      { intros Hnil. apply app_eq_nil in Hnil as [_ Hnil]. discriminate. }
      destruct (run_updates session_id rest w1) as [n w2]; simpl in *.
      exists (s' :: added). rewrite Ha, <- app_assoc. simpl. auto.
    + destruct (IH w1 hist) as (added & Ha & Hlen); [congruence|assumption|].
      destruct (run_updates session_id rest w1) as [n w2]; simpl in *.
      exists added. auto.
Qed.

(** No call raises when no update names the [errors] key and the latest
    version's [errors] slot refers to a list object. *)
Lemma run_updates_all_return (session_id : string) (calls : list (Dict * string)) :
  forall (w : World) (hist : list Dict) (latest : Dict) (b : nat),
    state_history w !! session_id = Some hist ->
    last hist = Some latest ->
    dict_get latest "errors" = Some (VRef b) ->
    Forall (fun c => dict_has (fst c) "errors" = false) calls ->
    fst (run_updates session_id calls w) = length calls.
Proof.
  induction calls as [|[updates stage] rest IH]; intros w hist latest b Hh Hl Hb Hall; simpl.
  - reflexivity.
  - inversion Hall as [|c cs Hc Hcs]; subst. simpl in Hc.
    destruct (update_state_ok session_id updates stage w hist latest b Hh Hl Hb Hc)
      as (s' & Hev & Hb').
    destruct (update_state_cases session_id updates stage w hist latest Hh Hl)
      as [(s1 & Hev1 & Hst)|(e & Hev1 & _)]; [|congruence].
    assert (s1 = s') by congruence. subst s1.
    unfold eval, exec in *.
    destruct (update_state session_id updates stage w) as [r w1]; simpl in *; subst r.
    specialize (IH w1 (hist ++ [s'])%list s' b).
    destruct (run_updates session_id rest w1) as [n w2]; simpl in *.
    f_equal. apply IH; auto.
    + rewrite Hst. apply lookup_insert_eq.
    + apply last_snoc.
Qed.

(** What [create_initial_state] returns and stores: the new session holds
    one version, the state returned, whose [errors] and [execution_log]
    slots refer to two new, distinct list objects. *)
Lemma create_initial_state_spec (rt : Runtime)
    (customer_name email query priority ticket_id : PyVal) (w : World) :
  exists (s0 : Dict) (a b : nat),
    eval (create_initial_state rt customer_name email query priority ticket_id) w = Ok s0 /\
    dict_get s0 "session_id" = Some (VStr (uuid_src w (uuid_ix w))) /\
    dict_get s0 "execution_log" = Some (VRef a) /\
    dict_get s0 "errors" = Some (VRef b) /\
    a <> b /\
    state_history (exec (create_initial_state rt customer_name email query priority ticket_id) w)
      = <[uuid_src w (uuid_ix w) := [s0] ]> (state_history w).
Proof.
  eexists. exists (fresh (dom (heap w))).
  exists (fresh (dom (<[fresh (dom (heap w)) := [] ]> (heap w)))).
  split; [reflexivity|].
  repeat (split; [reflexivity|]).
  split; [|reflexivity].
  intros Heq.
  pose proof (is_fresh (dom (<[fresh (dom (heap w)) := [] ]> (heap w)))) as Hf.
  rewrite <- Heq in Hf. apply Hf. rewrite dom_insert_L. set_solver.
Qed.

(** The invariant of the history, for the calls that return: for a session
    made by [create_initial_state] and any sequence of [update_state] calls
    on it (and no other call), [get_state_history] returns a list with one
    version more than the calls that returned, its first element is the
    initial version, and [get_current_state] returns its last element.
    Every call returns, so that the count is the number of calls, as long
    as no update names the [errors] key. *)
Lemma history_counts_returning_calls (rt : Runtime)
    (customer_name email query priority ticket_id : PyVal) (w0 : World)
    (calls : list (Dict * string)) :
  exists (s0 : Dict) (session_id : string),
    eval (create_initial_state rt customer_name email query priority ticket_id) w0 = Ok s0 /\
    dict_get s0 "session_id" = Some (VStr session_id) /\
    let w1 := exec (create_initial_state rt customer_name email query priority ticket_id) w0 in
    let n := fst (run_updates session_id calls w1) in
    let w2 := snd (run_updates session_id calls w1) in
    exists (hist : list Dict) (latest : Dict),
      get_state_history session_id w2 = (Ok hist, w2) /\
      length hist = (n + 1)%nat /\
      head hist = Some s0 /\
      get_current_state session_id w2 = (Ok latest, w2) /\
      last hist = Some latest /\
      (Forall (fun c => dict_has (fst c) "errors" = false) calls -> n = length calls).
Proof.
  destruct (create_initial_state_spec rt customer_name email query priority ticket_id w0)
    as (s0 & a & b & Hev & Hsid & Ha & Hb & Hab & Hst).
  exists s0, (uuid_src w0 (uuid_ix w0)). split; [exact Hev|]. split; [exact Hsid|].
  set (sid := uuid_src w0 (uuid_ix w0)) in *.
  set (w1 := exec _ w0) in *. cbv zeta.
  assert (Hh : state_history w1 !! sid = Some [s0]).
  { rewrite Hst. apply lookup_insert_eq. }
  destruct (run_updates_history sid calls w1 [s0] Hh) as (added & Hadd & Hlen);
    [discriminate|].
  destruct (last ([s0] ++ added)%list) as [latest|] eqn:Hl.
  2:{ apply last_None in Hl. discriminate. }
  exists ([s0] ++ added)%list, latest.
  unfold get_state_history, get_current_state. rewrite Hadd, Hl. simpl.
  repeat split; auto.
  - rewrite <- Hlen. lia.
  - intros Hall. eapply (run_updates_all_return sid calls w1 [s0] s0 b); eauto.
Qed.



(** *** Versions share their list objects *)

Lemma log_stage_execution_history (session_id : string) (sid : Z) (stage : string)
    (st : StageStatus) (abilities : option (list string)) (server : option string)
    (duration : option Z) (err : option string) (out : option PyVal) (w : World) :
  state_history
    (exec (log_stage_execution session_id sid stage st abilities server duration err out) w)
  = state_history w.
Proof.
  unfold exec, log_stage_execution.
  destruct (state_history w !! session_id) as [hist|]; [|reflexivity].
  unfold bind, lift; simpl.
  destruct (make_execution_log sid stage (clock w) st (default [] abilities) server duration
              err out) as [entry|e]; [|reflexivity].
  destruct (last hist) as [cur|]; [|reflexivity].
  destruct (dict_get cur "execution_log") as [lg|]; [|reflexivity].
  match goal with |- context [py_append lg ?x ?w1] =>
    pose proof (py_append_history lg x w1) as H1; unfold exec in H1;
    destruct (py_append lg x w1) as [[[]|e] w2] end; simpl in *; [|exact H1].
  destruct (nonempty err); [|exact H1].
  destruct (dict_get cur "errors") as [errs|]; [|exact H1].
  rewrite <- H1. apply py_append_history.
Qed.

Lemma update_state_other (session_id other : string) (updates : Dict) (stage : string)
    (w : World) :
  other <> session_id ->
  state_history (exec (update_state other updates stage) w) !! session_id
  = state_history w !! session_id.
Proof.
  intros Hne.
  destruct (state_history w !! other) as [hist|] eqn:Hh.
  - destruct (last hist) as [latest|] eqn:Hl.
    + destruct (update_state_cases other updates stage w hist latest Hh Hl)
        as [(s' & _ & Hst)|(e & _ & Hst)]; rewrite Hst; [|reflexivity].
      now apply lookup_insert_ne.
    + unfold exec, update_state. now rewrite Hh, Hl.
  - unfold exec, update_state. now rewrite Hh.
Qed.

Lemma run_op_shares (session_id : string) (a b : nat) (op : StoreOp) (w : World) :
  keeps_lists op = true ->
  shares_lists session_id a b w ->
  shares_lists session_id a b (exec (run_op op) w).
Proof.
  intros Hk (hist & Hh & Hne & Hall). destruct op as [s updates stage|]; simpl in *.
  - assert (Hex : exec (_ <- update_state s updates stage ;; ret tt) w
                  = exec (update_state s updates stage) w).
    { unfold exec, bind. now destruct (update_state s updates stage w) as [[?|?] ?]. }
    rewrite Hex. clear Hex.
    destruct (String.eqb s session_id) eqn:E.
    + apply String.eqb_eq in E. subst s.
      destruct (last hist) as [latest|] eqn:Hl.
      2:{ apply last_None in Hl. contradiction. }
      apply andb_true_iff in Hk as [Hk1 Hk2].
      apply negb_true_iff in Hk1, Hk2.
      assert (Hlat : dict_get latest "execution_log" = Some (VRef a) /\
                     dict_get latest "errors" = Some (VRef b)).
      { pose proof (proj1 (Forall_forall _ _) Hall) as Hall'. apply Hall'.
        apply last_Some_elem_of. exact Hl. }
      destruct Hlat as [Hla Hlb].
      destruct (update_state_cases session_id updates stage w hist latest Hh Hl)
        as [(s' & Hev & Hst)|(e & _ & Hst)].
      * exists (hist ++ [s'])%list. rewrite Hst. split; [apply lookup_insert_eq|].
        split. { intros Hnil. apply app_eq_nil in Hnil as [_ Hnil]. discriminate. }
        apply Forall_app. split; [exact Hall|]. constructor; [|constructor].
        assert (He : dict_has latest "errors" = true).
        { unfold dict_has. now rewrite Hlb. }
        split.
        -- rewrite (update_state_keeps _ _ _ _ _ _ _ Hh Hl He Hev "execution_log" Hk1);
             [exact Hla|discriminate|discriminate].
        -- rewrite (update_state_keeps _ _ _ _ _ _ _ Hh Hl He Hev "errors" Hk2);
             [exact Hlb|discriminate|discriminate].
      * exists hist. rewrite Hst. auto.
    + apply String.eqb_neq in E. exists hist.
      rewrite update_state_other by exact E. auto.
  - exists hist. rewrite log_stage_execution_history. auto.
Qed.

Lemma run_ops_shares (session_id : string) (a b : nat) (ops : list StoreOp) :
  forall w : World,
    Forall (fun op => keeps_lists op = true) ops ->
    shares_lists session_id a b w ->
    shares_lists session_id a b (run_ops ops w).
Proof.
  induction ops as [|op rest IH]; intros w Hall Hs; simpl.
  - exact Hs.
  - inversion Hall; subst. apply IH; [assumption|]. now apply run_op_shares.
Qed.

(** C8 (as amended). As long as no update gives a new value to the
    [execution_log] or [errors] key, every version of a session's history
    refers to the same two list objects as the initial version, because
    [update_state] copies the latest version shallowly.  A
    [log_stage_execution] call on the session adds no version.  It returns
    exactly when its output is [None] or a dict (the [ExecutionLog] model
    refuses any other output with a [ValidationError], and then nothing is
    appended); when it returns, the entry it appends is the last of the
    execution log seen from every version that [get_state_history] returns,
    the earlier ones included, and the same holds for the note it appends to
    [errors] when it is given an error message. *)
Theorem versions_share_metadata_lists (rt : Runtime)
    (customer_name email query priority ticket_id : PyVal) (w0 : World)
    (ops : list StoreOp)
    (sid : Z) (stage : string) (st : StageStatus) (abilities : option (list string))
    (server : option string) (duration : option Z) (err : option string)
    (out : option PyVal) :
  Forall (fun op => keeps_lists op = true) ops ->
  exists (s0 : Dict) (session_id : string) (a b : nat),
    eval (create_initial_state rt customer_name email query priority ticket_id) w0 = Ok s0 /\
    dict_get s0 "session_id" = Some (VStr session_id) /\
    dict_get s0 "execution_log" = Some (VRef a) /\
    dict_get s0 "errors" = Some (VRef b) /\
    let w1 := exec (create_initial_state rt customer_name email query priority ticket_id) w0 in
    let w2 := run_ops ops w1 in
    let log := log_stage_execution session_id sid stage st abilities server duration err out in
    let w3 := exec log w2 in
    let entry := mkExecutionLog sid stage (clock w2) st (default [] abilities) server
                                duration err out in
    eval log w2 = (if valid_output out then Ok tt
                   else Raise (ValidationError "ExecutionLog" "output")) /\
    (valid_output out = false -> heap w3 = heap w2) /\
    exists hist : list Dict,
      hist <> [] /\
      get_state_history session_id w2 = (Ok hist, w2) /\
      get_state_history session_id w3 = (Ok hist, w3) /\
      forall v, In v hist ->
        dict_get v "execution_log" = Some (VRef a) /\
        dict_get v "errors" = Some (VRef b) /\
        (valid_output out = true ->
         deref (heap w3) (dict_get_or v "execution_log" VNone)
           = (deref (heap w2) (dict_get_or v "execution_log" VNone) ++ [VLog entry])%list /\
         (nonempty err = true ->
          deref (heap w3) (dict_get_or v "errors" VNone)
            = (deref (heap w2) (dict_get_or v "errors" VNone)
                 ++ [VStr (stage +:+ ": " +:+ default "" err)])%list)).
Proof.
  intros Hops.
  destruct (create_initial_state_spec rt customer_name email query priority ticket_id w0)
    as (s0 & a & b & Hev & Hsid & Ha & Hb & Hab & Hst).
  exists s0, (uuid_src w0 (uuid_ix w0)), a, b.
  repeat (split; [assumption|]).
  set (session_id := uuid_src w0 (uuid_ix w0)) in *.
  set (w1 := exec _ w0) in *. cbv zeta.
  assert (Hs1 : shares_lists session_id a b w1).
  { exists [s0]. rewrite Hst. split; [apply lookup_insert_eq|].
    split; [discriminate|]. constructor; [auto|constructor]. }
  destruct (run_ops_shares session_id a b ops w1 Hops Hs1) as (hist & Hh & Hne & Hall).
  set (w2 := run_ops ops w1) in *.
  destruct (last hist) as [latest|] eqn:Hl.
  2:{ apply last_None in Hl. contradiction. }
  pose proof (proj1 (Forall_forall _ _) Hall) as Hall'.
  destruct (Hall' latest (last_Some_elem_of _ _ Hl)) as [Hla Hlb].
  pose proof (log_stage_execution_history session_id sid stage st abilities server
                duration err out w2) as Hhist.
  unfold get_state_history. rewrite Hhist, Hh. simpl.
  assert (Hrun :
    log_stage_execution session_id sid stage st abilities server duration err out w2
    = if valid_output out
      then (Ok tt,
            let h1 := <[a := (default [] (heap w2 !! a)
                               ++ [VLog (mkExecutionLog sid stage (clock w2) st
                                           (default [] abilities) server duration err out)])%list ]>
                        (heap w2) in
            mkWorld (state_history w2)
                    (if nonempty err
                     then <[b := (default [] (h1 !! b)
                                   ++ [VStr (stage +:+ ": " +:+ default "" err)])%list ]> h1
                     else h1)
                    (clock w2 + 1) (uuid_src w2) (uuid_ix w2) (mcp_calls w2))
      else (Raise (ValidationError "ExecutionLog" "output"),
            mkWorld (state_history w2) (heap w2) (clock w2 + 1) (uuid_src w2) (uuid_ix w2)
                    (mcp_calls w2))).
  { unfold log_stage_execution. rewrite Hh. unfold bind, now, lift, make_execution_log.
    destruct (valid_output out); [|reflexivity].
    rewrite Hl, Hla. simpl.
    destruct (nonempty err); [|reflexivity]. rewrite Hlb. reflexivity. }
  unfold eval, exec. rewrite Hrun.
  destruct (valid_output out); simpl.
  - split; [reflexivity|]. split; [discriminate|].
    exists hist. do 3 (split; [auto|]).
    intros v Hv. apply list_elem_of_In in Hv. destruct (Hall' v Hv) as [Hva Hvb].
    repeat (split; [assumption|]). intros _.
    unfold dict_get_or. rewrite Hva, Hvb. simpl.
    destruct (nonempty err).
    + rewrite lookup_insert_ne by (intros Heq; apply Hab; congruence).
      rewrite lookup_insert_eq. simpl. split; [reflexivity|]. intros _.
      rewrite lookup_insert_eq. simpl.
      rewrite lookup_insert_ne by exact Hab. reflexivity.
    + rewrite lookup_insert_eq. simpl. split; [reflexivity|]. discriminate.
  - split; [reflexivity|]. split; [reflexivity|].
    exists hist. do 3 (split; [auto|]).
    intros v Hv. apply list_elem_of_In in Hv. destruct (Hall' v Hv) as [Hva Hvb].
    repeat (split; [assumption|]). discriminate.
Qed.

Lemma versions_share_metadata_lists_witness :
  Forall (fun op => keeps_lists op = true) understand_ops /\
  exists (s0 : Dict) (session_id : string) (a b : nat),
    eval (create_initial_state sample_runtime (VStr "Jane Doe") (VStr "jane@x.com")
            (VStr "payment failed") (VStr "high") VNone) empty_world = Ok s0 /\
    dict_get s0 "session_id" = Some (VStr session_id) /\
    dict_get s0 "execution_log" = Some (VRef a) /\
    dict_get s0 "errors" = Some (VRef b) /\
    let w1 := exec (create_initial_state sample_runtime (VStr "Jane Doe") (VStr "jane@x.com")
                      (VStr "payment failed") (VStr "high") VNone) empty_world in
    let w2 := run_ops understand_ops w1 in
    let log := log_stage_execution session_id 3 "PREPARE" FAILED (Some ["normalize_fields"])
                 None (Some 7) (Some "Failed to normalize fields") None in
    let w3 := exec log w2 in
    let entry := mkExecutionLog 3 "PREPARE" (clock w2) FAILED
                   (default [] (Some ["normalize_fields"])) None
                   (Some 7) (Some "Failed to normalize fields") None in
    eval log w2 = (if valid_output None then Ok tt
                   else Raise (ValidationError "ExecutionLog" "output")) /\
    (valid_output None = false -> heap w3 = heap w2) /\
    exists hist : list Dict,
      hist <> [] /\
      get_state_history session_id w2 = (Ok hist, w2) /\
      get_state_history session_id w3 = (Ok hist, w3) /\
      forall v, In v hist ->
        dict_get v "execution_log" = Some (VRef a) /\
        dict_get v "errors" = Some (VRef b) /\
        (valid_output None = true ->
         deref (heap w3) (dict_get_or v "execution_log" VNone)
           = (deref (heap w2) (dict_get_or v "execution_log" VNone) ++ [VLog entry])%list /\
         (nonempty (Some "Failed to normalize fields") = true ->
          deref (heap w3) (dict_get_or v "errors" VNone)
            = (deref (heap w2) (dict_get_or v "errors" VNone)
                 ++ [VStr ("PREPARE" +:+ ": " +:+ default "" (Some "Failed to normalize fields"))])%list)).
Proof.
  split.
  - repeat constructor.
  - apply (versions_share_metadata_lists sample_runtime (VStr "Jane Doe") (VStr "jane@x.com")
             (VStr "payment failed") (VStr "high") VNone empty_world understand_ops
             3 "PREPARE" FAILED (Some ["normalize_fields"]) None (Some 7)
             (Some "Failed to normalize fields") None).
    repeat constructor.
Defined.

(** C8 does not hold as stated: after an update that gives [execution_log]
    a new list, the two versions of the session refer to different list
    objects, and the entry that [log_stage_execution] appends is seen from
    the latest version only; the earlier version's log stays empty. *)
Lemma rebound_execution_log_is_not_shared :
  exists (v0 v1 : Dict) (entry : ExecutionLog_ PyVal),
    eval rebind_then_log empty_world = Ok [v0; v1] /\
    dict_get v0 "execution_log" = Some (VRef 0%nat) /\
    dict_get v1 "execution_log" = Some (VRef 2%nat) /\
    deref (heap (exec rebind_then_log empty_world)) (VRef 2%nat) = [VLog entry] /\
    deref (heap (exec rebind_then_log empty_world)) (VRef 0%nat) = [].
Proof.
  do 3 eexists. split; [vm_compute; reflexivity|].
  repeat (match goal with |- _ /\ _ => split end); vm_compute; reflexivity.
Qed.

(* ===================================================================== *)
(** ** The MCP client *)
(* ===================================================================== *)

(** C3 (the code departs from it). For an ability name that the routing
    table does not hold, [execute_ability] builds
    [MCPResponse(success=False, error="Unknown ability: <name>",
    server_type=None)]; the model declares [server_type: MCPServerType], so
    pydantic refuses the value and the call raises a [ValidationError]
    instead of returning the result envelope that the claim describes.
    Nothing is sent to a server. *)
Theorem unknown_ability_raises (rt : Runtime) (atlas common : Backend)
    (ability_name : string) (parameters context session_id : PyVal) (w : World) :
  mapping_get server_mapping ability_name = None ->
  execute_ability rt atlas common ability_name parameters context session_id w
  = (Raise (ValidationError "MCPResponse" "server_type"),
     mkWorld (state_history w) (heap w) (clock w) (uuid_src w) (uuid_ix w)
             (mcp_calls w ++ [ability_name])%list).
Proof.
  intros Hno. unfold execute_ability. rewrite Hno. reflexivity.
Qed.

Lemma unknown_ability_raises_witness :
  mapping_get server_mapping "store_answer" = None /\
  eval (execute_ability sample_runtime (_simulate_atlas_response sample_runtime)
          (_simulate_common_response sample_runtime) "store_answer"
          (VDict []) (VDict []) (VStr "session-0")) empty_world
  = Raise (ValidationError "MCPResponse" "server_type").
Proof.
  split; [reflexivity|].
  unfold eval.
  rewrite (unknown_ability_raises sample_runtime (_simulate_atlas_response sample_runtime)
             (_simulate_common_response sample_runtime) "store_answer"
             (VDict []) (VDict []) (VStr "session-0") empty_world eq_refl).
  reflexivity.
Defined.

(* ===================================================================== *)
(** ** Stage 1: INTAKE *)
(* ===================================================================== *)

(** Whatever the payload, an INTAKE run whose validation finds a violation
    returns [None]: the [except] branch logs the failure and ends without
    raising. *)
Lemma intake_swallows_validation_failure (rt : Runtime) (input_payload : Dict) (w : World)
    (violations : list string) :
  _validate_payload rt (heap w) input_payload = Ok violations ->
  violations <> [] ->
  eval (intake_execute rt input_payload) w = Ok VNone.
Proof.
  intros Hv Hne. unfold eval, intake_execute, bind, try_except, now, get_heap, lift. simpl.
  rewrite Hv. destruct violations as [|v vs]; [contradiction|]. simpl.
  match goal with |- context [log_stage_execution ?a ?b ?c ?d ?e ?f ?g ?h ?i ?w0] =>
    destruct (log_stage_execution a b c d e f g h i w0) as [[[]|ex] w1] end; reflexivity.
Qed.

(** C2 (the code departs from it). For the payload without an email
    address, [IntakeStage.execute] raises nothing: it returns [None] to its
    caller.  It also leaves a session in the store, made from the payload
    with the address "unknown@example.com", with the failure listed in its
    [errors] and a FAILED entry in its execution log. *)
Theorem intake_missing_email_returns_none (rt : Runtime) :
  _validate_payload rt (heap empty_world) payload_without_email
    = Ok ["Missing required field: email"] /\
  eval (intake_execute rt payload_without_email) empty_world = Ok VNone /\
  exists (s : Dict) (entry : ExecutionLog_ PyVal),
    let w := exec (intake_execute rt payload_without_email) empty_world in
    get_state_history "session-0" w = (Ok [s], w) /\
    dict_get s "email" = Some (VStr "unknown@example.com") /\
    deref (heap w) (dict_get_or s "errors" VNone)
      = [VStr "INTAKE: Payload validation failed: Missing required field: email"] /\
    deref (heap w) (dict_get_or s "execution_log" VNone) = [VLog entry] /\
    status entry = FAILED.
Proof.
  split; [reflexivity|]. split; [reflexivity|].
  do 2 eexists. cbv zeta.
  split; [vm_compute; reflexivity|].
  split; [vm_compute; reflexivity|].
  split; [vm_compute; reflexivity|].
  split; [vm_compute; reflexivity|]. vm_compute; reflexivity.
Qed.

(* ===================================================================== *)
(** ** Running a stage: what the client and the store return *)
(* ===================================================================== *)

(** A call of a routed ability whose server answers the request with a dict
    returns a successful response carrying that dict, and touches neither
    the store nor the heap. *)
Lemma execute_ability_answers (rt : Runtime) (atlas common : Backend)
    (ability_name : string) (server : MCPServerType) (p c : Dict) (v : PyVal) (w : World) :
  mapping_get server_mapping ability_name = Some server ->
  (exists s, v = VStr s) ->
  (forall req t,
     MCPRequest.ability_name req = ability_name ->
     MCPRequest.parameters req = p ->
     MCPRequest.context req = c ->
     exists d, match server with ATLAS => atlas req t | COMMON => common req t end
               = Ok (VDict d)) ->
  exists resp req t d,
    execute_ability rt atlas common ability_name (VDict p) (VDict c) v w
      = (Ok resp, after_call ability_name w) /\
    MCPResponse.success resp = true /\
    MCPResponse.data resp = VDict d /\
    MCPRequest.ability_name req = ability_name /\
    MCPRequest.parameters req = p /\
    MCPRequest.context req = c /\
    match server with ATLAS => atlas req t | COMMON => common req t end = Ok (VDict d).
Proof.
  intros Hmap [s ->] Hans. unfold execute_ability. rewrite Hmap.
  unfold bind, record_call, get_heap, now, lift, py_or; simpl.
  assert (Hreq : exists req,
            MCPRequest.make ability_name (if match p with [] => false | _ => true end
                                          then VDict p else VDict [])
              (if match c with [] => false | _ => true end then VDict c else VDict [])
              (if negb (String.eqb s "") then VStr s else VStr "UnknownSession") (clock w)
            = Ok req /\ MCPRequest.ability_name req = ability_name /\
            MCPRequest.parameters req = p /\ MCPRequest.context req = c).
  { destruct p, c, (negb (String.eqb s "")); simpl; eexists; repeat split; reflexivity. }
  destruct Hreq as (req & -> & Hname & Hp & Hc).
  destruct server; unfold _call_atlas_server, _call_common_server, bind, try_except, now, lift;
    simpl;
    match goal with |- context [?backend req ?t] =>
      destruct (Hans req t Hname Hp Hc) as [d Hd]; rewrite Hd; simpl;
      eexists; exists req, t, d
    end; (split; [reflexivity|]); repeat split; auto.
Qed.

Lemma get_current_state_eq (session_id : string) (w : World) (hist : list Dict) (st : Dict) :
  state_history w !! session_id = Some hist ->
  last hist = Some st ->
  get_current_state session_id w = (Ok st, w).
Proof. intros Hh Hl. unfold get_current_state. now rewrite Hh, Hl. Qed.

Lemma dict_get_app_last (d : Dict) (key k : string) (value : PyVal) :
  dict_get (d ++ [(key, value)])%list k
  = match dict_get d k with
    | Some v => Some v
    | None => if String.eqb k key then Some value else None
    end.
Proof.
  induction d as [|[k0 v0] d IH]; simpl; [reflexivity|].
  destruct (String.eqb k k0); [reflexivity|exact IH].
Qed.

(** The loop of [update_state], key by key. *)
Lemma apply_updates_get (updates : Dict) (stage : string) :
  forall (s : Dict) (w : World) (b : nat),
    dict_get s "errors" = Some (VRef b) ->
    dict_has updates "errors" = false ->
    exists s' w',
      apply_updates updates stage s w = (Ok s', w') /\
      state_history w' = state_history w /\
      mcp_calls w' = mcp_calls w /\
      clock w' = clock w /\
      forall k, dict_get s' k = updated_value s updates k.
Proof.
  induction updates as [|[key value] rest IH]; intros s w b Hb Hno.
  - exists s, w. repeat split; auto. intros k. unfold updated_value, dict_has. simpl.
    now destruct (dict_get s k).
  - apply dict_has_cons_false in Hno as [Hne Hrest].
    destruct (dict_has s key) eqn:Hk.
    + destruct (IH (dict_set s key value) w b) as (s' & w' & Hev & Hh & Hc & Ht & Hget); auto.
      { rewrite dict_get_set_ne; auto. }
      rewrite (apply_updates_known key value rest stage s w Hk) by congruence.
      exists s', w'. repeat split; auto. intros k. rewrite Hget.
      unfold updated_value. cbn [rev]. rewrite dict_has_set, dict_get_app_last.
      destruct (String.eqb key k) eqn:E; simpl.
      * apply String.eqb_eq in E. subst k. rewrite Hk, String.eqb_refl.
        rewrite dict_get_set_eq. now destruct (dict_get (rev rest) key).
      * rewrite String.eqb_sym, E. apply String.eqb_neq in E.
        rewrite dict_get_set_ne by assumption.
        now destruct (dict_has s k), (dict_get (rev rest) k).
    + cbn [apply_updates]. rewrite Hk, Hb. unfold bind; simpl.
      match goal with |- context [apply_updates rest stage s ?w1] =>
        destruct (IH s w1 b) as (s' & w' & Hev & Hh & Hc & Ht & Hget); auto end.
      exists s', w'. repeat split; auto. intros k. rewrite Hget.
      unfold updated_value. cbn [rev]. rewrite dict_get_app_last.
      destruct (dict_has s k) eqn:Hsk; [|reflexivity].
      destruct (dict_get (rev rest) k); [reflexivity|].
      destruct (String.eqb k key) eqn:E; [|reflexivity].
      apply String.eqb_eq in E. congruence.
Qed.

(** [update_state] on a session whose latest version keeps its notes in a
    list object: the new version is appended, and each of its keys holds
    what [updated_value] says, the two time stamps of the call apart. *)
Lemma update_state_spec (session_id : string) (updates : Dict) (stage : string)
    (w : World) (hist : list Dict) (st : Dict) (b : nat) :
  state_history w !! session_id = Some hist ->
  last hist = Some st ->
  dict_get st "errors" = Some (VRef b) ->
  dict_has updates "errors" = false ->
  exists st' w',
    update_state session_id updates stage w = (Ok st', w') /\
    state_history w' = <[session_id := (hist ++ [st'])%list ]> (state_history w) /\
    mcp_calls w' = mcp_calls w /\
    clock w' = clock w + 1 /\
    forall k, k <> "current_stage" -> k <> "updated_at" ->
              dict_get st' k = updated_value st updates k.
Proof.
  intros Hh Hl Hb Hno.
  destruct (apply_updates_get updates stage st w b Hb Hno)
    as (s1 & w1 & Hev & Hh1 & Hc1 & Ht1 & Hget).
  unfold update_state. rewrite Hh, Hl. unfold bind. rewrite Hev. simpl.
  eexists. eexists. split; [reflexivity|]. simpl.
  split; [now rewrite Hh1|]. split; [assumption|]. split; [now rewrite Ht1|].
  intros k H1 H2. rewrite !dict_get_set_ne by congruence. apply Hget.
Qed.

(** A logging call with an output that is neither [None] nor a dict raises
    the model's [ValidationError] after reading the clock, and appends
    nothing. *)
Lemma log_stage_execution_refused (session_id : string) (sid : Z) (stage : string)
    (st : StageStatus) (abilities : option (list string)) (server : option string)
    (duration : option Z) (err : option string) (out : option PyVal)
    (w : World) (hist : list Dict) :
  state_history w !! session_id = Some hist ->
  valid_output out = false ->
  log_stage_execution session_id sid stage st abilities server duration err out w
  = (Raise (ValidationError "ExecutionLog" "output"), tick w).
Proof.
  intros Hh Hout. unfold log_stage_execution. rewrite Hh.
  unfold bind, now, lift, make_execution_log. rewrite Hout. reflexivity.
Qed.

(** [log_stage_execution] on a session whose latest version keeps its log
    and its notes in list objects returns, and changes the heap only. *)
Lemma log_stage_execution_ok (session_id : string) (sid : Z) (stage : string)
    (st : StageStatus) (abilities : option (list string)) (server : option string)
    (duration : option Z) (err : option string) (out : option PyVal)
    (w : World) (hist : list Dict) (latest : Dict) (a b : nat) :
  state_history w !! session_id = Some hist ->
  last hist = Some latest ->
  dict_get latest "execution_log" = Some (VRef a) ->
  dict_get latest "errors" = Some (VRef b) ->
  valid_output out = true ->
  exists w',
    log_stage_execution session_id sid stage st abilities server duration err out w
      = (Ok tt, w') /\
    state_history w' = state_history w /\
    mcp_calls w' = mcp_calls w.
Proof.
  intros Hh Hl Ha Hb Hout. unfold log_stage_execution. rewrite Hh.
  unfold bind, now, lift, make_execution_log. rewrite Hout, Hl, Ha. simpl.
  destruct (nonempty err).
  - rewrite Hb. simpl. eexists. split; [reflexivity|]. split; reflexivity.
  - eexists. split; [reflexivity|]. split; reflexivity.
Qed.

Lemma bind_ok {A B} (c : M A) (k : A -> M B) (w w' : World) (a : A) :
  c w = (Ok a, w') -> bind c k w = k a w'.
Proof. intros H. unfold bind. now rewrite H. Qed.

Lemma on_failure_ok {A} (rt : Runtime) (session_id : string) (sid : Z) (stage : string)
    (start : Z) (abilities : list string) (c : M A) (w w' : World) (a : A) :
  c w = (Ok a, w') ->
  on_failure rt session_id sid stage start abilities c w = (Ok a, w').
Proof. intros H. unfold on_failure, try_except. now rewrite H. Qed.

Lemma agent_state_item (st : Dict) (k : string) :
  is_agent_state st -> In k state_keys -> exists v, dict_get st k = Some v.
Proof. intros Hs Hk. apply dict_has_true_get. now apply Hs. Qed.

Lemma update_then_log (rt : Runtime) (session_id : string) (n : Z) (stage : string)
    (start : Z) (abilities : list string) (results : Dict) (stt : StageStatus)
    (logged : option (list string)) (server : option string) (out : option PyVal)
    (w : World) (hist : list Dict) (st : Dict) (a b : nat) :
  state_history w !! session_id = Some hist ->
  last hist = Some st ->
  dict_get st "execution_log" = Some (VRef a) ->
  dict_get st "errors" = Some (VRef b) ->
  dict_has results "execution_log" = false ->
  dict_has results "errors" = false ->
  valid_output out = true ->
  exists st' w',
    on_failure rt session_id n stage start abilities
      (updated_state <- update_state session_id results stage ;;
       end_time <- now ;;
       log_stage_execution session_id n stage stt logged server
         (Some (end_time - start)) None out ;;;
       ret updated_state) w = (Ok st', w') /\
    get_current_state session_id w' = (Ok st', w') /\
    mcp_calls w' = mcp_calls w /\
    forall k, k <> "current_stage" -> k <> "updated_at" ->
              dict_get st' k = updated_value st results k.
Proof.
  intros Hh Hl Ha Hb Hnl Hne Hout.
  destruct (update_state_spec session_id results stage w hist st b Hh Hl Hb Hne)
    as (st' & w1 & Hup & Hh1 & Hc1 & _ & Hget).
  assert (Hh1' : state_history (tick w1) !! session_id = Some (hist ++ [st'])%list).
  { simpl. rewrite Hh1. apply lookup_insert_eq. }
  assert (Hval : forall k v, dict_get st k = Some v -> dict_has results k = false ->
                             updated_value st results k = Some v).
  { intros k v Hk Hr. unfold updated_value, dict_has in *. rewrite Hk.
    assert (Hrev : dict_get (rev results) k = None).
    { clear -Hr. induction results as [|[k0 v0] r IH]; [reflexivity|].
      simpl in *. rewrite dict_get_app_last.
      destruct (String.eqb k k0); [discriminate|]. now rewrite IH. }
    now rewrite Hrev. }
  destruct (log_stage_execution_ok session_id n stage stt logged server
              (Some (clock w1 - start)) None out (tick w1) (hist ++ [st'])%list st' a b)
    as (w2 & Hlog & Hh2 & Hc2); auto.
  { apply last_snoc. }
  { rewrite Hget by discriminate. now apply Hval. }
  { rewrite Hget by discriminate. now apply Hval. }
  exists st', w2. split.
  - apply on_failure_ok. erewrite bind_ok by exact Hup.
    erewrite bind_ok by reflexivity. unfold bind. fold (tick w1). rewrite Hlog. reflexivity.
  - split; [|split; [|exact Hget]].
    + apply (get_current_state_eq session_id w2 (hist ++ [st'])%list st').
      * rewrite Hh2. exact Hh1'.
      * apply last_snoc.
    + rewrite Hc2. simpl. exact Hc1.
Qed.

Lemma evaluate_solutions_ok (rt : Runtime) (atlas common : Backend) (st : Dict) (w : World)
    (own_id : string) (er ev : Dict) :
  is_agent_state st ->
  dict_get st "session_id" = Some (VStr own_id) ->
  dict_get st "enriched_records" = Some (VDict er) ->
  (forall req t, MCPRequest.ability_name req = "solution_evaluation" ->
                 common req t = Ok (VDict ev)) ->
  _evaluate_solutions rt atlas common st w
  = (Ok (VDict ev), after_call "solution_evaluation" w).
Proof.
  intros Hst Hsid Her Hcommon.
  destruct (agent_state_item st "priority" Hst) as [prio Hprio]; [simpl; tauto|].
  unfold _evaluate_solutions.
  unfold dict_get_or, item. rewrite Her, Hprio, Hsid. simpl.
  unfold bind at 1. simpl. unfold bind at 1. simpl. unfold bind at 1. simpl.
  match goal with
  | |- bind (execute_ability rt atlas common ?n (VDict ?p) (VDict ?c) ?v) _ ?w0 = _ =>
    destruct (execute_ability_answers rt atlas common n COMMON p c v w0 eq_refl
                (ex_intro _ _ eq_refl))
      as (resp & req & t & d & Hcall & Hsucc & Hdata & Hn & _ & _ & Hd)
  end.
  { intros req t Hn _ _. exists ev. now apply Hcommon. }
  rewrite (Hcommon req t Hn) in Hd. injection Hd as <-.
  erewrite bind_ok by exact Hcall.
  unfold data_or_raise. rewrite Hsucc, Hdata. reflexivity.
Qed.

Lemma make_escalation_decision_ok (rt : Runtime) (atlas common : Backend) (st : Dict)
    (w : World) (own_id : string) (er cf : Dict) (solution_evaluation best_score : PyVal) :
  is_agent_state st ->
  dict_get st "session_id" = Some (VStr own_id) ->
  dict_get st "enriched_records" = Some (VDict er) ->
  dict_get st "calculated_flags" = Some (VDict cf) ->
  (forall req t,
     MCPRequest.ability_name req = "escalation_decision" ->
     dict_get (MCPRequest.parameters req) "solution_score" = Some best_score ->
     exists esc, atlas req t = Ok (VDict esc)) ->
  exists esc,
    _make_escalation_decision rt atlas common st solution_evaluation best_score w
    = (Ok (VDict esc), after_call "escalation_decision" w).
Proof.
  intros Hst Hsid Her Hcf Hatlas.
  destruct (agent_state_item st "priority" Hst) as [prio Hprio]; [simpl; tauto|].
  unfold _make_escalation_decision.
  unfold dict_get_or, item. rewrite Her, Hprio, Hsid, Hcf. simpl.
  repeat (unfold bind at 1; simpl).
  match goal with
  | |- context [execute_ability rt atlas common ?n (VDict ?p) (VDict ?c) ?v ?w0] =>
    destruct (execute_ability_answers rt atlas common n ATLAS p c v w0 eq_refl
                (ex_intro _ _ eq_refl))
      as (resp & req & t & d & Hcall & Hsucc & Hdata & _)
  end.
  { intros req t Hn Hp _. apply Hatlas; [exact Hn|]. rewrite Hp. reflexivity. }
  exists d. rewrite Hcall. unfold data_or_raise. rewrite Hsucc, Hdata. reflexivity.
Qed.

Lemma decide_execute_spec (rt : Runtime) (atlas common : Backend) (session_id : string)
    (w : World) (hist : list Dict) (st : Dict) (a b : nat) (own_id : string)
    (er ev : Dict) (best_solution best_score : PyVal) (q : Q) :
  state_history w !! session_id = Some hist ->
  last hist = Some st ->
  is_agent_state st ->
  dict_get st "session_id" = Some (VStr own_id) ->
  dict_get st "execution_log" = Some (VRef a) ->
  dict_get st "errors" = Some (VRef b) ->
  truthy (heap w) (dict_get_or st "retrieved_solutions" VNone) = true ->
  dict_get st "enriched_records" = Some (VDict er) ->
  (forall req t, MCPRequest.ability_name req = "solution_evaluation" ->
                 common req t = Ok (VDict ev)) ->
  _find_best_solution (heap w) (VDict ev) = Ok (best_solution, best_score) ->
  as_num best_score = Some q ->
  (Qlt_bool q 90 = true ->
   (exists cf, dict_get st "calculated_flags" = Some (VDict cf)) /\
   forall req t,
     MCPRequest.ability_name req = "escalation_decision" ->
     dict_get (MCPRequest.parameters req) "solution_score" = Some best_score ->
     exists esc, atlas req t = Ok (VDict esc)) ->
  exists st' w',
    decide_execute rt atlas common session_id w = (Ok st', w') /\
    get_current_state session_id w' = (Ok st', w') /\
    if Qlt_bool q 90 then
      mcp_calls w' = (mcp_calls w ++ ["solution_evaluation"; "escalation_decision"])%list /\
      dict_get st' "escalation_decision" = Some (VBool true) /\
      dict_get st' "selected_solution" = Some VNone /\
      dict_get st' "decision_reasoning"
        = Some (VStr ("Escalated due to low solution score ("
                        +:+ py_str rt best_score +:+ ")"))
    else
      mcp_calls w' = (mcp_calls w ++ ["solution_evaluation"])%list /\
      dict_get st' "escalation_decision" = Some (VBool false) /\
      dict_get st' "selected_solution" = Some best_solution /\
      dict_get st' "decision_reasoning"
        = Some (VStr ("Auto-resolved with solution score " +:+ py_str rt best_score)).
Proof.
  intros Hh Hl Hst Hsid Ha Hb Hret Her Hcommon Hbest Hq Hesc.
  destruct (agent_state_item st "priority" Hst) as [prio Hprio]; [simpl; tauto|].
  unfold decide_execute.
  erewrite bind_ok by reflexivity.
  (* the state is read and has solutions *)
  erewrite bind_ok.
  2:{ apply on_failure_ok. erewrite bind_ok.
      2:{ apply (get_current_state_eq session_id (tick w) hist st); assumption. }
      unfold bind, get_heap. simpl. rewrite Hret. reflexivity. }
  (* the solutions are evaluated *)
  erewrite bind_ok.
  2:{ apply on_failure_ok. eapply evaluate_solutions_ok; eassumption. }
  (* the best solution is found and its score compared with the threshold *)
  assert (Hlt : py_lt best_score (VInt escalation_threshold) = Ok (Qlt_bool q 90)).
  { unfold py_lt. rewrite Hq. reflexivity. }
  destruct (Qlt_bool q 90) eqn:Hbelow.
  - destruct (Hesc eq_refl) as ((cf & Hcf) & Hatlas).
    destruct (make_escalation_decision_ok rt atlas common st
                (after_call "solution_evaluation" (tick w)) own_id er cf (VDict ev) best_score
                Hst Hsid Her Hcf Hatlas) as (esc & Hmake).
    erewrite bind_ok.
    2:{ apply on_failure_ok. unfold bind at 1, get_heap. cbv beta iota.
        unfold bind at 1, lift. cbn [heap after_call tick]. rewrite Hbest. cbv beta iota.
        unfold bind at 1. cbn [snd fst]. rewrite Hlt. cbv beta iota.
        erewrite bind_ok by exact Hmake. reflexivity. }
    cbv beta iota.
    erewrite bind_ok by (apply on_failure_ok; reflexivity).
    match goal with
    | |- exists st' w', on_failure rt _ _ _ _ ?abl (bind (update_state _ ?res _) _) ?w0 = _ /\ _ =>
      destruct (update_then_log rt session_id 7 "DECIDE" (clock w) abl res COMPLETED
                  (Some abl) (Some "COMMON,ATLAS") (Some (VDict res)) w0 hist st a b)
        as (st' & w' & Hrun & Hcur & Hcalls & Hget); auto
    end.
    exists st', w'. split; [exact Hrun|]. split; [exact Hcur|].
    split; [rewrite Hcalls; simpl; now rewrite <- app_assoc|].
    repeat split; rewrite Hget by discriminate; unfold updated_value;
      (rewrite Hst by (simpl; tauto)); reflexivity.
  - erewrite bind_ok.
    2:{ apply on_failure_ok. unfold bind at 1, get_heap. cbv beta iota.
        unfold bind at 1, lift. cbn [heap after_call tick]. rewrite Hbest. cbv beta iota.
        unfold bind at 1. cbn [snd fst]. rewrite Hlt. reflexivity. }
    cbv beta iota.
    erewrite bind_ok by (apply on_failure_ok; reflexivity).
    match goal with
    | |- exists st' w', on_failure rt _ _ _ _ ?abl (bind (update_state _ ?res _) _) ?w0 = _ /\ _ =>
      destruct (update_then_log rt session_id 7 "DECIDE" (clock w) abl res COMPLETED
                  (Some abl) (Some "COMMON,ATLAS") (Some (VDict res)) w0 hist st a b)
        as (st' & w' & Hrun & Hcur & Hcalls & Hget); auto
    end.
    exists st', w'. split; [exact Hrun|]. split; [exact Hcur|].
    split; [rewrite Hcalls; reflexivity|].
    repeat split; rewrite Hget by discriminate; unfold updated_value;
      (rewrite Hst by (simpl; tauto)); reflexivity.
Qed.

Lemma Qlt_bool_true (x y : Q) : Qlt_bool x y = true <-> (x < y)%Q.
Proof.
  unfold Qlt_bool. rewrite negb_true_iff. split.
  - intros H. apply Qnot_le_lt. intros Hle. apply Qle_bool_iff in Hle. congruence.
  - intros H. destruct (Qle_bool y x) eqn:E; [|reflexivity].
    apply Qle_bool_iff in E. exfalso. exact (Qlt_not_le _ _ H E).
Qed.

Lemma Qlt_bool_false (x y : Q) : Qlt_bool x y = false <-> (y <= x)%Q.
Proof.
  unfold Qlt_bool. rewrite negb_false_iff. apply Qle_bool_iff.
Qed.

Lemma prepared_state_is_agent_state : is_agent_state prepared_state.
Proof.
  intros k Hk. simpl in Hk.
  repeat (destruct Hk as [<-|Hk]; [vm_compute; reflexivity|]). contradiction.
Qed.

(** With no scores, [_find_best_solution] returns the empty solution and
    the score 0.0. *)
Lemma find_best_solution_no_scores (h : Heap) (ev : Dict) :
  dict_get ev "solution_scores" = None \/ dict_get ev "solution_scores" = Some (VDict []) ->
  _find_best_solution h (VDict ev) = Ok (VDict [], VFloat 0).
Proof.
  intros [Hno|Hempty]; unfold _find_best_solution, py_get, dict_get_or; simpl.
  - now rewrite Hno.
  - now rewrite Hempty.
Qed.

(** Where the flags of PREPARE are a dict: when the result of
    [solution_evaluation] has no [solution_scores] or an empty one, DECIDE,
    with an ATLAS server that answers the escalation request, invokes
    [escalation_decision] and writes [escalation_decision = True] and
    [selected_solution = None]. *)
Lemma decide_escalates_given_flags (rt : Runtime) (atlas common : Backend)
    (session_id : string) (w : World) (hist : list Dict) (st : Dict) (a b : nat)
    (own_id : string) (er cf ev : Dict) :
  state_history w !! session_id = Some hist ->
  last hist = Some st ->
  is_agent_state st ->
  dict_get st "session_id" = Some (VStr own_id) ->
  dict_get st "execution_log" = Some (VRef a) ->
  dict_get st "errors" = Some (VRef b) ->
  truthy (heap w) (dict_get_or st "retrieved_solutions" VNone) = true ->
  dict_get st "enriched_records" = Some (VDict er) ->
  dict_get st "calculated_flags" = Some (VDict cf) ->
  (forall req t, MCPRequest.ability_name req = "solution_evaluation" ->
                 common req t = Ok (VDict ev)) ->
  (dict_get ev "solution_scores" = None \/ dict_get ev "solution_scores" = Some (VDict [])) ->
  (forall req t,
     MCPRequest.ability_name req = "escalation_decision" ->
     dict_get (MCPRequest.parameters req) "solution_score" = Some (VFloat 0) ->
     exists esc, atlas req t = Ok (VDict esc)) ->
  _find_best_solution (heap w) (VDict ev) = Ok (VDict [], VFloat 0) /\
  exists st' w',
    decide_execute rt atlas common session_id w = (Ok st', w') /\
    get_current_state session_id w' = (Ok st', w') /\
    mcp_calls w' = (mcp_calls w ++ ["solution_evaluation"; "escalation_decision"])%list /\
    dict_get st' "escalation_decision" = Some (VBool true) /\
    dict_get st' "selected_solution" = Some VNone /\
    dict_get st' "decision_reasoning"
      = Some (VStr ("Escalated due to low solution score (" +:+ float_repr rt 0 +:+ ")")).
Proof.
  intros Hh Hl Hst Hsid Ha Hb Hret Her Hcf Hcommon Hscores Hatlas.
  pose proof (find_best_solution_no_scores (heap w) ev Hscores) as Hbest.
  split; [exact Hbest|].
  destruct (decide_execute_spec rt atlas common session_id w hist st a b own_id er ev
              (VDict []) (VFloat 0) 0%Q Hh Hl Hst Hsid Ha Hb Hret Her Hcommon Hbest eq_refl)
    as (st' & w' & Hrun & Hcur & Hbranch).
  { intros _. split; [eauto|exact Hatlas]. }
  exists st', w'. split; [exact Hrun|]. split; [exact Hcur|]. exact Hbranch.
Qed.

(** The scan for the highest score completes on scored solutions, and its
    best score stays a number. *)
Lemma best_loop_total (scores : Dict) :
  well_scored scores = true ->
  forall (best_id best_score : PyVal) (q : Q),
    as_num best_score = Some q ->
    exists id score q',
      best_loop scores best_id best_score = Ok (id, score) /\ as_num score = Some q'.
Proof.
  induction scores as [|[sid sc] rest IH]; intros Hw best_id best_score q Hq; simpl.
  - eauto.
  - simpl in Hw. apply andb_true_iff in Hw as [Hsc Hrest].
    destruct sc; try discriminate. simpl in *.
    destruct (as_num (dict_get_or d "overall_score" (VInt 0))) as [q0|] eqn:E;
      [|discriminate].
    unfold py_gt, py_lt. rewrite Hq, E. simpl.
    destruct (Qlt_bool q q0); eapply IH; eauto.
Qed.

(** When the evaluation recommends a solution that is among the scored
    ones, [_find_best_solution] returns that solution with its own score,
    whatever the scores of the others. *)
Lemma find_best_solution_recommended (h : Heap) (ev scores rec_scores : Dict)
    (rid : string) (score : PyVal) :
  dict_get ev "solution_scores" = Some (VDict scores) ->
  well_scored scores = true ->
  dict_get ev "recommended_solution" = Some (VStr rid) ->
  rid <> "" ->
  dict_get scores rid = Some (VDict rec_scores) ->
  dict_get rec_scores "overall_score" = Some score ->
  _find_best_solution h (VDict ev)
  = Ok (VDict [ ("solution_id", VStr rid); ("score", score);
                ("details", VDict rec_scores) ],
        score).
Proof.
  intros Hs Hw Hr Hne Hrid Hscore.
  unfold _find_best_solution, py_get, dict_get_or. rewrite Hs. simpl.
  assert (Htr : match scores with [] => false | _ => true end = true).
  { destruct scores; [discriminate|reflexivity]. }
  rewrite Htr. simpl.
  destruct (best_loop_total scores Hw VNone (VFloat 0) 0%Q eq_refl)
    as (id & sc & q' & Hloop & _).
  rewrite Hloop. simpl. rewrite Hr. simpl.
  assert (Hnb : negb (String.eqb rid "") = true).
  { apply negb_true_iff. now apply String.eqb_neq. }
  rewrite Hnb. unfold dict_has, item. rewrite Hrid. simpl. rewrite Hscore. simpl.
  unfold dict_get_or. rewrite Hrid. reflexivity.
Qed.

(** C6 (as amended). Let the state be ready for DECIDE (solutions
    retrieved, [enriched_records] a dict, and [calculated_flags] a dict
    where the score is below 90), let the servers answer, and let the
    evaluation recommend the solution [rid] (a non-empty id) that is among
    the scored solutions with the overall score [score], a number [q].
    Then [_find_best_solution] returns the recommended solution and its
    score, even when another solution scores higher, and DECIDE decides on
    that score: from 90 on it writes the recommended solution as
    [selected_solution], with [escalation_decision = False]; below 90 it
    escalates on the recommended solution's score and leaves
    [selected_solution] unset.  The specification's example (A recommended
    with 92, B with 95) is the witness. *)
Theorem decide_prefers_recommended (rt : Runtime) (atlas common : Backend)
    (session_id : string) (w : World) (hist : list Dict) (st : Dict) (a b : nat)
    (own_id : string) (er ev scores rec_scores : Dict) (rid : string) (score : PyVal)
    (q : Q) :
  state_history w !! session_id = Some hist ->
  last hist = Some st ->
  is_agent_state st ->
  dict_get st "session_id" = Some (VStr own_id) ->
  dict_get st "execution_log" = Some (VRef a) ->
  dict_get st "errors" = Some (VRef b) ->
  truthy (heap w) (dict_get_or st "retrieved_solutions" VNone) = true ->
  dict_get st "enriched_records" = Some (VDict er) ->
  (forall req t, MCPRequest.ability_name req = "solution_evaluation" ->
                 common req t = Ok (VDict ev)) ->
  dict_get ev "solution_scores" = Some (VDict scores) ->
  well_scored scores = true ->
  dict_get ev "recommended_solution" = Some (VStr rid) ->
  rid <> "" ->
  dict_get scores rid = Some (VDict rec_scores) ->
  dict_get rec_scores "overall_score" = Some score ->
  as_num score = Some q ->
  ((q < inject_Z escalation_threshold)%Q ->
   (exists cf, dict_get st "calculated_flags" = Some (VDict cf)) /\
   forall req t,
     MCPRequest.ability_name req = "escalation_decision" ->
     dict_get (MCPRequest.parameters req) "solution_score" = Some score ->
     exists esc, atlas req t = Ok (VDict esc)) ->
  let recommended :=
    VDict [ ("solution_id", VStr rid); ("score", score); ("details", VDict rec_scores) ] in
  _find_best_solution (heap w) (VDict ev) = Ok (recommended, score) /\
  exists st' w',
    decide_execute rt atlas common session_id w = (Ok st', w') /\
    get_current_state session_id w' = (Ok st', w') /\
    ((inject_Z escalation_threshold <= q)%Q ->
     dict_get st' "selected_solution" = Some recommended /\
     dict_get st' "escalation_decision" = Some (VBool false) /\
     dict_get st' "decision_reasoning"
       = Some (VStr ("Auto-resolved with solution score " +:+ py_str rt score))) /\
    ((q < inject_Z escalation_threshold)%Q ->
     dict_get st' "selected_solution" = Some VNone /\
     dict_get st' "escalation_decision" = Some (VBool true) /\
     dict_get st' "decision_reasoning"
       = Some (VStr ("Escalated due to low solution score (" +:+ py_str rt score +:+ ")"))).
Proof.
  intros Hh Hl Hst Hsid Ha Hb Hret Her Hcommon Hs Hw Hr Hne Hrid Hscore Hq Hesc recommended.
  pose proof (find_best_solution_recommended (heap w) ev scores rec_scores rid score
                Hs Hw Hr Hne Hrid Hscore) as Hbest.
  split; [exact Hbest|].
  destruct (decide_execute_spec rt atlas common session_id w hist st a b own_id er ev
              recommended score q Hh Hl Hst Hsid Ha Hb Hret Her Hcommon Hbest Hq)
    as (st' & w' & Hrun & Hcur & Hbranch).
  { intros Hlt. apply Hesc. now apply Qlt_bool_true. }
  exists st', w'. split; [exact Hrun|]. split; [exact Hcur|].
  destruct (Qlt_bool q 90) eqn:E.
  - split.
    + intros Hge. apply Qlt_bool_true in E. exfalso. exact (Qlt_not_le _ _ E Hge).
    + intros _. destruct Hbranch as (_ & H1 & H2 & H3). auto.
  - split.
    + intros _. destruct Hbranch as (_ & H1 & H2 & H3). auto.
    + intros Hlt. apply Qlt_bool_false in E. exfalso. exact (Qlt_not_le _ _ Hlt E).
Qed.

Lemma decide_prefers_recommended_witness :
  let recommended :=
    VDict [ ("solution_id", VStr "A"); ("score", VInt 92);
            ("details", VDict [("overall_score", VInt 92)]) ] in
  _find_best_solution (heap prepared_world) (VDict evaluation_A92_B95)
    = Ok (recommended, VInt 92) /\
  exists st' w',
    decide_execute sample_runtime (_simulate_atlas_response sample_runtime)
      (stub_common evaluation_A92_B95) "session-0" prepared_world = (Ok st', w') /\
    get_current_state "session-0" w' = (Ok st', w') /\
    ((inject_Z escalation_threshold <= inject_Z 92)%Q ->
     dict_get st' "selected_solution" = Some recommended /\
     dict_get st' "escalation_decision" = Some (VBool false) /\
     dict_get st' "decision_reasoning"
       = Some (VStr ("Auto-resolved with solution score "
                       +:+ py_str sample_runtime (VInt 92)))) /\
    ((inject_Z 92 < inject_Z escalation_threshold)%Q ->
     dict_get st' "selected_solution" = Some VNone /\
     dict_get st' "escalation_decision" = Some (VBool true) /\
     dict_get st' "decision_reasoning"
       = Some (VStr ("Escalated due to low solution score ("
                       +:+ py_str sample_runtime (VInt 92) +:+ ")"))).
Proof.
  apply (decide_prefers_recommended sample_runtime
           (_simulate_atlas_response sample_runtime) (stub_common evaluation_A92_B95)
           "session-0" prepared_world prepared_history prepared_state 0%nat 1%nat
           "session-0" [("customer_tier", VStr "premium")] evaluation_A92_B95
           [ ("A", VDict [("overall_score", VInt 92)]);
             ("B", VDict [("overall_score", VInt 95)]) ]
           [("overall_score", VInt 92)] "A" (VInt 92) (inject_Z 92)).
  - vm_compute; reflexivity.
  - vm_compute; reflexivity.
  - exact prepared_state_is_agent_state.
  - vm_compute; reflexivity.
  - vm_compute; reflexivity.
  - vm_compute; reflexivity.
  - vm_compute; reflexivity.
  - vm_compute; reflexivity.
  - intros req t Hn. unfold stub_common. rewrite Hn. reflexivity.
  - reflexivity.
  - reflexivity.
  - reflexivity.
  - discriminate.
  - reflexivity.
  - reflexivity.
  - reflexivity.
  - intros Hlt. exfalso. revert Hlt. unfold Qlt, escalation_threshold. simpl. lia.
Defined.

(** C6 does not hold as stated: a recommended solution that is among the
    scored ones is not selected when its own score is below the threshold.
    With A recommended at 80 and B at 95, DECIDE takes A as the best
    solution, escalates on its score 80, and leaves [selected_solution]
    unset: neither A nor the higher scoring B is selected. *)
Lemma recommended_below_threshold_is_escalated :
  exists st' : Dict,
    dict_get evaluation_A80_B95 "recommended_solution" = Some (VStr "A") /\
    dict_get evaluation_A80_B95 "solution_scores"
      = Some (VDict [ ("A", VDict [("overall_score", VInt 80)]);
                      ("B", VDict [("overall_score", VInt 95)]) ]) /\
    _find_best_solution (heap prepared_world) (VDict evaluation_A80_B95)
      = Ok (VDict [ ("solution_id", VStr "A"); ("score", VInt 80);
                    ("details", VDict [("overall_score", VInt 80)]) ], VInt 80) /\
    eval (decide_execute sample_runtime sim_atlas (stub_common evaluation_A80_B95)
            "session-0") prepared_world = Ok st' /\
    dict_get st' "selected_solution" = Some VNone /\
    dict_get st' "escalation_decision" = Some (VBool true) /\
    dict_get st' "decision_reasoning"
      = Some (VStr ("Escalated due to low solution score ("
                      +:+ py_str sample_runtime (VInt 80) +:+ ")")).
Proof.
  eexists. split; [reflexivity|]. split; [reflexivity|]. split; [reflexivity|].
  split; [vm_compute; reflexivity|].
  split; [vm_compute; reflexivity|]. split; vm_compute; reflexivity.
Qed.

(* ===================================================================== *)
(** ** Stage 5: WAIT *)
(* ===================================================================== *)

(** [update_state] gives a value to no key that the latest version lacks:
    a field that is not declared in [AgentState], such as
    [waiting_for_response] or [response_completeness], is never stored. *)
Lemma update_state_adds_no_key (session_id : string) (updates : Dict) (stage : string)
    (w : World) (hist : list Dict) (st : Dict) (b : nat) (k : string) :
  state_history w !! session_id = Some hist ->
  last hist = Some st ->
  dict_get st "errors" = Some (VRef b) ->
  dict_has updates "errors" = false ->
  dict_has st k = false ->
  k <> "current_stage" -> k <> "updated_at" ->
  exists st', eval (update_state session_id updates stage) w = Ok st' /\
              dict_get st' k = None.
Proof.
  intros Hh Hl Hb Hno Hk H1 H2.
  destruct (update_state_spec session_id updates stage w hist st b Hh Hl Hb Hno)
    as (st' & w' & Hup & _ & _ & _ & Hget).
  exists st'. unfold eval. rewrite Hup. split; [reflexivity|].
  rewrite (Hget k H1 H2). unfold updated_value. now rewrite Hk.
Qed.

(** C4 (the code departs from it). On a session for which ASK has set
    [clarification_needed], WAIT run without an answer returns a state whose
    [customer_responses] is [None], and logs an IN_PROGRESS entry; but the
    state holds no waiting flag: [waiting_for_response] is no key of
    [AgentState], so [update_state] only notes it in [errors], and
    [is_waiting_for_response] answers [False].  A later run with an answer
    completes the stage (a COMPLETED entry, two abilities) and sets
    [customer_responses]; [response_completeness] is not stored either. *)
Theorem wait_flag_is_not_stored :
  (exists s1 : Dict,
     let w1 := exec wait_without_answer empty_world in
     eval wait_without_answer empty_world = Ok s1 /\
     get_current_state "session-0" w1 = (Ok s1, w1) /\
     dict_get s1 "customer_responses" = Some VNone /\
     last_status (heap w1) s1 = Some IN_PROGRESS /\
     dict_get s1 "waiting_for_response" = None /\
     eval (is_waiting_for_response "session-0") w1 = Ok (VBool false) /\
     deref (heap w1) (dict_get_or s1 "errors" VNone)
       = [ VStr "Unknown state key: waiting_for_response from stage WAIT";
           VStr "Unknown state key: questions_sent_at from stage WAIT" ]) /\
  (exists (s2 : Dict) (answers : Dict),
     let w2 := exec wait_then_answer empty_world in
     eval wait_then_answer empty_world = Ok s2 /\
     get_current_state "session-0" w2 = (Ok s2, w2) /\
     dict_get s2 "customer_responses" = Some (VDict answers) /\
     dict_get answers "completeness" = Some (VFloat (85 # 100)) /\
     last_status (heap w2) s2 = Some COMPLETED /\
     mcp_calls w2 = ["extract_answer"] /\
     dict_get s2 "response_completeness" = None /\
     dict_get s2 "waiting_for_response" = None).
Proof.
  split.
  - eexists. cbv zeta. split; [vm_compute; reflexivity|].
    repeat (match goal with |- _ /\ _ => split end); vm_compute; reflexivity.
  - do 2 eexists. cbv zeta. split; [vm_compute; reflexivity|].
    split; [vm_compute; reflexivity|].
    split; [vm_compute; reflexivity|].
    repeat (match goal with |- _ /\ _ => split end); vm_compute; reflexivity.
Qed.

(* ===================================================================== *)
(** ** Stage 8: UPDATE *)
(* ===================================================================== *)

(** On a state of the shape that [_should_close_ticket] reads (the selected
    solution carries its id under ["id"], and [solution_scores] maps that id
    to its scores), the ticket is closed exactly when the state is not
    escalated and the recorded overall score is 85 or more. *)
Lemma should_close_ticket_threshold (h : Heap) (st solution scores recorded : Dict)
    (id : string) (score : Z) :
  truthy h (dict_get_or st "escalation_decision" (VBool false)) = false ->
  dict_get st "selected_solution" = Some (VDict solution) ->
  dict_get solution "id" = Some (VStr id) ->
  id <> "" ->
  dict_get st "solution_scores" = Some (VDict scores) ->
  dict_get scores id = Some (VDict recorded) ->
  dict_get recorded "overall_score" = Some (VInt score) ->
  _should_close_ticket h st = Ok (85 <=? score)%Z.
Proof.
  intros Hesc Hsel Hid Hne Hsc Hrec Hscore.
  unfold _should_close_ticket. rewrite Hesc.
  unfold dict_get_or. rewrite Hsel, Hsc.
  assert (Hsol : truthy h (VDict solution) = true).
  { destruct solution; [discriminate|reflexivity]. }
  rewrite Hsol. unfold py_get, dict_get_or. rewrite Hid. simpl.
  assert (Hnb : negb (String.eqb id "") = true).
  { apply negb_true_iff. now apply String.eqb_neq. }
  rewrite Hnb. unfold dict_get_or. rewrite Hrec. simpl. rewrite Hscore.
  unfold py_ge. simpl. f_equal.
  unfold Qle_bool. simpl. now rewrite !Z.mul_1_r.
Qed.

(** The solution that DECIDE selects carries its id under ["solution_id"],
    not ["id"]: on any state holding such a selection,
    [_should_close_ticket] answers [False], whatever the score. *)
Lemma should_close_ticket_on_decide_selection (h : Heap) (st : Dict)
    (id score details : PyVal) :
  dict_get st "selected_solution"
    = Some (VDict [("solution_id", id); ("score", score); ("details", details)]) ->
  _should_close_ticket h st = Ok false.
Proof.
  intros Hsel. unfold _should_close_ticket, dict_get_or. rewrite Hsel. simpl.
  now destruct (truthy h _).
Qed.

(** C1 (the code departs from it). With the repository's simulated
    servers, DECIDE selects the solution SOL-001, whose recorded overall
    score is 92, and does not escalate.  UPDATE run on that state invokes
    [update_ticket] only: [close_ticket] is not invoked, and [ticket_status]
    is the status that [update_ticket] reported, not "closed".  The
    selection made by DECIDE has no ["id"] key, which is the key
    [_should_close_ticket] reads. *)
Theorem update_leaves_selected_ticket_open :
  exists (s7 s8 selected evaluation scores recorded : Dict),
    let w7 := exec decide_on_prepared empty_world in
    let w8 := exec decide_then_update empty_world in
    eval decide_on_prepared empty_world = Ok s7 /\
    dict_get s7 "escalation_decision" = Some (VBool false) /\
    dict_get s7 "selected_solution" = Some (VDict selected) /\
    dict_get selected "solution_id" = Some (VStr "SOL-001") /\
    dict_get selected "score" = Some (VInt 92) /\
    dict_get selected "id" = None /\
    dict_get s7 "solution_scores" = Some (VDict evaluation) /\
    dict_get evaluation "solution_scores" = Some (VDict scores) /\
    dict_get scores "SOL-001" = Some (VDict recorded) /\
    dict_get recorded "overall_score" = Some (VInt 92) /\
    _should_close_ticket (heap w7) s7 = Ok false /\
    eval decide_then_update empty_world = Ok s8 /\
    get_current_state "session-0" w8 = (Ok s8, w8) /\
    mcp_calls w8 = ["solution_evaluation"; "update_ticket"] /\
    dict_get s8 "ticket_status" = Some (VStr "In Progress") /\
    last_status (heap w8) s8 = Some COMPLETED.
Proof.
  do 6 eexists. cbv zeta.
  split; [vm_compute; reflexivity|].
  split; [vm_compute; reflexivity|].
  split; [vm_compute; reflexivity|].
  split; [vm_compute; reflexivity|].
  split; [vm_compute; reflexivity|].
  split; [vm_compute; reflexivity|].
  split; [vm_compute; reflexivity|].
  split; [vm_compute; reflexivity|].
  split; [vm_compute; reflexivity|].
  split; [vm_compute; reflexivity|].
  split; [vm_compute; reflexivity|].
  split; [vm_compute; reflexivity|].
  repeat (match goal with |- _ /\ _ => split end); vm_compute; reflexivity.
Qed.

(* ===================================================================== *)
(** ** Further properties of the state manager *)
(* ===================================================================== *)

Lemma unknown_notes_set (s updates : Dict) (stage key : string) (value : PyVal) :
  dict_has s key = true ->
  unknown_notes (dict_set s key value) updates stage = unknown_notes s updates stage.
Proof.
  intros Hk. unfold unknown_notes. f_equal.
  apply filter_ext. intros [k v]. cbn [fst]. rewrite dict_has_set.
  destruct (String.eqb key k) eqn:E; [|reflexivity].
  apply String.eqb_eq in E. subst k. now rewrite Hk.
Qed.

Lemma unknown_notes_cons (s rest : Dict) (stage key : string) (value : PyVal) :
  unknown_notes s ((key, value) :: rest) stage
  = if dict_has s key then unknown_notes s rest stage
    else VStr (unknown_key_msg key stage) :: unknown_notes s rest stage.
Proof.
  unfold unknown_notes. cbn [List.filter fst]. now destruct (dict_has s key).
Qed.

(** What the loop of [update_state] does to the heap: the notes for the
    unknown keys go to the end of the [errors] list, and no other list
    object changes. *)
Lemma apply_updates_heap (updates : Dict) (stage : string) :
  forall (s : Dict) (w : World) (b : nat),
    dict_get s "errors" = Some (VRef b) ->
    dict_has updates "errors" = false ->
    deref (heap (exec (apply_updates updates stage s) w)) (VRef b)
      = (deref (heap w) (VRef b) ++ unknown_notes s updates stage)%list /\
    forall l, l <> b -> heap (exec (apply_updates updates stage s) w) !! l = heap w !! l.
Proof.
  induction updates as [|[key value] rest IH]; intros s w b Hb Hno.
  - unfold unknown_notes, exec. cbn [apply_updates List.filter map ret snd].
    rewrite app_nil_r. auto.
  - apply dict_has_cons_false in Hno as [Hne Hrest].
    rewrite unknown_notes_cons. unfold exec.
    destruct (dict_has s key) eqn:Hk.
    + rewrite (apply_updates_known key value rest stage s w Hk) by congruence.
      destruct (IH (dict_set s key value) w b) as [H1 H2]; auto.
      { rewrite dict_get_set_ne; auto. }
      unfold exec in H1, H2. split; [|exact H2].
      rewrite H1. f_equal. now apply unknown_notes_set.
    + cbn [apply_updates]. rewrite Hk, Hb. unfold bind. cbn [py_append fst snd].
      match goal with |- context [apply_updates rest stage s ?w1] =>
        destruct (IH s w1 b Hb Hrest) as [H1 H2] end.
      unfold exec in H1, H2. split.
      * rewrite H1. cbn [deref set_heap heap]. rewrite lookup_insert_eq.
        simpl. rewrite <- app_assoc. reflexivity.
      * intros l Hl. rewrite (H2 l Hl). cbn [set_heap heap].
        now rewrite lookup_insert_ne.
Qed.

(** [update_state] in full, on a session whose latest version keeps its
    notes in a list object. *)
Lemma update_state_full (session_id : string) (updates : Dict) (stage : string)
    (w : World) (hist : list Dict) (st : Dict) (b : nat) :
  state_history w !! session_id = Some hist ->
  last hist = Some st ->
  dict_get st "errors" = Some (VRef b) ->
  dict_has updates "errors" = false ->
  exists st' w',
    update_state session_id updates stage w = (Ok st', w') /\
    state_history w' = <[session_id := (hist ++ [st'])%list ]> (state_history w) /\
    mcp_calls w' = mcp_calls w /\
    clock w' = clock w + 1 /\
    dict_get st' "current_stage" = Some (VStr stage) /\
    dict_get st' "updated_at" = Some (VTime (clock w)) /\
    (forall k, k <> "current_stage" -> k <> "updated_at" ->
               dict_get st' k = updated_value st updates k) /\
    deref (heap w') (VRef b)
      = (deref (heap w) (VRef b) ++ unknown_notes st updates stage)%list /\
    forall l, l <> b -> heap w' !! l = heap w !! l.
Proof.
  intros Hh Hl Hb Hno.
  destruct (apply_updates_get updates stage st w b Hb Hno)
    as (s1 & w1 & Hev & Hh1 & Hc1 & Ht1 & Hget).
  destruct (apply_updates_heap updates stage st w b Hb Hno) as [Hd Hother].
  unfold exec in Hd, Hother. rewrite Hev in Hd, Hother. cbn [snd] in Hd, Hother.
  unfold update_state. rewrite Hh, Hl. unfold bind. rewrite Hev. simpl.
  eexists. eexists. split; [reflexivity|]. simpl.
  split; [now rewrite Hh1|]. split; [assumption|]. split; [now rewrite Ht1|].
  split. { rewrite dict_get_set_ne by discriminate. apply dict_get_set_eq. }
  split. { rewrite dict_get_set_eq. now rewrite Ht1. }
  split. { intros k H1 H2. rewrite !dict_get_set_ne by congruence. apply Hget. }
  split; [exact Hd|exact Hother].
Qed.

(** [log_stage_execution] in full, on a session whose latest version keeps
    its log and its notes in two list objects. *)
Lemma log_stage_execution_full (session_id : string) (sid : Z) (stage : string)
    (st : StageStatus) (abilities : option (list string)) (server : option string)
    (duration : option Z) (err : option string) (out : option PyVal)
    (w : World) (hist : list Dict) (latest : Dict) (a b : nat) :
  state_history w !! session_id = Some hist ->
  last hist = Some latest ->
  dict_get latest "execution_log" = Some (VRef a) ->
  dict_get latest "errors" = Some (VRef b) ->
  a <> b ->
  valid_output out = true ->
  exists w',
    log_stage_execution session_id sid stage st abilities server duration err out w
      = (Ok tt, w') /\
    state_history w' = state_history w /\
    mcp_calls w' = mcp_calls w /\
    clock w' = clock w + 1 /\
    deref (heap w') (VRef a)
      = (deref (heap w) (VRef a)
           ++ [VLog (mkExecutionLog sid stage (clock w) st (default [] abilities) server
                                    duration err out)])%list /\
    deref (heap w') (VRef b)
      = (deref (heap w) (VRef b)
           ++ (if nonempty err then [VStr (stage +:+ ": " +:+ default "" err)] else []))%list /\
    forall l, l <> a -> l <> b -> heap w' !! l = heap w !! l.
Proof.
  intros Hh Hl Ha Hb Hab Hout. unfold log_stage_execution. rewrite Hh.
  unfold bind, now, lift, make_execution_log. rewrite Hout, Hl, Ha. simpl.
  destruct (nonempty err).
  - rewrite Hb. simpl. eexists. split; [reflexivity|]. simpl.
    do 3 (split; [reflexivity|]).
    split. { rewrite lookup_insert_ne by congruence. now rewrite lookup_insert_eq. }
    split. { rewrite lookup_insert_eq. now rewrite lookup_insert_ne by congruence. }
    intros l H1 H2. now rewrite !lookup_insert_ne by congruence.
  - eexists. split; [reflexivity|]. simpl.
    do 3 (split; [reflexivity|]).
    split. { now rewrite lookup_insert_eq. }
    split. { rewrite lookup_insert_ne by congruence. now rewrite app_nil_r. }
    intros l H1 H2. now rewrite lookup_insert_ne by congruence.
Qed.

(** X1. [create_initial_state] returns, for any arguments and in any store,
    a state with every key of [AgentState]: the four customer fields as
    given, the ticket id as given or, when it is empty or [None],
    ["TKT-" + date + "-" + the first eight characters of the session id],
    the status ["open"], the stage ["INTAKE"], both time stamps equal, the
    outputs of the stages [None], and two new, distinct and empty list
    objects for the log and the notes.  The state is the only version of
    the new session, and no list object that existed before is changed. *)
Theorem create_initial_state_contents (rt : Runtime)
    (customer_name email query priority ticket_id : PyVal) (w : World) :
  exists (s0 : Dict) (a b : nat),
    eval (create_initial_state rt customer_name email query priority ticket_id) w = Ok s0 /\
    (forall k, In k state_keys -> dict_has s0 k = true) /\
    dict_get s0 "customer_name" = Some customer_name /\
    dict_get s0 "email" = Some email /\
    dict_get s0 "query" = Some query /\
    dict_get s0 "priority" = Some priority /\
    dict_get s0 "ticket_id"
      = Some (if truthy (heap w) ticket_id then ticket_id
              else VStr ("TKT-" +:+ strftime_Ymd rt (clock w) +:+ "-"
                           +:+ substring 0 8 (uuid_src w (uuid_ix w)))) /\
    dict_get s0 "ticket_status" = Some (VStr "open") /\
    dict_get s0 "current_stage" = Some (VStr "INTAKE") /\
    dict_get s0 "session_id" = Some (VStr (uuid_src w (uuid_ix w))) /\
    dict_get s0 "created_at" = Some (VTime (clock w)) /\
    dict_get s0 "updated_at" = Some (VTime (clock w)) /\
    (forall k, In k stage_output_keys -> dict_get s0 k = Some VNone) /\
    dict_get s0 "execution_log" = Some (VRef a) /\
    dict_get s0 "errors" = Some (VRef b) /\
    a <> b /\
    heap w !! a = None /\
    heap w !! b = None /\
    heap (exec (create_initial_state rt customer_name email query priority ticket_id) w) !! a
      = Some [] /\
    heap (exec (create_initial_state rt customer_name email query priority ticket_id) w) !! b
      = Some [] /\
    (forall l, l <> a -> l <> b ->
       heap (exec (create_initial_state rt customer_name email query priority ticket_id) w) !! l
       = heap w !! l) /\
    state_history (exec (create_initial_state rt customer_name email query priority ticket_id) w)
      = <[uuid_src w (uuid_ix w) := [s0] ]> (state_history w).
Proof.
  set (a := fresh (dom (heap w))).
  set (b := fresh (dom (<[a := [] ]> (heap w)))).
  assert (Hab : a <> b).
  { intros Heq. pose proof (is_fresh (dom (<[a := [] ]> (heap w)))) as Hf.
    fold b in Hf. rewrite <- Heq in Hf. apply Hf. rewrite dom_insert_L. set_solver. }
  assert (Ha : heap w !! a = None).
  { apply not_elem_of_dom. apply is_fresh. }
  assert (Hb : heap w !! b = None).
  { pose proof (is_fresh (dom (<[a := [] ]> (heap w)))) as Hf. fold b in Hf.
    apply not_elem_of_dom in Hf. rewrite lookup_insert_ne in Hf by exact Hab. exact Hf. }
  eexists. exists a, b.
  split; [reflexivity|].
  split.
  { intros k Hk. unfold state_keys in Hk.
    repeat (destruct Hk as [<-|Hk]; [reflexivity|]). destruct Hk. }
  do 10 (split; [reflexivity|]).
  split.
  { intros k Hk. unfold stage_output_keys in Hk.
    repeat (destruct Hk as [<-|Hk]; [reflexivity|]). destruct Hk. }
  do 2 (split; [reflexivity|]).
  split; [exact Hab|]. split; [exact Ha|]. split; [exact Hb|].
  unfold exec, create_initial_state, bind, uuid4, now, get_heap, new_list. simpl.
  fold a. fold b.
  split. { rewrite lookup_insert_ne by congruence. apply lookup_insert_eq. }
  split. { apply lookup_insert_eq. }
  split; [|reflexivity].
  intros l H1 H2. now rewrite !lookup_insert_ne by congruence.
Qed.

(** X2. [update_state] tolerates keys that the state does not have.  On a
    session whose latest version keeps its notes in a list object, and for
    updates that do not name the [errors] key, the call returns; the new
    version has the keys of the latest one and no other; a key that the
    updates do not name keeps its value; for each key of the updates that
    the state does not have, one note [Unknown state key: <key> from stage
    <stage>] is appended to the notes, in the order of the updates; and no
    other list object changes. *)
Theorem update_state_notes_unknown_keys (session_id : string) (updates : Dict)
    (stage : string) (w : World) (hist : list Dict) (st : Dict) (b : nat) :
  state_history w !! session_id = Some hist ->
  last hist = Some st ->
  dict_get st "errors" = Some (VRef b) ->
  dict_has updates "errors" = false ->
  exists st',
    eval (update_state session_id updates stage) w = Ok st' /\
    get_state_history session_id (exec (update_state session_id updates stage) w)
      = (Ok (hist ++ [st'])%list, exec (update_state session_id updates stage) w) /\
    (forall k, k <> "current_stage" -> k <> "updated_at" ->
               dict_has st' k = dict_has st k) /\
    (forall k, k <> "current_stage" -> k <> "updated_at" ->
               dict_has updates k = false -> dict_get st' k = dict_get st k) /\
    deref (heap (exec (update_state session_id updates stage) w)) (VRef b)
      = (deref (heap w) (VRef b)
           ++ map (fun kv => VStr ("Unknown state key: " +:+ fst kv +:+ " from stage " +:+ stage))
                  (List.filter (fun kv => negb (dict_has st (fst kv))) updates))%list /\
    forall l, l <> b ->
      heap (exec (update_state session_id updates stage) w) !! l = heap w !! l.
Proof.
  intros Hh Hl Hb Hno.
  destruct (update_state_full session_id updates stage w hist st b Hh Hl Hb Hno)
    as (st' & w' & Hup & Hh' & _ & _ & _ & _ & Hget & Hd & Hother).
  exists st'. unfold eval, exec. rewrite Hup. cbn [fst snd].
  split; [reflexivity|].
  split. { unfold get_state_history. rewrite Hh', lookup_insert_eq. reflexivity. }
  split.
  { intros k H1 H2. unfold dict_has at 1. rewrite (Hget k H1 H2). unfold updated_value.
    destruct (dict_has st k) eqn:Hk; [|reflexivity].
    destruct (dict_get (rev updates) k); [reflexivity|].
    unfold dict_has in Hk. now destruct (dict_get st k). }
  split.
  { intros k H1 H2 Hk. rewrite (Hget k H1 H2). unfold updated_value.
    assert (Hrev : dict_get (rev updates) k = None).
    { clear -Hk. unfold dict_has in Hk. induction updates as [|[k0 v0] r IH]; [reflexivity|].
      simpl in *. rewrite dict_get_app_last.
      destruct (String.eqb k k0); [discriminate|]. now rewrite IH. }
    rewrite Hrev. unfold dict_has. now destruct (dict_get st k). }
  split; [exact Hd|exact Hother].
Qed.

Lemma update_state_notes_unknown_keys_witness :
  exists st',
    eval (update_state "session-0" waiting_updates "WAIT") created_world = Ok st' /\
    dict_has st' "waiting_for_response" = false /\
    dict_get st' "customer_responses" = Some VNone /\
    deref (heap (exec (update_state "session-0" waiting_updates "WAIT") created_world))
          (VRef 1%nat)
      = [ VStr "Unknown state key: waiting_for_response from stage WAIT";
          VStr "Unknown state key: questions_sent_at from stage WAIT" ].
Proof.
  destruct (update_state_notes_unknown_keys "session-0" waiting_updates "WAIT" created_world
              [created_state] created_state 1%nat)
    as (st' & Hev & _ & Hhas & _ & Hd & _);
    [vm_compute; reflexivity|reflexivity|vm_compute; reflexivity|vm_compute; reflexivity|].
  exists st'. split; [exact Hev|].
  split. { rewrite Hhas by discriminate. vm_compute. reflexivity. }
  split. { vm_compute in Hev. injection Hev as <-. vm_compute. reflexivity. }
  rewrite Hd. vm_compute. reflexivity.
Defined.

Lemma exec_run_update (session_id : string) (updates : Dict) (stage : string) (w : World) :
  exec (run_op (OpUpdate session_id updates stage)) w
  = exec (update_state session_id updates stage) w.
Proof.
  unfold exec, run_op, bind. now destruct (update_state session_id updates stage w) as [[?|?] ?].
Qed.

(** One call on the store adds at most one version to a session, at the
    end, and only if it is an update of that session. *)
Lemma run_op_history (session_id : string) (op : StoreOp) (w : World) :
  (state_history w !! session_id = None ->
   state_history (exec (run_op op) w) !! session_id = None) /\
  (forall hist, state_history w !! session_id = Some hist ->
     exists added,
       state_history (exec (run_op op) w) !! session_id = Some (hist ++ added)%list /\
       (length added <= updates_on session_id [op])%nat).
Proof.
  destruct op as [s updates stage|s n stage st ab sv du er ou].
  - rewrite exec_run_update. unfold updates_on. cbn [List.filter].
    destruct (String.eqb s session_id) eqn:E.
    + apply String.eqb_eq in E. subst s. split.
      * intros Hno. unfold exec, update_state. now rewrite Hno.
      * intros hist Hh. destruct (last hist) as [latest|] eqn:Hl.
        -- destruct (update_state_cases session_id updates stage w hist latest Hh Hl)
             as [(s' & _ & Hst)|(e & _ & Hst)]; rewrite Hst.
           ++ exists [s']. rewrite lookup_insert_eq. split; [reflexivity|]. simpl. lia.
           ++ exists []. rewrite app_nil_r. split; [exact Hh|]. simpl. lia.
        -- exists []. rewrite app_nil_r. unfold exec, update_state. rewrite Hh, Hl.
           split; [exact Hh|]. simpl. lia.
    + apply String.eqb_neq in E. rewrite update_state_other by exact E. split; [auto|].
      intros hist Hh. exists []. rewrite app_nil_r. split; [exact Hh|]. simpl. lia.
  - cbn [run_op]. rewrite log_stage_execution_history. split; [auto|].
    intros hist Hh. exists []. rewrite app_nil_r. split; [exact Hh|]. simpl. lia.
Qed.

Lemma updates_on_cons (session_id : string) (op : StoreOp) (ops : list StoreOp) :
  updates_on session_id (op :: ops)
  = (updates_on session_id [op] + updates_on session_id ops)%nat.
Proof.
  unfold updates_on. cbn [List.filter].
  destruct op as [s ? ?|]; [destruct (String.eqb s session_id)|]; reflexivity.
Qed.

(** X3. The history of a session is append-only under [update_state] and
    [log_stage_execution]: whatever calls are made, on whatever sessions
    and whether they return or raise, a session that was unknown stays
    unknown, and the history of a known session is its earlier history
    followed by at most one new version for each update of that session.
    No version is removed, replaced or reordered, and calls on other
    sessions add nothing. *)
Theorem history_is_append_only (session_id : string) (ops : list StoreOp) (w : World) :
  (state_history w !! session_id = None /\
   state_history (run_ops ops w) !! session_id = None) \/
  (exists hist added,
     state_history w !! session_id = Some hist /\
     state_history (run_ops ops w) !! session_id = Some (hist ++ added)%list /\
     (length added <= updates_on session_id ops)%nat).
Proof.
  revert w. induction ops as [|op rest IH]; intros w.
  - cbn [run_ops]. destruct (state_history w !! session_id) as [hist|] eqn:Hh.
    + right. exists hist, []. rewrite app_nil_r. repeat split; auto; simpl; lia.
    + left. auto.
  - cbn [run_ops]. destruct (run_op_history session_id op w) as [Hnone Hsome].
    destruct (state_history w !! session_id) as [hist|] eqn:Hh.
    + right. destruct (Hsome hist eq_refl) as (added1 & H1 & Hlen1).
      destruct (IH (exec (run_op op) w)) as [[Hno _]|(hist' & added2 & H2 & H3 & Hlen2)].
      { rewrite H1 in Hno. discriminate. }
      rewrite H1 in H2. injection H2 as <-.
      exists hist, (added1 ++ added2)%list. split; [reflexivity|].
      split. { rewrite H3. now rewrite app_assoc. }
      rewrite updates_on_cons, length_app. lia.
    + left. split; [reflexivity|].
      destruct (IH (exec (run_op op) w)) as [[_ Hno]|(hist' & added2 & H2 & _)].
      * exact Hno.
      * rewrite (Hnone eq_refl) in H2. discriminate.
Qed.

(** The execution log of a session grows by exactly the entries of the
    logging calls, whatever updates are made in between. *)
Lemma run_ops_log (session_id : string) (a b : nat) (ops : list StoreOp) :
  forall w : World,
    a <> b ->
    shares_lists session_id a b w ->
    Forall (fun op => keeps_lists op = true) ops ->
    Forall (fun op => op_session op = session_id) ops ->
    exists added : list ExecutionLog,
      deref (heap (run_ops ops w)) (VRef a)
        = (deref (heap w) (VRef a) ++ map VLog added)%list /\
      map (fun e => stage_name e) added = logged_stages ops.
Proof.
  induction ops as [|op rest IH]; intros w Hab Hs Hk Hon.
  - exists []. cbn [run_ops map logged_stages flat_map]. now rewrite app_nil_r.
  - inversion Hk as [|? ? Hk1 Hk2]; subst. inversion Hon as [|? ? Hon1 Hon2]; subst.
    pose proof (run_op_shares (op_session op) a b op w Hk1 Hs) as Hs1.
    destruct (IH (exec (run_op op) w) Hab Hs1 Hk2 Hon2) as (added & Hd & Hst).
    destruct Hs as (hist & Hh & Hne & Hall).
    destruct (last hist) as [latest|] eqn:Hl.
    2:{ apply last_None in Hl. contradiction. }
    pose proof (proj1 (Forall_forall _ _) Hall) as Hall'.
    destruct (Hall' latest (last_Some_elem_of _ _ Hl)) as [Hla Hlb].
    cbn [run_ops]. destruct op as [s updates stage|s n stage st ab sv du er ou].
    + cbn [op_session] in *. exists added. split; [|exact Hst].
      rewrite Hd. f_equal. rewrite exec_run_update.
      cbn [keeps_lists] in Hk1. apply andb_true_iff in Hk1 as [_ Hk1].
      apply negb_true_iff in Hk1.
      destruct (update_state_full s updates stage w hist latest b Hh Hl Hlb Hk1)
        as (st' & w' & Hup & _ & _ & _ & _ & _ & _ & _ & Hother).
      unfold exec. rewrite Hup. cbn [snd deref]. now rewrite (Hother a Hab).
    + cbn [op_session] in *. destruct (valid_output ou) eqn:Hou.
      * destruct (log_stage_execution_full s n stage st ab sv du er ou w hist latest a b
                    Hh Hl Hla Hlb Hab Hou) as (w' & Hlog & _ & _ & _ & Hda & _).
        eexists (_ :: added). split.
        -- rewrite Hd. cbn [run_op]. unfold exec. rewrite Hlog. cbn [snd].
           rewrite Hda. rewrite <- app_assoc. reflexivity.
        -- cbn [map logged_stages flat_map stage_name app]. rewrite Hou.
           cbn [app]. f_equal. exact Hst.
      * exists added. split.
        -- rewrite Hd. cbn [run_op]. unfold exec.
           rewrite (log_stage_execution_refused s n stage st ab sv du er ou w hist Hh Hou).
           reflexivity.
        -- cbn [logged_stages flat_map]. rewrite Hou. exact Hst.
Qed.

(** X4. The execution log of a session records the logging calls that
    return, one entry each and in their order.  A logging call returns when
    its output is [None] or a dict; with any other output the
    [ExecutionLog] model refuses it and nothing is appended.  After
    [create_initial_state] and any sequence of [update_state] and
    [log_stage_execution] calls on the new session, in which no update
    gives a new value to the [execution_log] or [errors] key, the log that
    every version of the session refers to consists of [ExecutionLog]
    entries only, and their stage names are the stage names of the logging
    calls with such an output ([logged_stages]), in order; updates and
    refused logging calls add no entry. *)
Theorem execution_log_follows_calls (rt : Runtime)
    (customer_name email query priority ticket_id : PyVal) (w : World)
    (ops : list StoreOp) :
  Forall (fun op => keeps_lists op = true) ops ->
  Forall (fun op => op_session op = uuid_src w (uuid_ix w)) ops ->
  exists (hist : list Dict) (entries : list ExecutionLog),
    hist <> [] /\
    state_history
      (run_ops ops
         (exec (create_initial_state rt customer_name email query priority ticket_id) w))
      !! uuid_src w (uuid_ix w) = Some hist /\
    map (fun e => stage_name e) entries = logged_stages ops /\
    forall v, In v hist ->
      deref
        (heap (run_ops ops
                 (exec (create_initial_state rt customer_name email query priority ticket_id)
                       w)))
        (dict_get_or v "execution_log" VNone)
      = map VLog entries.
Proof.
  intros Hk Hon.
  destruct (create_initial_state_spec rt customer_name email query priority ticket_id w)
    as (s0 & a & b & Hev & Hsid & Ha & Hb & Hab & Hst).
  set (session_id := uuid_src w (uuid_ix w)) in *.
  set (w1 := exec _ w) in *.
  assert (Hs1 : shares_lists session_id a b w1).
  { exists [s0]. rewrite Hst. split; [apply lookup_insert_eq|].
    split; [discriminate|]. constructor; [auto|constructor]. }
  assert (Hempty : deref (heap w1) (VRef a) = []).
  { subst w1. unfold eval in Hev. unfold exec.
    unfold create_initial_state, bind, uuid4, now, get_heap, new_list in *.
    cbn [fst snd] in *. injection Hev as <-. cbn [dict_get String.eqb Ascii.eqb] in Ha.
    simpl in Ha. injection Ha as <-. simpl.
    rewrite lookup_insert_ne.
    - now rewrite lookup_insert_eq.
    - intros Heq.
      pose proof (is_fresh (dom (<[fresh (dom (heap w)) := [] ]> (heap w)))) as Hf.
      rewrite Heq in Hf. apply Hf. rewrite dom_insert_L. set_solver. }
  destruct (run_ops_log session_id a b ops w1 Hab Hs1 Hk Hon) as (added & Hd & Hnames).
  destruct (run_ops_shares session_id a b ops w1 Hk Hs1) as (hist & Hh & Hne & Hall).
  exists hist, added. split; [exact Hne|]. split; [exact Hh|]. split; [exact Hnames|].
  intros v Hv. apply list_elem_of_In in Hv.
  pose proof (proj1 (Forall_forall _ _) Hall) as Hall'.
  destruct (Hall' v Hv) as [Hva _]. unfold dict_get_or. rewrite Hva.
  rewrite Hd, Hempty. reflexivity.
Qed.

Lemma execution_log_follows_calls_witness :
  Forall (fun op => keeps_lists op = true) understand_ops /\
  Forall (fun op => op_session op = uuid_src empty_world (uuid_ix empty_world))
         understand_ops /\
  exists (hist : list Dict) (entries : list ExecutionLog),
    hist <> [] /\
    state_history (run_ops understand_ops created_world) !! "session-0" = Some hist /\
    map (fun e => stage_name e) entries = ["UNDERSTAND"] /\
    forall v, In v hist ->
      deref (heap (run_ops understand_ops created_world))
            (dict_get_or v "execution_log" VNone)
      = map VLog entries.
Proof.
  split; [repeat constructor|]. split; [repeat constructor|].
  apply (execution_log_follows_calls sample_runtime (VStr "Jane Doe") (VStr "jane@x.com")
           (VStr "payment failed") (VStr "high") VNone empty_world understand_ops);
    repeat constructor.
Defined.

(** X5. [cleanup_session] never raises, also for a session that does not
    exist, and changes no other session.  Afterwards the session is
    unknown: [get_state_history] returns the empty list,
    [get_current_state] raises the session-not-found [ValueError],
    [is_stage_completed] answers [False] and [get_stage_output] [None];
    cleaning up a second time changes nothing.  Cleaning up right after
    [create_initial_state] gives back the histories from before, when the
    new session id was not in use. *)
Theorem cleanup_session_forgets (rt : Runtime) (session_id stage : string)
    (customer_name email query priority ticket_id : PyVal) (w : World) :
  eval (cleanup_session session_id) w = Ok tt /\
  get_state_history session_id (exec (cleanup_session session_id) w)
    = (Ok [], exec (cleanup_session session_id) w) /\
  get_current_state session_id (exec (cleanup_session session_id) w)
    = (Raise (session_not_found session_id), exec (cleanup_session session_id) w) /\
  is_stage_completed session_id stage (exec (cleanup_session session_id) w)
    = (Ok false, exec (cleanup_session session_id) w) /\
  get_stage_output session_id stage (exec (cleanup_session session_id) w)
    = (Ok VNone, exec (cleanup_session session_id) w) /\
  (forall other, other <> session_id ->
     state_history (exec (cleanup_session session_id) w) !! other
     = state_history w !! other) /\
  exec (cleanup_session session_id) (exec (cleanup_session session_id) w)
    = exec (cleanup_session session_id) w /\
  (state_history w !! uuid_src w (uuid_ix w) = None ->
   state_history
     (exec (cleanup_session (uuid_src w (uuid_ix w)))
        (exec (create_initial_state rt customer_name email query priority ticket_id) w))
   = state_history w).
Proof.
  assert (Hno : state_history (exec (cleanup_session session_id) w) !! session_id = None).
  { apply lookup_delete_eq. }
  split; [reflexivity|].
  split. { unfold get_state_history. now rewrite Hno. }
  split. { unfold get_current_state. now rewrite Hno. }
  split. { unfold is_stage_completed. now rewrite Hno. }
  split. { unfold get_stage_output. now rewrite Hno. }
  split. { intros other Hne. apply lookup_delete_ne. congruence. }
  split.
  { unfold exec, cleanup_session, set_history. cbn [snd state_history heap clock uuid_src
      uuid_ix mcp_calls]. now rewrite delete_delete_eq. }
  intros Hfree.
  destruct (create_initial_state_spec rt customer_name email query priority ticket_id w)
    as (s0 & a & b & _ & _ & _ & _ & _ & Hst).
  unfold exec at 1. unfold cleanup_session, set_history. cbn [snd state_history].
  rewrite Hst. now apply delete_insert_id.
Qed.

Lemma completed_among_app (items : list PyVal) (e : ExecutionLog) (stage : string) (c : bool) :
  completed_among items stage = Ok c ->
  completed_among (items ++ [VLog e]) stage
  = Ok (c || (String.eqb (stage_name e) stage && status_eqb (status e) COMPLETED)).
Proof.
  revert c. induction items as [|x rest IH]; intros c Hc.
  - cbn in Hc. injection Hc as <-. cbn [app completed_among orb].
    now destruct (String.eqb (stage_name e) stage && status_eqb (status e) COMPLETED).
  - cbn [app completed_among] in *. destruct x; try discriminate.
    destruct (String.eqb (stage_name e0) stage && status_eqb (status e0) COMPLETED).
    + injection Hc as <-. reflexivity.
    + now apply IH.
Qed.

(** X6. Logging can only complete a stage.  On a session whose latest
    version keeps its log and its notes in two list objects, and on which
    [is_stage_completed] answers [c] for a stage, the answer after a
    [log_stage_execution] call is [True] if [c] was, or if the call logs
    that very stage with status COMPLETED and with an output that is
    [None] or a dict, and [False] otherwise: entries with another status
    (FAILED, IN_PROGRESS, SKIPPED) or for another stage do not count, a
    call with any other output is refused by the [ExecutionLog] model and
    logs nothing, and a completed stage stays completed. *)
Theorem logging_completes_stage (session_id : string) (sid : Z) (stage : string)
    (st : StageStatus) (abilities : option (list string)) (server : option string)
    (duration : option Z) (err : option string) (out : option PyVal)
    (w : World) (hist : list Dict) (latest : Dict) (a b : nat) (asked : string) (c : bool) :
  state_history w !! session_id = Some hist ->
  last hist = Some latest ->
  dict_get latest "execution_log" = Some (VRef a) ->
  dict_get latest "errors" = Some (VRef b) ->
  a <> b ->
  eval (is_stage_completed session_id asked) w = Ok c ->
  eval (is_stage_completed session_id asked)
       (exec (log_stage_execution session_id sid stage st abilities server duration err out) w)
  = Ok (c || (valid_output out
              && String.eqb stage asked
              && match st with COMPLETED => true | _ => false end)).
Proof.
  intros Hh Hl Ha Hb Hab Hc. destruct (valid_output out) eqn:Hout.
  - destruct (log_stage_execution_full session_id sid stage st abilities server duration err
                out w hist latest a b Hh Hl Ha Hb Hab Hout)
      as (w' & Hlog & Hh' & _ & _ & Hda & _).
    unfold exec. rewrite Hlog. cbn [snd].
    unfold eval, is_stage_completed in *. rewrite Hh'. rewrite Hh, Hl, Ha in *.
    cbn [fst py_iter res_bind] in *. cbn [deref] in Hda. rewrite Hda.
    rewrite (completed_among_app _ _ _ _ Hc). cbn [stage_name status andb].
    now destruct st.
  - unfold exec.
    rewrite (log_stage_execution_refused session_id sid stage st abilities server duration
               err out w hist Hh Hout).
    cbn [snd andb]. rewrite orb_false_r.
    unfold eval, is_stage_completed in *. cbn [tick state_history heap].
    rewrite Hh, Hl in *. exact Hc.
Qed.

Lemma logging_completes_stage_witness :
  eval (is_stage_completed "session-0" "INTAKE")
       (exec (log_stage_execution "session-0" 1 "INTAKE" COMPLETED (Some ["accept_payload"])
                (Some "STATE") (Some 3) None None) created_world)
  = Ok true /\
  eval (is_stage_completed "session-0" "INTAKE")
       (exec (log_stage_execution "session-0" 1 "INTAKE" FAILED (Some [])
                None (Some 3) (Some "Payload validation failed") None) created_world)
  = Ok false /\
  eval (is_stage_completed "session-0" "INTAKE")
       (exec (log_stage_execution "session-0" 1 "INTAKE" COMPLETED (Some ["accept_payload"])
                (Some "STATE") (Some 3) None (Some (VInt 3))) created_world)
  = Ok false.
Proof.
  split; [|split].
  - apply (logging_completes_stage "session-0" 1 "INTAKE" COMPLETED (Some ["accept_payload"])
             (Some "STATE") (Some 3) None None created_world [created_state] created_state
             0%nat 1%nat "INTAKE" false);
      first [vm_compute; reflexivity | discriminate].
  - apply (logging_completes_stage "session-0" 1 "INTAKE" FAILED (Some [])
             None (Some 3) (Some "Payload validation failed") None created_world
             [created_state] created_state 0%nat 1%nat "INTAKE" false);
      first [vm_compute; reflexivity | discriminate].
  - apply (logging_completes_stage "session-0" 1 "INTAKE" COMPLETED (Some ["accept_payload"])
             (Some "STATE") (Some 3) None (Some (VInt 3)) created_world [created_state]
             created_state 0%nat 1%nat "INTAKE" false);
      first [vm_compute; reflexivity | discriminate].
Defined.

Lemma output_among_app (items : list PyVal) (e : ExecutionLog) (stage : string) :
  all_entries items = true ->
  output_among (items ++ [VLog e]) stage
  = if has_entry items stage then output_among items stage
    else if String.eqb (stage_name e) stage then Ok (opt_val (fun v => v) (output e))
         else Ok VNone.
Proof.
  unfold has_entry. induction items as [|x rest IH]; intros Hall.
  - reflexivity.
  - cbn [all_entries forallb] in Hall. destruct x; try discriminate.
    cbn [app output_among entry_stages flat_map existsb].
    destruct (String.eqb (stage_name e0) stage); [reflexivity|].
    cbn [orb]. apply IH. exact Hall.
Qed.

Lemma output_among_none (items : list PyVal) (stage : string) :
  all_entries items = true ->
  has_entry items stage = false ->
  output_among items stage = Ok VNone.
Proof.
  unfold has_entry. induction items as [|x rest IH]; intros Hall Hno.
  - reflexivity.
  - cbn [all_entries forallb] in Hall. destruct x; try discriminate.
    cbn [output_among entry_stages flat_map existsb app] in *.
    destruct (String.eqb (stage_name e) stage); [discriminate|].
    apply IH; assumption.
Qed.

Lemma output_among_has (items : list PyVal) (e : ExecutionLog) (stage : string) :
  all_entries items = true ->
  has_entry items stage = true ->
  output_among (items ++ [VLog e]) stage = output_among items stage.
Proof.
  intros Hall Hhas. rewrite (output_among_app _ _ _ Hall). now rewrite Hhas.
Qed.

(** X7. [get_stage_output] returns the output of the first entry logged
    for a stage, not of the latest.  On a session whose log holds
    [ExecutionLog] entries only: once the log has an entry for a stage, a
    further [log_stage_execution] call, for that stage or another, does not
    change what [get_stage_output] returns for it; when the log has none,
    the call makes it return the logged output if it logs that stage with
    an output that is [None] or a dict, and [None] if not (a call with any
    other output is refused by the [ExecutionLog] model and logs
    nothing). *)
Theorem get_stage_output_first_entry (session_id : string) (sid : Z) (stage : string)
    (st : StageStatus) (abilities : option (list string)) (server : option string)
    (duration : option Z) (err : option string) (out : option PyVal)
    (w : World) (hist : list Dict) (latest : Dict) (a b : nat) (asked : string) :
  state_history w !! session_id = Some hist ->
  last hist = Some latest ->
  dict_get latest "execution_log" = Some (VRef a) ->
  dict_get latest "errors" = Some (VRef b) ->
  a <> b ->
  all_entries (deref (heap w) (VRef a)) = true ->
  eval (get_stage_output session_id asked)
       (exec (log_stage_execution session_id sid stage st abilities server duration err out) w)
  = if has_entry (deref (heap w) (VRef a)) asked
    then eval (get_stage_output session_id asked) w
    else if valid_output out && String.eqb stage asked
         then Ok (opt_val (fun v => v) out) else Ok VNone.
Proof.
  intros Hh Hl Ha Hb Hab Hall. destruct (valid_output out) eqn:Hout.
  - destruct (log_stage_execution_full session_id sid stage st abilities server duration err
                out w hist latest a b Hh Hl Ha Hb Hab Hout)
      as (w' & Hlog & Hh' & _ & _ & Hda & _).
    unfold exec. rewrite Hlog. cbn [snd].
    unfold eval, get_stage_output. rewrite Hh', Hh, Hl, Ha.
    cbn [fst py_iter res_bind andb]. cbn [deref] in Hda, Hall |- *. rewrite Hda.
    now rewrite (output_among_app _ _ _ Hall).
  - unfold exec.
    rewrite (log_stage_execution_refused session_id sid stage st abilities server duration
               err out w hist Hh Hout).
    cbn [snd andb].
    unfold eval, get_stage_output. cbn [tick state_history heap]. rewrite Hh, Hl, Ha.
    cbn [fst py_iter res_bind]. cbn [deref] in Hall |- *.
    destruct (has_entry (default [] (heap w !! a)) asked) eqn:Hhas; [reflexivity|].
    now apply output_among_none.
Qed.

Lemma get_stage_output_first_entry_witness :
  eval (get_stage_output "session-0" "WAIT")
       (exec (log_stage_execution "session-0" 5 "WAIT" COMPLETED
                (Some ["extract_answer"; "store_answer"]) (Some "ATLAS,STATE") (Some 4) None
                (Some (VDict [("customer_responses", VDict [("completeness", VInt 1)])])))
             waiting_world)
  = Ok (VDict [("status", VStr "waiting_for_customer_response")]).
Proof.
  rewrite (get_stage_output_first_entry "session-0" 5 "WAIT" COMPLETED
             (Some ["extract_answer"; "store_answer"]) (Some "ATLAS,STATE") (Some 4) None
             (Some (VDict [("customer_responses", VDict [("completeness", VInt 1)])]))
             waiting_world [created_state] created_state 0%nat 1%nat "WAIT");
    first [vm_compute; reflexivity | discriminate].
Defined.

Lemma fold_duration_app (items : list PyVal) (x : PyVal) (z : Z) :
  fold_left (fun total item => total + duration_of item) (items ++ [x])%list z
  = fold_left (fun total item => total + duration_of item) items z + duration_of x.
Proof. now rewrite fold_left_app. Qed.

(** X8. A simulated stage leaves the session as a completed stage would.
    For a state that names an existing session, whose latest version keeps
    its log and its notes in two list objects and has a log of entries,
    [_simulate_stage_execution] returns a new version of the session, with
    [current_stage] set; afterwards [is_stage_completed] answers [True] for
    the stage and [_calculate_processing_time] is 100 more than before.
    For CREATE the new version holds the generated response, written with
    the customer name of the state that was passed; for any other stage no
    key other than [current_stage] and [updated_at] changes. *)
Theorem simulated_stage_completes (rt : Runtime) (state : Dict) (stage : string)
    (stage_id : Z) (w : World) (session_id : string) (customer_name : PyVal)
    (hist : list Dict) (latest : Dict) (a b : nat) (c : bool) (t0 : Z) :
  dict_get state "session_id" = Some (VStr session_id) ->
  dict_get state "customer_name" = Some customer_name ->
  state_history w !! session_id = Some hist ->
  last hist = Some latest ->
  dict_get latest "execution_log" = Some (VRef a) ->
  dict_get latest "errors" = Some (VRef b) ->
  a <> b ->
  eval (is_stage_completed session_id stage) w = Ok c ->
  _calculate_processing_time (heap w) latest = Ok t0 ->
  exists st',
    let w' := exec (_simulate_stage_execution rt state stage stage_id) w in
    eval (_simulate_stage_execution rt state stage stage_id) w = Ok st' /\
    get_state_history session_id w' = (Ok (hist ++ [st'])%list, w') /\
    dict_get st' "current_stage" = Some (VStr stage) /\
    eval (is_stage_completed session_id stage) w' = Ok true /\
    _calculate_processing_time (heap w') st' = Ok (t0 + 100) /\
    (forall k, k <> "current_stage" -> k <> "updated_at" ->
       dict_get st' k
       = if String.eqb stage "CREATE" && String.eqb k "generated_response"
            && dict_has latest "generated_response"
         then Some (VStr ("Dear " +:+ py_str rt customer_name
                            +:+ ", your issue has been resolved successfully."))
         else dict_get latest k).
Proof.
  intros Hsid Hname Hh Hl Ha Hb Hab Hc Ht.
  set (entry := mkExecutionLog stage_id stage (clock w) COMPLETED
                  ["simulated_" +:+ str_lower rt stage] (Some "SIMULATED") (Some 100) None
                  (Some (VDict [("simulated", VBool true); ("stage", VStr stage)]))).
  destruct (log_stage_execution_full session_id stage_id stage COMPLETED
              (Some ["simulated_" +:+ str_lower rt stage]) (Some "SIMULATED") (Some 100) None
              (Some (VDict [("simulated", VBool true); ("stage", VStr stage)]))
              w hist latest a b Hh Hl Ha Hb Hab eq_refl)
    as (w1 & Hlog & Hh1 & _ & _ & Hda & _).
  cbn [default from_option id] in Hda. fold entry in Hda.
  set (updates := if String.eqb stage "CREATE"
                  then [ ("generated_response",
                          VStr ("Dear " +:+ py_str rt customer_name
                                  +:+ ", your issue has been resolved successfully.")) ]
                  else []).
  assert (Hno : dict_has updates "errors" = false).
  { subst updates. now destruct (String.eqb stage "CREATE"). }
  assert (Hnl : dict_has updates "execution_log" = false).
  { subst updates. now destruct (String.eqb stage "CREATE"). }
  rewrite <- Hh1 in Hh.
  destruct (update_state_full session_id updates stage w1 hist latest b Hh Hl Hb Hno)
    as (st' & w2 & Hup & Hh2 & _ & _ & Hcs & _ & Hget & _ & Hother).
  assert (Hrun : _simulate_stage_execution rt state stage stage_id w = (Ok st', w2)).
  { unfold _simulate_stage_execution, item. rewrite Hsid, Hname.
    cbn [res_bind session_key]. unfold bind at 1. cbn [lift].
    unfold bind at 1. rewrite Hlog.
    unfold bind at 1. fold updates.
    assert (Hu : (if String.eqb stage "CREATE"
                  then customer_name0 <- lift (Ok customer_name) ;;
                       ret [ ("generated_response",
                              VStr ("Dear " +:+ py_str rt customer_name0
                                      +:+ ", your issue has been resolved successfully.")) ]
                  else ret [])%M w1 = (Ok updates, w1)).
    { subst updates. now destruct (String.eqb stage "CREATE"). }
    rewrite Hu. unfold bind, lift. exact Hup. }
  exists st'. cbv zeta. unfold eval, exec. rewrite Hrun. cbn [fst snd].
  assert (Hlog' : dict_get st' "execution_log" = Some (VRef a)).
  { rewrite Hget by discriminate. unfold updated_value.
    unfold dict_has in *. rewrite Ha.
    assert (Hrev : dict_get (rev updates) "execution_log" = None).
    { subst updates. now destruct (String.eqb stage "CREATE"). }
    now rewrite Hrev. }
  assert (Hheap : heap w2 !! a = Some (deref (heap w) (VRef a) ++ [VLog entry])%list).
  { rewrite (Hother a Hab). cbn [deref] in Hda.
    destruct (heap w1 !! a) as [l|] eqn:E.
    - cbn [default from_option id] in Hda. now rewrite Hda.
    - cbn [default from_option id] in Hda. symmetry in Hda.
      apply app_eq_nil in Hda as [_ Hda]. discriminate. }
  split; [reflexivity|].
  split. { unfold get_state_history. rewrite Hh2, lookup_insert_eq. reflexivity. }
  split; [exact Hcs|].
  split.
  { unfold eval, is_stage_completed in Hc |- *.
    rewrite Hh2, lookup_insert_eq, last_snoc, Hlog'.
    rewrite Hh1 in Hh. rewrite Hh, Hl, Ha in Hc. cbn [fst py_iter res_bind] in *. rewrite Hheap.
    cbn [default from_option id deref]. rewrite (completed_among_app _ entry _ _ Hc).
    subst entry. cbn [stage_name status]. rewrite String.eqb_refl.
    now rewrite orb_true_r. }
  split.
  { unfold _calculate_processing_time, dict_get_or in *. rewrite Hlog'. rewrite Ha in Ht.
    cbn [py_iter res_bind] in *. rewrite Hheap. cbn [default from_option id deref].
    rewrite fold_duration_app. injection Ht as <-. reflexivity. }
  intros k H1 H2. rewrite (Hget k H1 H2). unfold updated_value. subst updates.
  destruct (String.eqb stage "CREATE"); cbn [andb rev app dict_get].
  - destruct (String.eqb k "generated_response") eqn:E; cbn [andb].
    + apply String.eqb_eq in E. subst k.
      destruct (dict_has latest "generated_response") eqn:Hg; [reflexivity|].
      unfold dict_has in Hg. now destruct (dict_get latest "generated_response").
    + unfold dict_has. now destruct (dict_get latest k).
  - unfold dict_has. now destruct (dict_get latest k).
Qed.

Lemma simulated_stage_completes_witness :
  exists st',
    eval (_simulate_stage_execution sample_runtime created_state "CREATE" 9) created_world
      = Ok st' /\
    dict_get st' "generated_response"
      = Some (VStr "Dear Jane Doe, your issue has been resolved successfully.") /\
    eval (is_stage_completed "session-0" "CREATE")
         (exec (_simulate_stage_execution sample_runtime created_state "CREATE" 9)
               created_world)
      = Ok true /\
    _calculate_processing_time
      (heap (exec (_simulate_stage_execution sample_runtime created_state "CREATE" 9)
                  created_world)) st'
      = Ok 100.
Proof.
  destruct (simulated_stage_completes sample_runtime created_state "CREATE" 9 created_world
              "session-0" (VStr "Jane Doe") [created_state] created_state 0%nat 1%nat
              false 0)
    as (st' & Hev & _ & _ & Hdone & Htime & Hget);
    try (vm_compute; reflexivity); [discriminate|].
  exists st'. split; [exact Hev|].
  split. { rewrite Hget by discriminate. vm_compute. reflexivity. }
  split; [exact Hdone|exact Htime].
Defined.

(* ===================================================================== *)
(** ** Further properties of the MCP client *)
(* ===================================================================== *)

(** The request that [execute_ability] builds from arguments that are
    given as a dict, a dict and a string, or left out. *)
Lemma execute_ability_request (h : Heap) (ability_name : string)
    (parameters context : option Dict) (session_id : option string) (t : Z) :
  MCPRequest.make ability_name
    (py_or h (opt_val VDict parameters) (VDict []))
    (py_or h (opt_val VDict context) (VDict []))
    (py_or h (opt_val VStr session_id) (VStr "UnknownSession")) t
  = Ok (MCPRequest.mk ability_name (default [] parameters) (default [] context)
          (match session_id with
           | Some s => if String.eqb s "" then "UnknownSession" else s
           | None => "UnknownSession"
           end) t).
Proof.
  destruct parameters as [[|? ?]|], context as [[|? ?]|], session_id as [s|];
    unfold py_or; cbn [opt_val truthy MCPRequest.make default from_option id];
    try destruct (String.eqb s ""); reflexivity.
Qed.

(** X9. [execute_ability] never raises for an ability of the routing
    table, whatever the server does.  With [parameters] and [context] given
    as dicts or left out and [session_id] a string or left out, the call
    returns an envelope whose [server_type] is the server that the table
    gives for the ability.  The server is asked once, with the ability
    name, the parameters and the context ([{}] for what was left out) and
    the session id (["UnknownSession"] when left out or empty).  If the
    server answers with a dict or with [None], the envelope has
    [success=True], the answer as data ([data] is optional in the model)
    and no error; if the server raises, the envelope has [success=False],
    no data and the text of the exception as [error]; if it answers with
    anything else, the envelope is refused by the model inside the [try],
    and the failure envelope carries the text of that validation error. *)
Theorem execute_ability_envelope (rt : Runtime) (atlas common : Backend)
    (ability_name : string) (server : MCPServerType)
    (parameters context : option Dict) (session_id : option string) (w : World) :
  mapping_get server_mapping ability_name = Some server ->
  exists resp,
    eval (execute_ability rt atlas common ability_name (opt_val VDict parameters)
            (opt_val VDict context) (opt_val VStr session_id)) w = Ok resp /\
    MCPResponse.server_type resp = server /\
    mcp_calls (exec (execute_ability rt atlas common ability_name (opt_val VDict parameters)
                       (opt_val VDict context) (opt_val VStr session_id)) w)
      = (mcp_calls w ++ [ability_name])%list /\
    match
      (match server with ATLAS => atlas | COMMON => common end)
        (MCPRequest.mk ability_name (default [] parameters) (default [] context)
           (match session_id with
            | Some s => if String.eqb s "" then "UnknownSession" else s
            | None => "UnknownSession"
            end) (clock w))
        (clock w + 1 + 1)
    with
    | Ok (VDict d) =>
        MCPResponse.success resp = true /\ MCPResponse.data resp = VDict d /\
        MCPResponse.error resp = None
    | Ok VNone =>
        MCPResponse.success resp = true /\ MCPResponse.data resp = VNone /\
        MCPResponse.error resp = None
    | Ok _ =>
        MCPResponse.success resp = false /\ MCPResponse.data resp = VNone /\
        MCPResponse.error resp = Some (str_exn rt (ValidationError "MCPResponse" "data"))
    | Raise e =>
        MCPResponse.success resp = false /\ MCPResponse.data resp = VNone /\
        MCPResponse.error resp = Some (str_exn rt e)
    end.
Proof.
  intros Hmap. unfold eval, exec, execute_ability. rewrite Hmap.
  unfold bind, record_call, get_heap, now, lift. cbn [heap clock].
  rewrite !execute_ability_request.
  set (req := MCPRequest.mk _ _ _ _ _).
  destruct server; unfold _call_atlas_server, _call_common_server, bind, try_except, now, lift;
    cbn [clock];
    match goal with |- context [?backend req ?t] => destruct (backend req t) as [[]|] end;
    cbn; eexists; repeat (match goal with |- _ /\ _ => split end); reflexivity.
Qed.

Lemma execute_ability_envelope_witness :
  exists resp,
    eval (execute_ability sample_runtime
            (fun _ _ => Raise (Exception_ "connection refused"))
            (_simulate_common_response sample_runtime)
            "update_ticket" (VDict [("new_status", VStr "in_progress")]) VNone VNone)
         empty_world = Ok resp /\
    MCPResponse.server_type resp = ATLAS /\
    MCPResponse.success resp = false /\
    MCPResponse.error resp = Some "connection refused".
Proof.
  destruct (execute_ability_envelope sample_runtime
              (fun _ _ => Raise (Exception_ "connection refused"))
              (_simulate_common_response sample_runtime)
              "update_ticket" ATLAS (Some [("new_status", VStr "in_progress")]) None None
              empty_world eq_refl)
    as (resp & Hev & Hserver & _ & Hsucc & _ & Herr).
  exists resp. repeat (match goal with |- _ /\ _ => split end); assumption.
Defined.

(* ===================================================================== *)
(** ** Further properties of the INTAKE stage *)
(* ===================================================================== *)

Lemma is_blank_false_nonempty (s : string) : is_blank s = false -> String.eqb s "" = false.
Proof. destruct s; [discriminate|reflexivity]. Qed.

Lemma check_required_nil (h : Heap) (payload : Dict) (field : string) :
  check_required h payload field = [] <->
  exists s, dict_get payload field = Some (VStr s) /\ is_blank s = false.
Proof.
  unfold check_required, dict_get_or.
  destruct (dict_get payload field) as [v|].
  - destruct v as [|bv|z|q|s|t|l|d|r|e];
      try (split; [|intros (s0 & [=] & _)];
           cbn [truthy];
           match goal with |- context [if ?c then _ else _] => destruct c end;
           discriminate).
    cbn [truthy]. destruct (is_blank s) eqn:B.
    + split.
      * destruct (negb (negb (String.eqb s ""))); discriminate.
      * intros (s0 & [= <-] & Hs). congruence.
    + rewrite (is_blank_false_nonempty s B). cbn [negb]. split; [eauto|reflexivity].
  - cbn [truthy negb]. split; [discriminate|]. intros (s0 & [=] & _).
Qed.

(** What [_validate_payload] returns when the three required fields are
    strings with more than white space in them. *)
Lemma validate_payload_strings (rt : Runtime) (h : Heap) (payload : Dict)
    (cn em q : string) :
  dict_get payload "customer_name" = Some (VStr cn) ->
  dict_get payload "email" = Some (VStr em) ->
  dict_get payload "query" = Some (VStr q) ->
  is_blank cn = false -> is_blank em = false -> is_blank q = false ->
  _validate_payload rt h payload
  = Ok ((if str_contains "@" em then [] else ["Invalid email format"])
        ++ (if truthy h (dict_get_or payload "priority" (VStr "medium"))
               && negb (is_valid_priority (dict_get_or payload "priority" (VStr "medium")))
            then ["Invalid priority '"
                    +:+ py_str rt (dict_get_or payload "priority" (VStr "medium"))
                    +:+ "'. Must be: low, medium, high, or urgent"]
            else [])
        ++ (if Z.ltb 5000 (Z.of_nat (utf8_length q))
            then ["Query too long (max 5000 characters)"] else []))%list.
Proof.
  intros Hcn Hem Hq Bcn Bem Bq. unfold _validate_payload.
  assert (He : flat_map (check_required h payload) ["customer_name"; "email"; "query"] = []).
  { cbn [flat_map].
    rewrite (proj2 (check_required_nil h payload "customer_name")) by eauto.
    rewrite (proj2 (check_required_nil h payload "email")) by eauto.
    rewrite (proj2 (check_required_nil h payload "query")) by eauto.
    reflexivity. }
  rewrite He.
  assert (Hem' : dict_get_or payload "email" (VStr "") = VStr em).
  { unfold dict_get_or. now rewrite Hem. }
  assert (Hq' : dict_get_or payload "query" (VStr "") = VStr q).
  { unfold dict_get_or. now rewrite Hq. }
  rewrite Hem', Hq'.
  cbn [truthy str_in res_bind py_len]. rewrite (is_blank_false_nonempty em Bem). cbn [negb].
  destruct (str_contains "@" em),
    (truthy h (dict_get_or payload "priority" (VStr "medium"))
     && negb (is_valid_priority (dict_get_or payload "priority" (VStr "medium")))),
    (Z.ltb 5000 (Z.of_nat (utf8_length q))); reflexivity.
Qed.

Lemma validate_payload_errors_grow (rt : Runtime) (h : Heap) (payload : Dict)
    (errors : list string) :
  _validate_payload rt h payload = Ok errors ->
  exists more,
    errors
    = (flat_map (check_required h payload) ["customer_name"; "email"; "query"] ++ more)%list.
Proof.
  unfold _validate_payload.
  remember (flat_map (check_required h payload) ["customer_name"; "email"; "query"]) as E.
  clear HeqE. intros H.
  destruct (truthy h (dict_get_or payload "email" (VStr ""))).
  - destruct (str_in h "@" (dict_get_or payload "email" (VStr ""))) as [[|]|]; cbn in H;
      try discriminate;
      destruct (truthy h (dict_get_or payload "priority" (VStr "medium"))
                && negb (is_valid_priority (dict_get_or payload "priority" (VStr "medium"))));
      destruct (py_len h (dict_get_or payload "query" (VStr ""))) as [n|]; cbn in H;
      try discriminate;
      destruct (Z.ltb 5000 n); injection H as <-;
      rewrite <- ?app_assoc;
      first [eexists; reflexivity | exists []; now rewrite app_nil_r].
  - cbn in H.
    destruct (truthy h (dict_get_or payload "priority" (VStr "medium"))
              && negb (is_valid_priority (dict_get_or payload "priority" (VStr "medium"))));
      destruct (py_len h (dict_get_or payload "query" (VStr ""))) as [n|]; cbn in H;
      try discriminate;
      destruct (Z.ltb 5000 n); injection H as <-;
      rewrite <- ?app_assoc;
      first [eexists; reflexivity | exists []; now rewrite app_nil_r].
Qed.

(** X10. What [_validate_payload] accepts.  It returns the empty list
    exactly when [customer_name], [email] and [query] are strings with
    more than white space in them (white space as [str.strip] has it, the
    Unicode spaces such as U+00A0 and U+3000 included), the email contains
    an [@], the query has at most 5000 characters (code points, as [len]
    counts them, not bytes of the encoding), and the priority is one of
    low, medium, high and urgent, or is missing or falsy ([None], the empty
    string, 0): a falsy priority is not checked. *)
Theorem validate_payload_accepts (rt : Runtime) (h : Heap) (payload : Dict) :
  _validate_payload rt h payload = Ok [] <->
  exists cn em q : string,
    dict_get payload "customer_name" = Some (VStr cn) /\
    dict_get payload "email" = Some (VStr em) /\
    dict_get payload "query" = Some (VStr q) /\
    is_blank cn = false /\ is_blank em = false /\ is_blank q = false /\
    str_contains "@" em = true /\
    (utf8_length q <= 5000)%nat /\
    (truthy h (dict_get_or payload "priority" (VStr "medium")) = false \/
     is_valid_priority (dict_get_or payload "priority" (VStr "medium")) = true).
Proof.
  split.
  - intros H.
    destruct (validate_payload_errors_grow rt h payload [] H) as (more & Hm).
    symmetry in Hm. apply app_eq_nil in Hm as [Hm _]. cbn [flat_map] in Hm.
    apply app_eq_nil in Hm as [H1 Hm]. apply app_eq_nil in Hm as [H2 Hm].
    apply app_eq_nil in Hm as [H3 _].
    apply check_required_nil in H1 as (cn & Hcn & Bcn).
    apply check_required_nil in H2 as (em & Hem & Bem).
    apply check_required_nil in H3 as (q & Hq & Bq).
    exists cn, em, q. do 6 (split; [assumption|]).
    rewrite (validate_payload_strings rt h payload cn em q Hcn Hem Hq Bcn Bem Bq) in H.
    injection H as H.
    apply app_eq_nil in H as [Ha H]. apply app_eq_nil in H as [Hp Hl].
    split. { destruct (str_contains "@" em); [reflexivity|discriminate]. }
    split. { destruct (Z.ltb 5000 (Z.of_nat (utf8_length q))) eqn:E; [discriminate|].
             apply Z.ltb_ge in E. lia. }
    destruct (truthy h (dict_get_or payload "priority" (VStr "medium"))); [|now left].
    destruct (is_valid_priority (dict_get_or payload "priority" (VStr "medium")));
      [now right|discriminate].
  - intros (cn & em & q & Hcn & Hem & Hq & Bcn & Bem & Bq & Hat & Hlen & Hp).
    rewrite (validate_payload_strings rt h payload cn em q Hcn Hem Hq Bcn Bem Bq).
    rewrite Hat.
    assert (Hl : Z.ltb 5000 (Z.of_nat (utf8_length q)) = false) by (apply Z.ltb_ge; lia).
    rewrite Hl. destruct Hp as [-> | ->]; [reflexivity|].
    now rewrite andb_false_r.
Qed.

(** X11. [IntakeStage.execute] raises nothing, whatever the payload and
    whatever the store holds, also when validation itself raises: it
    returns [None] or the dict of a state.  It returns [None] whenever
    [_validate_payload] does not return the empty list; a state is returned
    only for a payload that passed validation. *)
Theorem intake_never_raises (rt : Runtime) (input_payload : Dict) (w : World) :
  exists v,
    eval (intake_execute rt input_payload) w = Ok v /\
    (_validate_payload rt (heap w) input_payload <> Ok [] -> v = VNone) /\
    (v = VNone \/ exists st, v = VDict st).
Proof.
  unfold eval, intake_execute, bind, try_except, now, get_heap, lift. cbn [heap fst].
  destruct (_validate_payload rt (heap w) input_payload) as [[|e es]|exn].
  - destruct (item input_payload "customer_name") as [cn|?]; cbn [fst];
      [destruct (item input_payload "email") as [em|?]; cbn [fst];
       [destruct (item input_payload "query") as [q|?]; cbn [fst]|]|].
    + cbn.
      match goal with |- context [log_stage_execution ?a ?b ?c ?d ?e ?f ?g ?h ?i ?w0] =>
        destruct (log_stage_execution a b c d e f g h i w0) as [[[]|ex] w1] end; cbn.
      * eexists. split; [reflexivity|]. split; [congruence|eauto].
      * match goal with |- context [log_stage_execution ?a ?b ?c ?d ?e ?f ?g ?h ?i ?w0] =>
          destruct (log_stage_execution a b c d e f g h i w0) as [[[]|ex'] w2] end;
          eexists; (split; [reflexivity|]); split; auto.
    + cbn.
      match goal with |- context [log_stage_execution ?a ?b ?c ?d ?e ?f ?g ?h ?i ?w0] =>
        destruct (log_stage_execution a b c d e f g h i w0) as [[[]|ex'] w2] end;
        eexists; (split; [reflexivity|]); split; auto.
    + cbn.
      match goal with |- context [log_stage_execution ?a ?b ?c ?d ?e ?f ?g ?h ?i ?w0] =>
        destruct (log_stage_execution a b c d e f g h i w0) as [[[]|ex'] w2] end;
        eexists; (split; [reflexivity|]); split; auto.
    + cbn.
      match goal with |- context [log_stage_execution ?a ?b ?c ?d ?e ?f ?g ?h ?i ?w0] =>
        destruct (log_stage_execution a b c d e f g h i w0) as [[[]|ex'] w2] end;
        eexists; (split; [reflexivity|]); split; auto.
  - cbn.
    match goal with |- context [log_stage_execution ?a ?b ?c ?d ?e ?f ?g ?h ?i ?w0] =>
      destruct (log_stage_execution a b c d e f g h i w0) as [[[]|ex'] w2] end;
      eexists; (split; [reflexivity|]); split; auto.
  - cbn.
    match goal with |- context [log_stage_execution ?a ?b ?c ?d ?e ?f ?g ?h ?i ?w0] =>
      destruct (log_stage_execution a b c d e f g h i w0) as [[[]|ex'] w2] end;
      eexists; (split; [reflexivity|]); split; auto.
Qed.

(* ===================================================================== *)
(** ** Further properties of the DECIDE stage *)
(* ===================================================================== *)

(** The loop of [_find_best_solution] ends with a score that no solution
    exceeds, and with the solution that has it, or with what it started
    from when no solution scores more. *)
Lemma best_loop_max (scores : Dict) :
  well_scored scores = true ->
  forall (best_id best_score : PyVal) (q : Q),
    as_num best_score = Some q ->
    exists id score q',
      best_loop scores best_id best_score = Ok (id, score) /\
      as_num score = Some q' /\
      (q <= q')%Q /\
      Forall (fun kv => exists qk, overall_of (snd kv) = Some qk /\ (qk <= q')%Q) scores /\
      ((id = best_id /\ score = best_score) \/
       exists k d, id = VStr k /\ In (k, VDict d) scores /\
                   dict_get_or d "overall_score" (VInt 0) = score /\ (q < q')%Q).
Proof.
  induction scores as [|[sid sc] rest IH]; intros Hw best_id best_score q Hq.
  - exists best_id, best_score, q. cbn [best_loop].
    repeat split; auto using Qle_refl.
  - cbn [well_scored forallb snd] in Hw. apply andb_true_iff in Hw as [Hsc Hrest].
    destruct sc as [| | | | | | |d| |]; try discriminate. cbn [is_scored] in Hsc.
    destruct (as_num (dict_get_or d "overall_score" (VInt 0))) as [q0|] eqn:E;
      [|discriminate].
    cbn [best_loop py_get res_bind]. unfold py_gt, py_lt. rewrite Hq, E. cbn [res_bind].
    destruct (Qlt_bool q q0) eqn:Hlt.
    + apply Qlt_bool_true in Hlt.
      destruct (IH Hrest (VStr sid) (dict_get_or d "overall_score" (VInt 0)) q0 E)
        as (id & score & q' & Hloop & Hnum & Hle & Hall & Hwho).
      exists id, score, q'. split; [exact Hloop|]. split; [exact Hnum|].
      split. { apply Qlt_le_weak. eapply Qlt_le_trans; eassumption. }
      split. { constructor; [|exact Hall]. exists q0. cbn [snd overall_of]. auto. }
      right. destruct Hwho as [[-> ->]|(k & d' & -> & Hin & Hsco & Hq')].
      * exists sid, d. rewrite E in Hnum. injection Hnum as <-.
        repeat split; auto. now left.
      * exists k, d'. repeat split; auto. { now right. }
        eapply Qlt_trans; eassumption.
    + apply Qlt_bool_false in Hlt.
      destruct (IH Hrest best_id best_score q Hq)
        as (id & score & q' & Hloop & Hnum & Hle & Hall & Hwho).
      exists id, score, q'. split; [exact Hloop|]. split; [exact Hnum|].
      split; [exact Hle|].
      split. { constructor; [|exact Hall]. exists q0. cbn [snd overall_of].
               split; [exact E|]. eapply Qle_trans; eassumption. }
      destruct Hwho as [Hsame|(k & d' & -> & Hin & Hsco & Hq')]; [now left|].
      right. exists k, d'. repeat split; auto. now right.
Qed.

(** The result of [_find_best_solution] where no recommendation
    overrides the scan: a scored solution with the highest score. *)
Lemma find_best_solution_highest (h : Heap) (ev scores : Dict) :
  dict_get ev "solution_scores" = Some (VDict scores) ->
  scores <> [] ->
  well_scored scores = true ->
  (dict_get_or ev "recommended_solution" VNone = VNone \/
   exists rid, dict_get_or ev "recommended_solution" VNone = VStr rid /\
               dict_has scores rid = false) ->
  exists id score q,
    _find_best_solution h (VDict ev)
    = Ok (VDict [ ("solution_id", id); ("score", score);
                  ("details", details_of scores id) ], score) /\
    as_num score = Some q /\
    (0 <= q)%Q /\
    Forall (fun kv => exists qk, overall_of (snd kv) = Some qk /\ (qk <= q)%Q) scores /\
    ((id = VNone /\ score = VFloat 0) \/
     exists k d, id = VStr k /\ In (k, VDict d) scores /\
                 dict_get_or d "overall_score" (VInt 0) = score /\ (0 < q)%Q).
Proof.
  intros Hs Hne Hw Hrec.
  destruct (best_loop_max scores Hw VNone (VFloat 0) 0%Q eq_refl)
    as (id & score & q & Hloop & Hnum & Hle & Hall & Hwho).
  exists id, score, q.
  split; [|repeat split; assumption].
  assert (Htr : match scores with [] => false | _ => true end = true).
  { destruct scores; [contradiction|reflexivity]. }
  assert (Hget : dict_get_or ev "solution_scores" (VDict []) = VDict scores).
  { unfold dict_get_or. now rewrite Hs. }
  unfold _find_best_solution. cbn [py_get res_bind]. rewrite Hget.
  cbn [truthy]. rewrite Htr. cbn [negb]. rewrite Hloop. cbn [res_bind].
  destruct Hrec as [-> | (rid & -> & Hnot)].
  - reflexivity.
  - cbn [truthy in_dict res_bind]. rewrite Hnot.
    destruct (negb (String.eqb rid "")); reflexivity.
Qed.

(** X12. Without a usable recommendation (none, or one that is not among
    the scored solutions) [_find_best_solution] returns a solution that
    scores highest.  For a non-empty [solution_scores] whose scores are
    numbers, the returned score is at least 0 and at least every overall
    score, and the returned solution is a scored solution that has this
    score, with its own scores as [details]; when no solution scores more
    than 0, the returned [solution_id] is [None] and the score 0.0. *)
Theorem find_best_solution_maximum (h : Heap) (ev scores : Dict) :
  dict_get ev "solution_scores" = Some (VDict scores) ->
  scores <> [] ->
  well_scored scores = true ->
  (dict_get_or ev "recommended_solution" VNone = VNone \/
   exists rid, dict_get_or ev "recommended_solution" VNone = VStr rid /\
               dict_has scores rid = false) ->
  exists id score q,
    _find_best_solution h (VDict ev)
    = Ok (VDict [ ("solution_id", id); ("score", score);
                  ("details", details_of scores id) ], score) /\
    as_num score = Some q /\
    (0 <= q)%Q /\
    Forall (fun kv => exists qk, overall_of (snd kv) = Some qk /\ (qk <= q)%Q) scores /\
    ((id = VNone /\ score = VFloat 0) \/
     exists k d, id = VStr k /\ In (k, VDict d) scores /\
                 dict_get_or d "overall_score" (VInt 0) = score /\ (0 < q)%Q).
Proof. exact (find_best_solution_highest h ev scores). Qed.

Lemma find_best_solution_maximum_witness :
  exists id score q,
    _find_best_solution ∅ (VDict evaluation_unrecommended)
    = Ok (VDict [ ("solution_id", id); ("score", score);
                  ("details",
                   details_of [ ("A", VDict [("overall_score", VInt 92)]);
                                ("B", VDict [("overall_score", VInt 95)]);
                                ("C", VDict [("overall_score", VFloat (95 # 1))]) ] id) ],
          score) /\
    as_num score = Some q /\
    (0 <= q)%Q.
Proof.
  destruct (find_best_solution_maximum ∅ evaluation_unrecommended
              [ ("A", VDict [("overall_score", VInt 92)]);
                ("B", VDict [("overall_score", VInt 95)]);
                ("C", VDict [("overall_score", VFloat (95 # 1))]) ])
    as (id & score & q & Hbest & Hnum & Hpos & _);
    [reflexivity|discriminate|reflexivity|left; reflexivity|].
  exists id, score, q. repeat split; assumption.
Defined.

Lemma bind_raise {A B} (c : M A) (k : A -> M B) (w w' : World) (e : Exn) :
  c w = (Raise e, w') -> bind c k w = (Raise e, w').
Proof. intros H. unfold bind. now rewrite H. Qed.

(** The [except] branch of a stage: the exception is raised again, after
    a FAILED entry with the abilities executed so far was logged and the
    failure noted; no version is added and no ability invoked. *)
Lemma on_failure_raises {A} (rt : Runtime) (session_id : string) (sid : Z) (stage : string)
    (start : Z) (abilities : list string) (c : M A) (w w1 : World) (e : Exn)
    (hist : list Dict) (latest : Dict) (a b : nat) :
  c w = (Raise e, w1) ->
  state_history w1 !! session_id = Some hist ->
  last hist = Some latest ->
  dict_get latest "execution_log" = Some (VRef a) ->
  dict_get latest "errors" = Some (VRef b) ->
  a <> b ->
  exists w2,
    on_failure rt session_id sid stage start abilities c w = (Raise e, w2) /\
    state_history w2 = state_history w1 /\
    mcp_calls w2 = mcp_calls w1 /\
    deref (heap w2) (VRef a)
      = (deref (heap w1) (VRef a)
           ++ [VLog (mkExecutionLog sid stage (clock w1 + 1) FAILED abilities None
                                    (Some (clock w1 - start)) (Some (str_exn rt e)) None)])%list /\
    deref (heap w2) (VRef b)
      = (deref (heap w1) (VRef b)
           ++ (if String.eqb (str_exn rt e) "" then []
               else [VStr (stage +:+ ": " +:+ str_exn rt e)]))%list /\
    forall l, l <> a -> l <> b -> heap w2 !! l = heap w1 !! l.
Proof.
  intros Hc Hh Hl Ha Hb Hab.
  destruct (log_stage_execution_full session_id sid stage FAILED (Some abilities) None
              (Some (clock w1 - start)) (Some (str_exn rt e)) None (tick w1) hist latest a b
              Hh Hl Ha Hb Hab eq_refl)
    as (w2 & Hlog & Hh2 & Hc2 & _ & Hda & Hdb & Hother).
  exists w2. split.
  - unfold on_failure, try_except. rewrite Hc. unfold log_failure.
    unfold bind at 1. unfold bind at 1. cbn [now]. fold (tick w1). rewrite Hlog. reflexivity.
  - split; [exact Hh2|]. split; [exact Hc2|].
    split; [exact Hda|]. split; [|exact Hother].
    rewrite Hdb. cbn [nonempty default from_option id tick heap].
    now destruct (String.eqb (str_exn rt e) "").
Qed.

(** X13. DECIDE without retrieved solutions fails in the way its handler
    describes.  On a session whose latest version has no (or an empty)
    [retrieved_solutions], [DecideStage.execute] raises [Exception("No
    solutions found to evaluate")]; before that it appends a FAILED entry
    for DECIDE, with no ability executed and the message, to the execution
    log and the note [DECIDE: No solutions found to evaluate] to the
    errors; it adds no version and invokes no ability. *)
Theorem decide_without_solutions (rt : Runtime) (atlas common : Backend)
    (session_id : string) (w : World) (hist : list Dict) (st : Dict) (a b : nat) :
  state_history w !! session_id = Some hist ->
  last hist = Some st ->
  dict_get st "execution_log" = Some (VRef a) ->
  dict_get st "errors" = Some (VRef b) ->
  a <> b ->
  truthy (heap w) (dict_get_or st "retrieved_solutions" VNone) = false ->
  exists entry : ExecutionLog,
    let w' := exec (decide_execute rt atlas common session_id) w in
    eval (decide_execute rt atlas common session_id) w
      = Raise (Exception_ "No solutions found to evaluate") /\
    state_history w' = state_history w /\
    mcp_calls w' = mcp_calls w /\
    deref (heap w') (VRef a) = (deref (heap w) (VRef a) ++ [VLog entry])%list /\
    stage_name entry = "DECIDE" /\
    status entry = FAILED /\
    abilities_executed entry = [] /\
    error_message entry = Some "No solutions found to evaluate" /\
    deref (heap w') (VRef b)
      = (deref (heap w) (VRef b) ++ [VStr "DECIDE: No solutions found to evaluate"])%list.
Proof.
  intros Hh Hl Ha Hb Hab Hnone.
  destruct (on_failure_raises rt session_id 7 "DECIDE" (clock w) []
              (current_state <- get_current_state session_id ;;
               h <- get_heap ;;
               if negb (truthy h (dict_get_or current_state "retrieved_solutions" VNone)) then
                 raise (Exception_ "No solutions found to evaluate")
               else ret current_state)%M
              (tick w) (tick w) (Exception_ "No solutions found to evaluate") hist st a b)
    as (w2 & Hrun & Hh2 & Hc2 & Hda & Hdb & _); auto.
  { erewrite bind_ok.
    2:{ apply (get_current_state_eq session_id (tick w) hist st); assumption. }
    unfold bind, get_heap. cbn [heap tick]. rewrite Hnone. reflexivity. }
  eexists. cbv zeta. unfold eval, exec, decide_execute.
  erewrite bind_ok by reflexivity. fold (tick w).
  erewrite bind_raise by exact Hrun. cbn [fst snd].
  split; [reflexivity|]. split; [exact Hh2|]. split; [exact Hc2|].
  split; [exact Hda|]. do 4 (split; [reflexivity|]). exact Hdb.
Qed.

Lemma decide_without_solutions_witness :
  eval (decide_execute sample_runtime sim_atlas sim_common "session-0") created_world
    = Raise (Exception_ "No solutions found to evaluate") /\
  deref (heap (exec (decide_execute sample_runtime sim_atlas sim_common "session-0")
                    created_world)) (VRef 1%nat)
    = [VStr "DECIDE: No solutions found to evaluate"].
Proof.
  destruct (decide_without_solutions sample_runtime sim_atlas sim_common "session-0"
              created_world [created_state] created_state 0%nat 1%nat)
    as (entry & Hev & _ & _ & _ & _ & _ & _ & _ & Hdb);
    try (vm_compute; reflexivity); [discriminate|].
  split; [exact Hev|]. rewrite Hdb. vm_compute. reflexivity.
Defined.

(** A call of a routed ability whose server raises returns a failure
    envelope with the text of the exception. *)
Lemma execute_ability_server_raises (rt : Runtime) (atlas common : Backend)
    (ability_name : string) (server : MCPServerType) (p c : Dict) (s : string)
    (e : Exn) (w : World) :
  mapping_get server_mapping ability_name = Some server ->
  (forall req t, MCPRequest.ability_name req = ability_name ->
                 match server with ATLAS => atlas req t | COMMON => common req t end
                 = Raise e) ->
  exists resp,
    execute_ability rt atlas common ability_name (VDict p) (VDict c) (VStr s) w
      = (Ok resp, after_call ability_name w) /\
    MCPResponse.success resp = false /\
    MCPResponse.error resp = Some (str_exn rt e).
Proof.
  intros Hmap Hraise. unfold execute_ability. rewrite Hmap.
  unfold bind, record_call, get_heap, now, lift. cbn [heap clock].
  rewrite (execute_ability_request _ ability_name (Some p) (Some c) (Some s)).
  set (req := MCPRequest.mk _ _ _ _ _).
  destruct server; unfold _call_atlas_server, _call_common_server, bind, try_except, now, lift;
    cbn [clock];
    match goal with |- context [?backend req ?t] =>
      rewrite (Hraise req t eq_refl) end;
    cbn; eexists; repeat (match goal with |- _ /\ _ => split end); reflexivity.
Qed.

(** X14. DECIDE reports a failure of the evaluation server.  On a state
    ready for DECIDE, when the COMMON server raises on
    [solution_evaluation], [DecideStage.execute] raises [Exception("Failed to evaluate solutions:
    <text of the server's exception>")], after it has invoked that one
    ability; the execution log gets a FAILED entry for DECIDE with no
    ability executed, the errors the note, and no version is added. *)
Theorem decide_reports_server_failure (rt : Runtime) (atlas common : Backend)
    (session_id : string) (w : World) (hist : list Dict) (st : Dict) (a b : nat)
    (own_id : string) (er : Dict) (e : Exn) :
  state_history w !! session_id = Some hist ->
  last hist = Some st ->
  is_agent_state st ->
  dict_get st "session_id" = Some (VStr own_id) ->
  dict_get st "execution_log" = Some (VRef a) ->
  dict_get st "errors" = Some (VRef b) ->
  a <> b ->
  truthy (heap w) (dict_get_or st "retrieved_solutions" VNone) = true ->
  dict_get st "enriched_records" = Some (VDict er) ->
  (forall req t, MCPRequest.ability_name req = "solution_evaluation" ->
                 common req t = Raise e) ->
  exists entry : ExecutionLog,
    let w' := exec (decide_execute rt atlas common session_id) w in
    eval (decide_execute rt atlas common session_id) w
      = Raise (Exception_ ("Failed to evaluate solutions: " +:+ str_exn rt e)) /\
    state_history w' = state_history w /\
    mcp_calls w' = (mcp_calls w ++ ["solution_evaluation"])%list /\
    deref (heap w') (VRef a) = (deref (heap w) (VRef a) ++ [VLog entry])%list /\
    stage_name entry = "DECIDE" /\
    status entry = FAILED /\
    abilities_executed entry = [] /\
    error_message entry = Some ("Failed to evaluate solutions: " +:+ str_exn rt e) /\
    deref (heap w') (VRef b)
      = (deref (heap w) (VRef b)
           ++ [VStr ("DECIDE: Failed to evaluate solutions: " +:+ str_exn rt e)])%list.
Proof.
  intros Hh Hl Hst Hsid Ha Hb Hab Hret Her Hcommon.
  destruct (agent_state_item st "priority" Hst) as [prio Hprio]; [simpl; tauto|].
  assert (Hev : _evaluate_solutions rt atlas common st (tick w)
                = (Raise (Exception_ ("Failed to evaluate solutions: " +:+ str_exn rt e)),
                   after_call "solution_evaluation" (tick w))).
  { unfold _evaluate_solutions. unfold dict_get_or, item. rewrite Her, Hprio, Hsid. simpl.
    unfold bind at 1. simpl. unfold bind at 1. simpl. unfold bind at 1. simpl.
    match goal with
    | |- bind (execute_ability rt atlas common ?n (VDict ?p) (VDict ?c) (VStr ?v)) _ ?w0 = _ =>
      destruct (execute_ability_server_raises rt atlas common n COMMON p c v e w0 eq_refl)
        as (resp & Hcall & Hsucc & Herr)
    end.
    { intros req t Hn. now apply Hcommon. }
    erewrite bind_ok by exact Hcall.
    unfold data_or_raise. rewrite Hsucc, Herr. reflexivity. }
  destruct (on_failure_raises rt session_id 7 "DECIDE" (clock w) []
              (_evaluate_solutions rt atlas common st) (tick w)
              (after_call "solution_evaluation" (tick w))
              (Exception_ ("Failed to evaluate solutions: " +:+ str_exn rt e)) hist st a b)
    as (w2 & Hrun & Hh2 & Hc2 & Hda & Hdb & _); auto.
  eexists. cbv zeta. unfold eval, exec, decide_execute.
  erewrite bind_ok by reflexivity. fold (tick w).
  erewrite bind_ok.
  2:{ apply on_failure_ok. erewrite bind_ok.
      2:{ apply (get_current_state_eq session_id (tick w) hist st); assumption. }
      unfold bind, get_heap. cbn [heap tick]. rewrite Hret. reflexivity. }
  erewrite bind_raise by exact Hrun. cbn [fst snd].
  split; [reflexivity|]. split; [exact Hh2|]. split; [exact Hc2|].
  split; [exact Hda|]. do 4 (split; [reflexivity|]). exact Hdb.
Qed.

Lemma decide_reports_server_failure_witness :
  eval (decide_execute sample_runtime sim_atlas failing_common "session-0") prepared_world
    = Raise (Exception_ "Failed to evaluate solutions: connection refused") /\
  mcp_calls (exec (decide_execute sample_runtime sim_atlas failing_common "session-0")
                  prepared_world)
    = (mcp_calls prepared_world ++ ["solution_evaluation"])%list.
Proof.
  destruct (decide_reports_server_failure sample_runtime sim_atlas failing_common "session-0"
              prepared_world prepared_history prepared_state 0%nat 1%nat "session-0"
              [("customer_tier", VStr "premium")] (Exception_ "connection refused"))
    as (entry & Hev & _ & Hcalls & _);
    try (vm_compute; reflexivity).
  - exact prepared_state_is_agent_state.
  - discriminate.
  - split; [exact Hev|exact Hcalls].
Defined.

(* ===================================================================== *)
(** ** The stages on a session that does not exist *)
(* ===================================================================== *)

(** X16. The three stages fail differently on an unknown session.  For an
    id that is not in the store, [DecideStage.execute] raises the
    session-not-found [ValueError] of the state manager, whereas
    [WaitStage.execute] and [UpdateStage.execute] raise
    [UnboundLocalError] for [abilities_executed]: their [except] branch
    reads that local before it is assigned.  None of the three changes the
    store or invokes an ability. *)
Theorem stages_on_unknown_session (rt : Runtime) (atlas common : Backend)
    (session_id : string) (customer_responses : PyVal) (w : World) :
  state_history w !! session_id = None ->
  eval (decide_execute rt atlas common session_id) w = Raise (session_not_found session_id) /\
  eval (wait_execute rt atlas common session_id customer_responses) w
    = Raise (UnboundLocalError "abilities_executed") /\
  eval (update_execute rt atlas common session_id) w
    = Raise (UnboundLocalError "abilities_executed") /\
  state_history (exec (decide_execute rt atlas common session_id) w) = state_history w /\
  state_history (exec (wait_execute rt atlas common session_id customer_responses) w)
    = state_history w /\
  state_history (exec (update_execute rt atlas common session_id) w) = state_history w /\
  heap (exec (decide_execute rt atlas common session_id) w) = heap w /\
  heap (exec (wait_execute rt atlas common session_id customer_responses) w) = heap w /\
  heap (exec (update_execute rt atlas common session_id) w) = heap w /\
  mcp_calls (exec (decide_execute rt atlas common session_id) w) = mcp_calls w /\
  mcp_calls (exec (wait_execute rt atlas common session_id customer_responses) w)
    = mcp_calls w /\
  mcp_calls (exec (update_execute rt atlas common session_id) w) = mcp_calls w.
Proof.
  intros Hno.
  assert (Hd : exists w', decide_execute rt atlas common session_id w
                          = (Raise (session_not_found session_id), w') /\
                          state_history w' = state_history w /\ heap w' = heap w /\
                          mcp_calls w' = mcp_calls w).
  { unfold decide_execute, on_failure, try_except, log_failure, bind, now, get_current_state,
      log_stage_execution, raise.
    repeat (progress (cbn [state_history fst snd]; rewrite ?Hno)).
    eexists. split; [reflexivity|]. repeat split. }
  assert (Hw : exists w', wait_execute rt atlas common session_id customer_responses w
                          = (Raise (UnboundLocalError "abilities_executed"), w') /\
                          state_history w' = state_history w /\ heap w' = heap w /\
                          mcp_calls w' = mcp_calls w).
  { unfold wait_execute, on_failure_unbound, try_except, bind, now, get_current_state, raise.
    repeat (progress (cbn [state_history fst snd]; rewrite ?Hno)).
    eexists. split; [reflexivity|]. repeat split. }
  assert (Hu : exists w', update_execute rt atlas common session_id w
                          = (Raise (UnboundLocalError "abilities_executed"), w') /\
                          state_history w' = state_history w /\ heap w' = heap w /\
                          mcp_calls w' = mcp_calls w).
  { unfold update_execute, on_failure_unbound, try_except, bind, now, get_current_state, raise.
    repeat (progress (cbn [state_history fst snd]; rewrite ?Hno)).
    eexists. split; [reflexivity|]. repeat split. }
  destruct Hd as (wd & Hd & Hd1 & Hd2 & Hd3).
  destruct Hw as (ww & Hw & Hw1 & Hw2 & Hw3).
  destruct Hu as (wu & Hu & Hu1 & Hu2 & Hu3).
  unfold eval, exec. rewrite Hd, Hw, Hu. cbn [fst snd].
  repeat (match goal with |- _ /\ _ => split end); auto.
Qed.

Lemma stages_on_unknown_session_witness :
  eval (decide_execute sample_runtime sim_atlas sim_common "no-such-session") empty_world
    = Raise (ValueError "Session ID no-such-session not found") /\
  eval (wait_execute sample_runtime sim_atlas sim_common "no-such-session" VNone) empty_world
    = Raise (UnboundLocalError "abilities_executed") /\
  eval (update_execute sample_runtime sim_atlas sim_common "no-such-session") empty_world
    = Raise (UnboundLocalError "abilities_executed").
Proof.
  destruct (stages_on_unknown_session sample_runtime sim_atlas sim_common "no-such-session"
              VNone empty_world eq_refl) as (Hd & Hw & Hu & _).
  repeat (match goal with |- _ /\ _ => split end); assumption.
Defined.

Lemma on_failure_unbound_ok {A} (c : M A) (w w' : World) (a : A) :
  c w = (Ok a, w') -> on_failure_unbound c w = (Ok a, w').
Proof. intros H. unfold on_failure_unbound, try_except. now rewrite H. Qed.

(* ===================================================================== *)
(** ** Further properties of the WAIT stage *)
(* ===================================================================== *)

(** X17. WAIT is skipped when no clarification was asked for.  On a
    session whose latest version has a falsy [clarification_needed],
    [WaitStage.execute] returns that version unchanged, whatever answers
    it is given: they are dropped.  It adds no version and invokes no
    ability; the execution log gets a SKIPPED entry for WAIT with the
    reason, and the errors are left as they were. *)
Theorem wait_skips_without_clarification (rt : Runtime) (atlas common : Backend)
    (session_id : string) (customer_responses : PyVal) (w : World)
    (hist : list Dict) (st : Dict) (a b : nat) :
  state_history w !! session_id = Some hist ->
  last hist = Some st ->
  dict_get st "execution_log" = Some (VRef a) ->
  dict_get st "errors" = Some (VRef b) ->
  a <> b ->
  truthy (heap w) (dict_get_or st "clarification_needed" (VBool false)) = false ->
  exists entry : ExecutionLog,
    let w' := exec (wait_execute rt atlas common session_id customer_responses) w in
    eval (wait_execute rt atlas common session_id customer_responses) w = Ok st /\
    state_history w' = state_history w /\
    mcp_calls w' = mcp_calls w /\
    deref (heap w') (VRef a) = (deref (heap w) (VRef a) ++ [VLog entry])%list /\
    stage_name entry = "WAIT" /\
    status entry = SKIPPED /\
    abilities_executed entry = [] /\
    output entry = Some (VDict [("reason", VStr "No clarification needed")]) /\
    deref (heap w') (VRef b) = deref (heap w) (VRef b).
Proof.
  intros Hh Hl Ha Hb Hab Hclar.
  destruct (log_stage_execution_full session_id 5 "WAIT" SKIPPED (Some []) None
              (Some (clock (tick w) - clock w)) None
              (Some (VDict [("reason", VStr "No clarification needed")]))
              (tick (tick w)) hist st a b Hh Hl Ha Hb Hab eq_refl)
    as (w2 & Hlog & Hh2 & Hc2 & _ & Hda & Hdb & _).
  assert (Hrun : wait_execute rt atlas common session_id customer_responses w = (Ok st, w2)).
  { unfold wait_execute. erewrite bind_ok by reflexivity. fold (tick w).
    erewrite bind_ok.
    2:{ apply on_failure_unbound_ok. erewrite bind_ok.
        2:{ apply (get_current_state_eq session_id (tick w) hist st); assumption. }
        unfold bind at 1, get_heap. cbn [heap tick]. rewrite Hclar. cbn [negb].
        erewrite bind_ok by reflexivity. fold (tick (tick w)).
        unfold bind. rewrite Hlog. reflexivity. }
    reflexivity. }
  eexists. cbv zeta. unfold eval, exec. rewrite Hrun. cbn [fst snd].
  split; [reflexivity|]. split; [exact Hh2|]. split; [exact Hc2|].
  split; [exact Hda|]. do 4 (split; [reflexivity|]).
  rewrite Hdb. cbn [nonempty]. now rewrite app_nil_r.
Qed.

Lemma wait_skips_without_clarification_witness :
  eval (wait_execute sample_runtime sim_atlas sim_common "session-0"
          (VDict [("account_id", VStr "ACC-12345")])) created_world
    = Ok created_state /\
  mcp_calls (exec (wait_execute sample_runtime sim_atlas sim_common "session-0"
                     (VDict [("account_id", VStr "ACC-12345")])) created_world)
    = [].
Proof.
  destruct (wait_skips_without_clarification sample_runtime sim_atlas sim_common "session-0"
              (VDict [("account_id", VStr "ACC-12345")]) created_world
              [created_state] created_state 0%nat 1%nat)
    as (entry & Hev & _ & Hcalls & _);
    try (vm_compute; reflexivity); [discriminate|].
  split; [exact Hev|exact Hcalls].
Defined.

Lemma updated_value_other (st updates : Dict) (k : string) :
  dict_has updates k = false -> updated_value st updates k = dict_get st k.
Proof.
  intros Hr. unfold updated_value.
  assert (Hrev : dict_get (rev updates) k = None).
  { unfold dict_has in Hr. induction updates as [|[k0 v0] r IH]; [reflexivity|].
    simpl in *. rewrite dict_get_app_last.
    destruct (String.eqb k k0); [discriminate|]. now rewrite IH. }
  rewrite Hrev. unfold dict_has. now destruct (dict_get st k).
Qed.

(** X18. WAIT without an answer leaves the session waiting.  On a session
    whose latest version asks for a clarification, [WaitStage.execute]
    called without answers (or with an empty dict) returns a new version
    in which [customer_responses] is [None] and every other field of the
    latest version is kept, [clarification_needed] included, so that the
    stage can be run again; it invokes no ability and logs an IN_PROGRESS
    entry.  The two fields it means to set besides, [waiting_for_response]
    and [questions_sent_at], are not keys of the state: each run adds a
    note for each of them to the errors. *)
Theorem wait_keeps_waiting (rt : Runtime) (atlas common : Backend)
    (session_id : string) (customer_responses : PyVal) (w : World)
    (hist : list Dict) (st : Dict) (a b : nat) :
  state_history w !! session_id = Some hist ->
  last hist = Some st ->
  dict_get st "execution_log" = Some (VRef a) ->
  dict_get st "errors" = Some (VRef b) ->
  a <> b ->
  dict_has st "customer_responses" = true ->
  dict_has st "waiting_for_response" = false ->
  dict_has st "questions_sent_at" = false ->
  truthy (heap w) (dict_get_or st "clarification_needed" (VBool false)) = true ->
  truthy (heap w) customer_responses = false ->
  exists (st' : Dict) (entry : ExecutionLog),
    let w' := exec (wait_execute rt atlas common session_id customer_responses) w in
    eval (wait_execute rt atlas common session_id customer_responses) w = Ok st' /\
    get_state_history session_id w' = (Ok (hist ++ [st'])%list, w') /\
    mcp_calls w' = mcp_calls w /\
    dict_get st' "customer_responses" = Some VNone /\
    dict_get st' "current_stage" = Some (VStr "WAIT") /\
    (forall k, k <> "customer_responses" -> k <> "current_stage" -> k <> "updated_at" ->
               dict_get st' k = dict_get st k) /\
    deref (heap w') (VRef a) = (deref (heap w) (VRef a) ++ [VLog entry])%list /\
    stage_name entry = "WAIT" /\
    status entry = IN_PROGRESS /\
    abilities_executed entry = [] /\
    deref (heap w') (VRef b)
      = (deref (heap w) (VRef b)
           ++ [ VStr "Unknown state key: waiting_for_response from stage WAIT";
                VStr "Unknown state key: questions_sent_at from stage WAIT" ])%list.
Proof.
  intros Hh Hl Ha Hb Hab Hcr Hwf Hqs Hclar Hresp.
  set (results := [ ("customer_responses", VNone);
                    ("waiting_for_response", VBool true);
                    ("questions_sent_at", VStr (isoformat rt (clock (tick w)))) ]).
  destruct (update_state_full session_id results "WAIT" (tick (tick w)) hist st b
              Hh Hl Hb eq_refl)
    as (st' & w3 & Hup & Hh3 & Hc3 & _ & Hcs & _ & Hget & Hdb3 & Hother3).
  assert (Hh3' : state_history (tick w3) !! session_id = Some (hist ++ [st'])%list).
  { cbn [tick state_history]. rewrite Hh3. apply lookup_insert_eq. }
  assert (Ha' : dict_get st' "execution_log" = Some (VRef a)).
  { rewrite Hget by discriminate. now rewrite updated_value_other. }
  assert (Hb' : dict_get st' "errors" = Some (VRef b)).
  { rewrite Hget by discriminate. now rewrite updated_value_other. }
  destruct (log_stage_execution_full session_id 5 "WAIT" IN_PROGRESS (Some []) None
              (Some (clock w3 - clock w)) None
              (Some (VDict [("status", VStr "waiting_for_customer_response")]))
              (tick w3) (hist ++ [st'])%list st' a b Hh3' (last_snoc _ _) Ha' Hb' Hab eq_refl)
    as (w4 & Hlog & Hh4 & Hc4 & _ & Hda & Hdb & _).
  assert (Hrun : wait_execute rt atlas common session_id customer_responses w = (Ok st', w4)).
  { unfold wait_execute. erewrite bind_ok by reflexivity. fold (tick w).
    erewrite bind_ok.
    2:{ apply on_failure_unbound_ok. erewrite bind_ok.
        2:{ apply (get_current_state_eq session_id (tick w) hist st); assumption. }
        unfold bind at 1, get_heap. cbn [heap tick]. rewrite Hclar, Hresp. cbn [negb].
        erewrite bind_ok by reflexivity. fold (tick (tick w)). fold results.
        erewrite bind_ok by exact Hup.
        erewrite bind_ok by reflexivity. fold (tick w3).
        unfold bind. rewrite Hlog. reflexivity. }
    reflexivity. }
  exists st'. eexists. cbv zeta. unfold eval, exec. rewrite Hrun. cbn [fst snd].
  split; [reflexivity|].
  split. { unfold get_state_history. rewrite Hh4, Hh3'. reflexivity. }
  split. { rewrite Hc4. cbn [tick mcp_calls]. rewrite Hc3. reflexivity. }
  split. { rewrite Hget by discriminate. unfold updated_value. rewrite Hcr. reflexivity. }
  split; [exact Hcs|].
  split.
  { intros k H1 H2 H3. rewrite (Hget k H2 H3). unfold updated_value.
    destruct (dict_has st k) eqn:Hk.
    - subst results. cbn [rev app dict_get].
      destruct (String.eqb k "questions_sent_at") eqn:E1.
      { apply String.eqb_eq in E1. congruence. }
      destruct (String.eqb k "waiting_for_response") eqn:E2.
      { apply String.eqb_eq in E2. congruence. }
      destruct (String.eqb k "customer_responses") eqn:E3.
      { apply String.eqb_eq in E3. congruence. }
      reflexivity.
    - unfold dict_has in Hk. now destruct (dict_get st k). }
  split. { rewrite Hda. cbn [tick heap deref]. now rewrite (Hother3 a Hab). }
  do 3 (split; [reflexivity|]).
  rewrite Hdb. cbn [nonempty tick heap]. rewrite app_nil_r.
  change (deref (heap w3) (VRef b)
          = (deref (heap w) (VRef b)
               ++ [ VStr (unknown_key_msg "waiting_for_response" "WAIT");
                    VStr (unknown_key_msg "questions_sent_at" "WAIT") ])%list).
  rewrite Hdb3. cbn [tick heap]. f_equal. subst results.
  rewrite !unknown_notes_cons. rewrite Hcr, Hwf, Hqs. reflexivity.
Qed.

Lemma wait_keeps_waiting_witness :
  exists st',
    eval (wait_execute sample_runtime sim_atlas sim_common "session-0" VNone) asked_world
      = Ok st' /\
    dict_get st' "customer_responses" = Some VNone /\
    dict_get st' "clarification_needed" = Some (VBool true) /\
    dict_get st' "waiting_for_response" = None /\
    deref (heap (exec (wait_execute sample_runtime sim_atlas sim_common "session-0" VNone)
                      asked_world)) (VRef 1%nat)
      = [ VStr "Unknown state key: waiting_for_response from stage WAIT";
          VStr "Unknown state key: questions_sent_at from stage WAIT" ].
Proof.
  destruct (wait_keeps_waiting sample_runtime sim_atlas sim_common "session-0" VNone
              asked_world asked_history asked_state 0%nat 1%nat)
    as (st' & entry & Hev & _ & _ & Hcr & _ & Hkeep & _ & _ & _ & _ & Hdb);
    try (vm_compute; reflexivity); [discriminate|].
  exists st'. split; [exact Hev|]. split; [exact Hcr|].
  split. { rewrite Hkeep by discriminate. vm_compute. reflexivity. }
  split. { rewrite Hkeep by discriminate. vm_compute. reflexivity. }
  rewrite Hdb. vm_compute. reflexivity.
Defined.

(* ===================================================================== *)
(** ** Further properties of the UPDATE stage *)
(* ===================================================================== *)

(** X19. UPDATE without a decision does not fail with its own message.  On
    a session whose latest version has neither an escalation decision nor a
    selected solution, [UpdateStage.execute] means to raise
    [Exception("Missing decision information from DECIDE stage")], but its
    [except] branch reads [abilities_executed] before that local is
    assigned: the caller gets an [UnboundLocalError], and nothing is
    logged: the store, the lists and the trace of abilities are as
    before. *)
Theorem update_without_decision (rt : Runtime) (atlas common : Backend)
    (session_id : string) (w : World) (hist : list Dict) (st : Dict) :
  state_history w !! session_id = Some hist ->
  last hist = Some st ->
  truthy (heap w) (dict_get_or st "escalation_decision" VNone) = false ->
  truthy (heap w) (dict_get_or st "selected_solution" VNone) = false ->
  eval (update_execute rt atlas common session_id) w
    = Raise (UnboundLocalError "abilities_executed") /\
  state_history (exec (update_execute rt atlas common session_id) w) = state_history w /\
  heap (exec (update_execute rt atlas common session_id) w) = heap w /\
  mcp_calls (exec (update_execute rt atlas common session_id) w) = mcp_calls w.
Proof.
  intros Hh Hl Hesc Hsel.
  assert (Hrun : exists w', update_execute rt atlas common session_id w
                            = (Raise (UnboundLocalError "abilities_executed"), w') /\
                            state_history w' = state_history w /\ heap w' = heap w /\
                            mcp_calls w' = mcp_calls w).
  { unfold update_execute. erewrite bind_ok by reflexivity. fold (tick w).
    eexists. split.
    - apply bind_raise. unfold on_failure_unbound, try_except.
      erewrite bind_ok.
      2:{ apply (get_current_state_eq session_id (tick w) hist st); assumption. }
      unfold bind at 1, get_heap. cbn [heap tick]. rewrite Hesc, Hsel. cbn [negb andb].
      unfold raise at 1. unfold bind, now, raise. reflexivity.
    - repeat split. }
  destruct Hrun as (w' & Hrun & H1 & H2 & H3).
  unfold eval, exec. rewrite Hrun. cbn [fst snd]. auto.
Qed.

Lemma update_without_decision_witness :
  eval (update_execute sample_runtime sim_atlas sim_common "session-0") created_world
    = Raise (UnboundLocalError "abilities_executed") /\
  heap (exec (update_execute sample_runtime sim_atlas sim_common "session-0") created_world)
    = heap created_world.
Proof.
  destruct (update_without_decision sample_runtime sim_atlas sim_common "session-0"
              created_world [created_state] created_state)
    as (Hev & _ & Hheap & _); try (vm_compute; reflexivity).
  split; [exact Hev|exact Hheap].
Defined.

Lemma update_ticket_ok (rt : Runtime) (atlas common : Backend) (st : Dict) (w : World)
    (own_id : string) (params upd : Dict) :
  is_agent_state st ->
  dict_get st "session_id" = Some (VStr own_id) ->
  _prepare_update_parameters (heap w) st = Ok (VDict params) ->
  (forall req t, MCPRequest.ability_name req = "update_ticket" ->
                 MCPRequest.parameters req = params ->
                 atlas req t = Ok (VDict upd)) ->
  _update_ticket rt atlas common st w = (Ok (VDict upd), after_call "update_ticket" w).
Proof.
  intros Hst Hsid Hprep Hatlas.
  destruct (agent_state_item st "ticket_id" Hst) as [tid Htid]; [simpl; tauto|].
  destruct (agent_state_item st "customer_name" Hst) as [cn Hcn]; [simpl; tauto|].
  unfold _update_ticket, item. rewrite Htid, Hcn, Hsid.
  unfold bind at 1. cbn [lift]. unfold bind at 1. cbn [lift].
  unfold bind at 1. cbn [get_heap]. unfold bind at 1. rewrite Hprep. cbn [lift].
  unfold bind at 1. cbn [lift].
  match goal with
  | |- bind (execute_ability rt atlas common ?n (VDict ?p) (VDict ?c) ?v) _ ?w0 = _ =>
    destruct (execute_ability_answers rt atlas common n ATLAS p c v w0 eq_refl
                (ex_intro _ _ eq_refl))
      as (resp & req & t & d & Hcall & Hsucc & Hdata & Hn & Hp & _ & Hd)
  end.
  { intros req t Hn Hp _. exists upd. now apply Hatlas. }
  rewrite (Hatlas req t Hn Hp) in Hd. injection Hd as <-.
  erewrite bind_ok by exact Hcall.
  unfold data_or_raise. rewrite Hsucc, Hdata. reflexivity.
Qed.

Lemma close_ticket_ok (rt : Runtime) (atlas common : Backend) (st : Dict) (w : World)
    (own_id summary code : string) :
  is_agent_state st ->
  dict_get st "session_id" = Some (VStr own_id) ->
  _generate_resolution_summary rt (heap w) st = Ok summary ->
  _determine_resolution_code rt st = Ok code ->
  (forall req t, MCPRequest.ability_name req = "close_ticket" ->
                 dict_get (MCPRequest.parameters req) "resolution_code" = Some (VStr code) ->
                 dict_get (MCPRequest.context req) "resolution_summary" = Some (VStr summary) ->
                 exists d, atlas req t = Ok (VDict d)) ->
  exists d,
    _close_ticket rt atlas common st w = (Ok (VDict d), after_call "close_ticket" w).
Proof.
  intros Hst Hsid Hsum Hcode Hatlas.
  destruct (agent_state_item st "ticket_id" Hst) as [tid Htid]; [simpl; tauto|].
  destruct (agent_state_item st "customer_name" Hst) as [cn Hcn]; [simpl; tauto|].
  unfold _close_ticket, item. rewrite Htid, Hcn, Hsid.
  unfold bind at 1. cbn [lift]. unfold bind at 1. cbn [lift].
  unfold bind at 1. cbn [get_heap]. unfold bind at 1. rewrite Hsum. cbn [lift].
  unfold bind at 1. rewrite Hcode. cbn [lift].
  unfold bind at 1. cbn [lift].
  match goal with
  | |- context [bind (execute_ability rt atlas common ?n (VDict ?p) (VDict ?c) ?v) _ ?w0] =>
    destruct (execute_ability_answers rt atlas common n ATLAS p c v w0 eq_refl
                (ex_intro _ _ eq_refl))
      as (resp & req & t & d & Hcall & Hsucc & Hdata & _)
  end.
  { intros req t Hn Hp Hc. apply Hatlas; [exact Hn| |].
    - rewrite Hp. reflexivity.
    - rewrite Hc. reflexivity. }
  exists d. erewrite bind_ok by exact Hcall.
  unfold data_or_raise. rewrite Hsucc, Hdata. reflexivity.
Qed.

(** [UpdateStage.execute] on a state that has a decision, with a server
    that answers: the ticket is updated, closed if [_should_close_ticket]
    says so, and the results are written and logged. *)
Lemma update_execute_spec (rt : Runtime) (atlas common : Backend) (session_id : string)
    (w : World) (hist : list Dict) (st : Dict) (a b : nat) (own_id : string)
    (params upd : Dict) (close : bool) :
  state_history w !! session_id = Some hist ->
  last hist = Some st ->
  is_agent_state st ->
  dict_get st "session_id" = Some (VStr own_id) ->
  dict_get st "execution_log" = Some (VRef a) ->
  dict_get st "errors" = Some (VRef b) ->
  negb (truthy (heap w) (dict_get_or st "escalation_decision" VNone))
    && negb (truthy (heap w) (dict_get_or st "selected_solution" VNone)) = false ->
  _prepare_update_parameters (heap w) st = Ok (VDict params) ->
  (forall req t, MCPRequest.ability_name req = "update_ticket" ->
                 MCPRequest.parameters req = params ->
                 atlas req t = Ok (VDict upd)) ->
  _should_close_ticket (heap w) st = Ok close ->
  (close = true ->
   exists summary code,
     _generate_resolution_summary rt (heap w) st = Ok summary /\
     _determine_resolution_code rt st = Ok code /\
     forall req t,
       MCPRequest.ability_name req = "close_ticket" ->
       dict_get (MCPRequest.parameters req) "resolution_code" = Some (VStr code) ->
       dict_get (MCPRequest.context req) "resolution_summary" = Some (VStr summary) ->
       exists d, atlas req t = Ok (VDict d)) ->
  exists st' w',
    update_execute rt atlas common session_id w = (Ok st', w') /\
    get_current_state session_id w' = (Ok st', w') /\
    mcp_calls w'
      = (mcp_calls w ++ (if close then ["update_ticket"; "close_ticket"]
                         else ["update_ticket"]))%list /\
    dict_get st' "ticket_updates" = Some (VDict upd) /\
    dict_get st' "ticket_status"
      = Some (if close then VStr "closed"
              else dict_get_or upd "new_status" (VStr "in_progress")).
Proof.
  intros Hh Hl Hst Hsid Ha Hb Hdec Hprep Hatlas Hclose Hcl.
  unfold update_execute.
  erewrite bind_ok by reflexivity. fold (tick w).
  erewrite bind_ok.
  2:{ apply on_failure_unbound_ok. erewrite bind_ok.
      2:{ apply (get_current_state_eq session_id (tick w) hist st); assumption. }
      unfold bind, get_heap. cbn [heap tick]. rewrite Hdec. reflexivity. }
  erewrite bind_ok.
  2:{ apply on_failure_ok.
      apply (update_ticket_ok rt atlas common st (tick w) own_id params upd); assumption. }
  destruct close.
  - destruct (Hcl eq_refl) as (summary & code & Hsum & Hcode & Hans).
    destruct (close_ticket_ok rt atlas common st (after_call "update_ticket" (tick w))
                own_id summary code Hst Hsid Hsum Hcode Hans) as (d & Hcall).
    erewrite bind_ok.
    2:{ apply on_failure_ok. unfold bind at 1, get_heap. cbv beta iota.
        unfold bind at 1, lift. cbn [heap after_call tick]. rewrite Hclose. cbv beta iota.
        erewrite bind_ok by exact Hcall. reflexivity. }
    cbv beta iota.
    match goal with
    | |- exists st' w', on_failure rt _ _ _ ?start ?abl _ ?w0 = _ /\ _ =>
      destruct (update_then_log rt session_id 8 "UPDATE" start abl
                  [("ticket_updates", VDict upd); ("ticket_status", VStr "closed")]
                  COMPLETED (Some abl) (Some "ATLAS")
                  (Some (VDict [("ticket_updates", VDict upd);
                                ("ticket_status", VStr "closed")])) w0 hist st a b)
        as (st' & w' & Hrun & Hcur & Hcalls & Hget); auto
    end.
    exists st', w'. split; [exact Hrun|]. split; [exact Hcur|].
    split. { rewrite Hcalls. cbn [after_call tick mcp_calls]. now rewrite <- app_assoc. }
    split; rewrite Hget by discriminate; unfold updated_value;
      (rewrite Hst by (simpl; tauto)); reflexivity.
  - erewrite bind_ok.
    2:{ apply on_failure_ok. unfold bind at 1, get_heap. cbv beta iota.
        unfold bind at 1, lift. cbn [heap after_call tick]. rewrite Hclose. reflexivity. }
    cbv beta iota.
    match goal with
    | |- exists st' w', on_failure rt _ _ _ ?start ?abl _ ?w0 = _ /\ _ =>
      destruct (update_then_log rt session_id 8 "UPDATE" start abl
                  [("ticket_updates", VDict upd);
                   ("ticket_status", dict_get_or upd "new_status" (VStr "in_progress"))]
                  COMPLETED (Some abl) (Some "ATLAS")
                  (Some (VDict [("ticket_updates", VDict upd);
                                ("ticket_status",
                                 dict_get_or upd "new_status" (VStr "in_progress"))]))
                  w0 hist st a b)
        as (st' & w' & Hrun & Hcur & Hcalls & Hget); auto
    end.
    exists st', w'. split; [exact Hrun|]. split; [exact Hcur|].
    split. { rewrite Hcalls. reflexivity. }
    split; rewrite Hget by discriminate; unfold updated_value;
      (rewrite Hst by (simpl; tauto)); reflexivity.
Qed.

(** [_prepare_update_parameters] returns where the selection is [None] or
    a dict and the flags are a dict whose SLA targets, if any, hold a
    resolution target. *)
Lemma prepare_update_parameters_ok (h : Heap) (st : Dict) (selected flags : PyVal) :
  dict_get st "selected_solution" = Some selected ->
  selection_ready selected = true ->
  dict_get st "calculated_flags" = Some flags ->
  sla_ready flags = true ->
  exists params, _prepare_update_parameters h st = Ok (VDict params).
Proof.
  intros Hsel Hready Hcf Hsla. unfold _prepare_update_parameters, dict_get_or.
  rewrite Hsel, Hcf.
  assert (Hsol : exists sol,
            (if truthy h selected
             then (title <-? py_get selected "title" VNone ;;
                   time <-? py_get selected "estimated_resolution_time" VNone ;;
                   Ok ([ ("resolution_approach", title);
                         ("estimated_resolution_time", time) ],
                       ["resolution_approach"; "estimated_resolution_time"]))%res
             else Ok ([], [])) = Ok sol).
  { destruct selected; try discriminate.
    - cbn [truthy]. eauto.
    - destruct (truthy h (VDict d)); cbn [py_get res_bind]; eauto. }
  destruct Hsol as (sol & ->). cbn [res_bind].
  destruct flags as [| | | | | | |flags| |]; try discriminate.
  cbn [sla_ready] in Hsla. cbn [str_in res_bind]. unfold dict_has.
  destruct (dict_get flags "sla_targets") as [targets|] eqn:Ht.
  - destruct targets as [| | | | | | |targets| |]; try discriminate.
    unfold dict_has in Hsla. cbn [py_item res_bind]. rewrite Ht. cbn [res_bind py_item].
    destruct (dict_get targets "resolution"); [|discriminate].
    cbn [res_bind]. eauto.
  - cbn [res_bind]. eauto.
Qed.

(** The resolution summary and code of a selection that can be put into
    words. *)
Lemma resolution_texts_ok (rt : Runtime) (h : Heap) (st solution : Dict) :
  dict_get st "selected_solution" = Some (VDict solution) ->
  summarisable h solution = true ->
  exists summary code,
    _generate_resolution_summary rt h st = Ok summary /\
    _determine_resolution_code rt st = Ok code.
Proof.
  intros Hsel Hsum. unfold summarisable in Hsum. apply andb_true_iff in Hsum as [Ht Hs].
  unfold _generate_resolution_summary, _determine_resolution_code, dict_get_or.
  rewrite Hsel. cbn [py_get res_bind str_in]. unfold dict_get_or, dict_has.
  destruct (dict_get solution "steps") as [steps|] eqn:Hsteps.
  - cbn [py_item res_bind]. rewrite Hsteps. cbn [res_bind].
    destruct (py_len h steps) as [n|]; [|discriminate]. cbn [res_bind].
    destruct (dict_get solution "title") as [title|].
    + destruct title; try discriminate. eauto.
    + eauto.
  - cbn [res_bind].
    destruct (dict_get solution "title") as [title|].
    + destruct title; try discriminate. eauto.
    + eauto.
Qed.

(** X20. The close rule of UPDATE on the state it is written for.  Let the
    latest version be not escalated, let its [selected_solution] carry a
    non-empty ["id"], let [solution_scores] map that id to scores with
    an integer [overall_score], and let [calculated_flags] be a dict whose
    [sla_targets], if it has any, is a dict with a [resolution] (with
    [calculated_flags = None], as [create_initial_state] sets it, the stage
    raises instead).  With an ATLAS server that answers,
    [UpdateStage.execute] returns; from 85 on, where the selection's title,
    if any, is a string and its steps, if any, have a length, it invokes
    [update_ticket] and then [close_ticket] and writes
    [ticket_status = "closed"]; below 85 it invokes [update_ticket] only
    and writes the status that the server reported ([new_status], or
    ["in_progress"] when the answer has none). *)
Theorem update_closes_from_85 (rt : Runtime) (atlas common : Backend) (session_id : string)
    (w : World) (hist : list Dict) (st : Dict) (a b : nat) (own_id : string)
    (esc flags : PyVal) (solution scores recorded upd : Dict) (id : string) (score : Z) :
  state_history w !! session_id = Some hist ->
  last hist = Some st ->
  is_agent_state st ->
  dict_get st "session_id" = Some (VStr own_id) ->
  dict_get st "execution_log" = Some (VRef a) ->
  dict_get st "errors" = Some (VRef b) ->
  dict_get st "escalation_decision" = Some esc ->
  truthy (heap w) esc = false ->
  dict_get st "selected_solution" = Some (VDict solution) ->
  dict_get solution "id" = Some (VStr id) ->
  id <> "" ->
  dict_get st "solution_scores" = Some (VDict scores) ->
  dict_get scores id = Some (VDict recorded) ->
  dict_get recorded "overall_score" = Some (VInt score) ->
  dict_get st "calculated_flags" = Some flags ->
  sla_ready flags = true ->
  (forall req t, MCPRequest.ability_name req = "update_ticket" ->
                 atlas req t = Ok (VDict upd)) ->
  (85 <= score ->
   summarisable (heap w) solution = true /\
   forall req t, MCPRequest.ability_name req = "close_ticket" ->
                 exists d, atlas req t = Ok (VDict d)) ->
  exists st',
    eval (update_execute rt atlas common session_id) w = Ok st' /\
    dict_get st' "ticket_updates" = Some (VDict upd) /\
    (85 <= score ->
     mcp_calls (exec (update_execute rt atlas common session_id) w)
       = (mcp_calls w ++ ["update_ticket"; "close_ticket"])%list /\
     dict_get st' "ticket_status" = Some (VStr "closed")) /\
    (score < 85 ->
     mcp_calls (exec (update_execute rt atlas common session_id) w)
       = (mcp_calls w ++ ["update_ticket"])%list /\
     dict_get st' "ticket_status"
       = Some (dict_get_or upd "new_status" (VStr "in_progress"))).
Proof.
  intros Hh Hl Hst Hsid Ha Hb Hesc Hfalse Hsel Hid Hne Hsc Hrec Hscore Hcf Hsla Hatlas Hcl.
  destruct (prepare_update_parameters_ok (heap w) st (VDict solution) flags Hsel eq_refl
              Hcf Hsla) as (params & Hprep).
  assert (Hclose : _should_close_ticket (heap w) st = Ok (85 <=? score)%Z).
  { apply (should_close_ticket_threshold (heap w) st solution scores recorded id score);
      try assumption.
    unfold dict_get_or. now rewrite Hesc. }
  assert (Hdec : negb (truthy (heap w) (dict_get_or st "escalation_decision" VNone))
                 && negb (truthy (heap w) (dict_get_or st "selected_solution" VNone))
                 = false).
  { unfold dict_get_or. rewrite Hsel. cbn [truthy].
    destruct solution; [discriminate|]. now rewrite andb_false_r. }
  destruct (update_execute_spec rt atlas common session_id w hist st a b own_id params upd
              (85 <=? score)%Z Hh Hl Hst Hsid Ha Hb Hdec Hprep)
    as (st' & w' & Hrun & _ & Hcalls & Hupd & Hstatus).
  { intros req t Hn _. now apply Hatlas. }
  { exact Hclose. }
  { intros Hge. apply Z.leb_le in Hge. destruct (Hcl Hge) as [Hsum Hans].
    destruct (resolution_texts_ok rt (heap w) st solution Hsel Hsum)
      as (summary & code & H1 & H2).
    exists summary, code. split; [exact H1|]. split; [exact H2|].
    intros req t Hn _ _. now apply Hans. }
  exists st'. unfold eval, exec. rewrite Hrun. cbn [fst snd].
  split; [reflexivity|]. split; [exact Hupd|].
  split.
  - intros Hge. apply Z.leb_le in Hge. rewrite Hge in Hcalls, Hstatus. auto.
  - intros Hlt. apply Z.leb_gt in Hlt. rewrite Hlt in Hcalls, Hstatus. auto.
Qed.

(** X21. An escalated ticket is updated, never closed.  On a latest
    version whose [escalation_decision] is truthy, whose
    [selected_solution] is [None] or a dict and whose [calculated_flags]
    is a dict ([sla_targets] in it, if any, a dict with a [resolution]),
    with an ATLAS server that answers, [UpdateStage.execute] asks
    [update_ticket] for the status ["escalated"], the agent
    ["human_agent"] and the priority ["high"], does not invoke
    [close_ticket], and writes as [ticket_status] what the server reported
    as [new_status] (["in_progress"] when it reported none), which need not
    be ["escalated"]. *)
Theorem update_escalated_ticket (rt : Runtime) (atlas common : Backend)
    (session_id : string) (w : World) (hist : list Dict) (st : Dict) (a b : nat)
    (own_id : string) (esc selected flags : PyVal) (upd : Dict) :
  state_history w !! session_id = Some hist ->
  last hist = Some st ->
  is_agent_state st ->
  dict_get st "session_id" = Some (VStr own_id) ->
  dict_get st "execution_log" = Some (VRef a) ->
  dict_get st "errors" = Some (VRef b) ->
  dict_get st "escalation_decision" = Some esc ->
  truthy (heap w) esc = true ->
  dict_get st "selected_solution" = Some selected ->
  selection_ready selected = true ->
  dict_get st "calculated_flags" = Some flags ->
  sla_ready flags = true ->
  (forall req t, MCPRequest.ability_name req = "update_ticket" ->
                 dict_get (MCPRequest.parameters req) "new_status" = Some (VStr "escalated") ->
                 dict_get (MCPRequest.parameters req) "assigned_agent"
                   = Some (VStr "human_agent") ->
                 dict_get (MCPRequest.parameters req) "priority" = Some (VStr "high") ->
                 atlas req t = Ok (VDict upd)) ->
  exists st',
    eval (update_execute rt atlas common session_id) w = Ok st' /\
    mcp_calls (exec (update_execute rt atlas common session_id) w)
      = (mcp_calls w ++ ["update_ticket"])%list /\
    dict_get st' "ticket_updates" = Some (VDict upd) /\
    dict_get st' "ticket_status" = Some (dict_get_or upd "new_status" (VStr "in_progress")).
Proof.
  intros Hh Hl Hst Hsid Ha Hb Hesc Htrue Hsel Hready Hcf Hsla Hatlas.
  destruct (prepare_update_parameters_ok (heap w) st selected flags Hsel Hready Hcf Hsla)
    as (params & Hprep).
  assert (Hclose : _should_close_ticket (heap w) st = Ok false).
  { unfold _should_close_ticket, dict_get_or. now rewrite Hesc, Htrue. }
  assert (Hdec : negb (truthy (heap w) (dict_get_or st "escalation_decision" VNone))
                 && negb (truthy (heap w) (dict_get_or st "selected_solution" VNone))
                 = false).
  { unfold dict_get_or. now rewrite Hesc, Htrue. }
  assert (Hparams : dict_get params "new_status" = Some (VStr "escalated") /\
                    dict_get params "assigned_agent" = Some (VStr "human_agent") /\
                    dict_get params "priority" = Some (VStr "high")).
  { revert Hprep. unfold _prepare_update_parameters.
    replace (dict_get_or st "escalation_decision" (VBool false)) with esc
      by (unfold dict_get_or; now rewrite Hesc).
    rewrite Htrue.
    destruct (if truthy (heap w) (dict_get_or st "selected_solution" VNone)
              then _ else _) as [[sol1 sol2]|]; [|discriminate].
    cbn [res_bind].
    destruct (str_in (heap w) "sla_targets" (dict_get_or st "calculated_flags" (VDict [])))
      as [has|]; [|discriminate].
    cbn [res_bind].
    destruct (if has then _ else _) as [[sla1 sla2]|]; [|discriminate].
    cbn [res_bind fst snd]. intros [= <-]. repeat split; reflexivity. }
  destruct Hparams as (Hp1 & Hp2 & Hp3).
  destruct (update_execute_spec rt atlas common session_id w hist st a b own_id params upd
              false Hh Hl Hst Hsid Ha Hb Hdec Hprep)
    as (st' & w' & Hrun & _ & Hcalls & Hupd & Hstatus); auto.
  { intros req t Hn Hp. apply Hatlas; [exact Hn| | |]; now rewrite Hp. }
  { discriminate. }
  exists st'. unfold eval, exec. rewrite Hrun. cbn [fst snd]. auto.
Qed.

(** X22. UPDATE never closes a ticket on the selection that DECIDE
    records.  On a latest version whose [selected_solution] has the keys
    DECIDE writes ([solution_id], [score], [details]) and whose [calculated_flags] is a dict ([sla_targets] in it,
    if any, a dict with a [resolution]), with an ATLAS server that answers,
    [UpdateStage.execute] invokes [update_ticket] only and writes the
    status that the server reported, whatever the score of the selection:
    the close rule reads the key ["id"], which this selection does not
    have. *)
Theorem update_never_closes_decide_selection (rt : Runtime) (atlas common : Backend)
    (session_id : string) (w : World) (hist : list Dict) (st : Dict) (a b : nat)
    (own_id : string) (id score details flags : PyVal) (upd : Dict) :
  state_history w !! session_id = Some hist ->
  last hist = Some st ->
  is_agent_state st ->
  dict_get st "session_id" = Some (VStr own_id) ->
  dict_get st "execution_log" = Some (VRef a) ->
  dict_get st "errors" = Some (VRef b) ->
  dict_get st "selected_solution"
    = Some (VDict [("solution_id", id); ("score", score); ("details", details)]) ->
  dict_get st "calculated_flags" = Some flags ->
  sla_ready flags = true ->
  (forall req t, MCPRequest.ability_name req = "update_ticket" ->
                 atlas req t = Ok (VDict upd)) ->
  exists st',
    eval (update_execute rt atlas common session_id) w = Ok st' /\
    mcp_calls (exec (update_execute rt atlas common session_id) w)
      = (mcp_calls w ++ ["update_ticket"])%list /\
    dict_get st' "ticket_updates" = Some (VDict upd) /\
    dict_get st' "ticket_status" = Some (dict_get_or upd "new_status" (VStr "in_progress")).
Proof.
  intros Hh Hl Hst Hsid Ha Hb Hsel Hcf Hsla Hatlas.
  destruct (prepare_update_parameters_ok (heap w) st _ flags Hsel eq_refl Hcf Hsla)
    as (params & Hprep).
  pose proof (should_close_ticket_on_decide_selection (heap w) st id score details Hsel)
    as Hclose.
  assert (Hdec : negb (truthy (heap w) (dict_get_or st "escalation_decision" VNone))
                 && negb (truthy (heap w) (dict_get_or st "selected_solution" VNone))
                 = false).
  { unfold dict_get_or. rewrite Hsel. cbn [truthy]. now rewrite andb_false_r. }
  destruct (update_execute_spec rt atlas common session_id w hist st a b own_id params upd
              false Hh Hl Hst Hsid Ha Hb Hdec Hprep)
    as (st' & w' & Hrun & _ & Hcalls & Hupd & Hstatus); auto.
  { discriminate. }
  exists st'. unfold eval, exec. rewrite Hrun. cbn [fst snd]. auto.
Qed.

Lemma decided_state_is_agent_state (escalation selected scores : PyVal) :
  is_agent_state (decided_state escalation selected scores).
Proof.
  intros k Hk. simpl in Hk.
  repeat (destruct Hk as [<-|Hk]; [vm_compute; reflexivity|]). contradiction.
Qed.

Lemma update_closes_from_85_witness :
  exists st',
    eval (update_execute sample_runtime steady_atlas sim_common "session-0")
         (decided_world (VBool false) retrieved_solution scores_92) = Ok st' /\
    mcp_calls (exec (update_execute sample_runtime steady_atlas sim_common "session-0")
                    (decided_world (VBool false) retrieved_solution scores_92))
      = ["update_ticket"; "close_ticket"] /\
    dict_get st' "ticket_status" = Some (VStr "closed").
Proof.
  destruct (update_closes_from_85 sample_runtime steady_atlas sim_common "session-0"
              (decided_world (VBool false) retrieved_solution scores_92)
              (decided_history (VBool false) retrieved_solution scores_92)
              (decided_state (VBool false) retrieved_solution scores_92)
              0%nat 1%nat "session-0" (VBool false) (VDict [])
              [ ("id", VStr "SOL-001");
                ("title", VStr "Billing Payment Failure Resolution");
                ("steps", vstrs ["Verify payment method"; "Check account balance"]) ]
              [("SOL-001", VDict [("overall_score", VInt 92)])]
              [("overall_score", VInt 92)]
              [("ticket_updated", VBool true); ("new_status", VStr "In Progress")]
              "SOL-001" 92)
    as (st' & Hev & _ & Hclosed & _).
  - vm_compute; reflexivity.
  - vm_compute; reflexivity.
  - apply decided_state_is_agent_state.
  - vm_compute; reflexivity.
  - vm_compute; reflexivity.
  - vm_compute; reflexivity.
  - vm_compute; reflexivity.
  - reflexivity.
  - vm_compute; reflexivity.
  - reflexivity.
  - discriminate.
  - vm_compute; reflexivity.
  - reflexivity.
  - reflexivity.
  - vm_compute; reflexivity.
  - reflexivity.
  - intros req t Hn. unfold steady_atlas. rewrite Hn. reflexivity.
  - intros _. split; [vm_compute; reflexivity|].
    intros req t Hn. unfold steady_atlas. rewrite Hn. eexists. reflexivity.
  - destruct Hclosed as [Hcalls Hstatus]; [lia|].
    exists st'. split; [exact Hev|]. split; [exact Hcalls|exact Hstatus].
Defined.

Lemma update_escalated_ticket_witness :
  exists st',
    eval (update_execute sample_runtime steady_atlas sim_common "session-0")
         (decided_world (VBool true) VNone VNone) = Ok st' /\
    mcp_calls (exec (update_execute sample_runtime steady_atlas sim_common "session-0")
                    (decided_world (VBool true) VNone VNone))
      = ["update_ticket"] /\
    dict_get st' "ticket_status" = Some (VStr "In Progress").
Proof.
  destruct (update_escalated_ticket sample_runtime steady_atlas sim_common "session-0"
              (decided_world (VBool true) VNone VNone)
              (decided_history (VBool true) VNone VNone)
              (decided_state (VBool true) VNone VNone)
              0%nat 1%nat "session-0" (VBool true) VNone (VDict [])
              [("ticket_updated", VBool true); ("new_status", VStr "In Progress")])
    as (st' & Hev & Hcalls & _ & Hstatus).
  - vm_compute; reflexivity.
  - vm_compute; reflexivity.
  - apply decided_state_is_agent_state.
  - vm_compute; reflexivity.
  - vm_compute; reflexivity.
  - vm_compute; reflexivity.
  - vm_compute; reflexivity.
  - reflexivity.
  - vm_compute; reflexivity.
  - reflexivity.
  - vm_compute; reflexivity.
  - reflexivity.
  - intros req t Hn _ _ _. unfold steady_atlas. rewrite Hn. reflexivity.
  - exists st'. split; [exact Hev|]. split; [exact Hcalls|exact Hstatus].
Defined.

Lemma update_never_closes_decide_selection_witness :
  exists st',
    eval (update_execute sample_runtime steady_atlas sim_common "session-0")
         (decided_world (VBool false) decide_selection scores_92) = Ok st' /\
    mcp_calls (exec (update_execute sample_runtime steady_atlas sim_common "session-0")
                    (decided_world (VBool false) decide_selection scores_92))
      = ["update_ticket"] /\
    dict_get st' "ticket_status" = Some (VStr "In Progress").
Proof.
  destruct (update_never_closes_decide_selection sample_runtime steady_atlas sim_common
              "session-0"
              (decided_world (VBool false) decide_selection scores_92)
              (decided_history (VBool false) decide_selection scores_92)
              (decided_state (VBool false) decide_selection scores_92)
              0%nat 1%nat "session-0" (VStr "SOL-001") (VInt 95)
              (VDict [("overall_score", VInt 95)]) (VDict [])
              [("ticket_updated", VBool true); ("new_status", VStr "In Progress")])
    as (st' & Hev & Hcalls & _ & Hstatus).
  - vm_compute; reflexivity.
  - vm_compute; reflexivity.
  - apply decided_state_is_agent_state.
  - vm_compute; reflexivity.
  - vm_compute; reflexivity.
  - vm_compute; reflexivity.
  - vm_compute; reflexivity.
  - vm_compute; reflexivity.
  - reflexivity.
  - intros req t Hn. unfold steady_atlas. rewrite Hn. reflexivity.
  - exists st'. split; [exact Hev|]. split; [exact Hcalls|exact Hstatus].
Defined.

(** X23. [_prepare_update_parameters] lists what it sets.  Whenever it
    returns, the result is a dict whose first key is [fields_to_update] and
    whose value there is the list of the other keys of the dict, in their
    order; [new_status] is among them, and is ["escalated"] for an
    escalated state (with the agent ["human_agent"] and the priority
    ["high"]) and ["in_progress"] otherwise.  It returns whenever the
    selected solution is a dict or falsy and the calculated flags are a
    dict without [sla_targets]. *)
Theorem prepare_update_parameters_fields (h : Heap) (state : Dict) :
  (forall v, _prepare_update_parameters h state = Ok v ->
     exists (fields : list string) (rest : Dict),
       v = VDict (("fields_to_update", vstrs fields) :: rest) /\
       map fst rest = fields /\
       dict_get rest "new_status"
         = Some (VStr (if truthy h (dict_get_or state "escalation_decision" (VBool false))
                       then "escalated" else "in_progress")) /\
       (truthy h (dict_get_or state "escalation_decision" (VBool false)) = true ->
        dict_get rest "assigned_agent" = Some (VStr "human_agent") /\
        dict_get rest "priority" = Some (VStr "high"))) /\
  (forall flags,
     (truthy h (dict_get_or state "selected_solution" VNone) = false \/
      exists solution, dict_get_or state "selected_solution" VNone = VDict solution) ->
     dict_get_or state "calculated_flags" (VDict []) = VDict flags ->
     dict_has flags "sla_targets" = false ->
     exists v, _prepare_update_parameters h state = Ok v).
Proof.
  split.
  - intros v. unfold _prepare_update_parameters.
    destruct (truthy h (dict_get_or state "selected_solution" VNone)).
    + destruct (py_get (dict_get_or state "selected_solution" VNone) "title" VNone)
        as [title|]; [|discriminate]. cbn [res_bind].
      destruct (py_get (dict_get_or state "selected_solution" VNone)
                  "estimated_resolution_time" VNone) as [time|]; [|discriminate].
      cbn [res_bind].
      destruct (str_in h "sla_targets" (dict_get_or state "calculated_flags" (VDict [])))
        as [[|]|]; [| |discriminate]; cbn [res_bind].
      * destruct (py_item (dict_get_or state "calculated_flags" (VDict [])) "sla_targets")
          as [targets|]; [|discriminate]. cbn [res_bind].
        destruct (py_item targets "resolution") as [resolution|]; [|discriminate].
        cbn [res_bind fst snd]. intros [= <-].
        destruct (truthy h (dict_get_or state "escalation_decision" (VBool false)));
          do 2 eexists; (split; [reflexivity|]); repeat split; try reflexivity;
          discriminate.
      * cbn [fst snd]. intros [= <-].
        destruct (truthy h (dict_get_or state "escalation_decision" (VBool false)));
          do 2 eexists; (split; [reflexivity|]); repeat split; try reflexivity;
          discriminate.
    + cbn [res_bind].
      destruct (str_in h "sla_targets" (dict_get_or state "calculated_flags" (VDict [])))
        as [[|]|]; [| |discriminate]; cbn [res_bind].
      * destruct (py_item (dict_get_or state "calculated_flags" (VDict [])) "sla_targets")
          as [targets|]; [|discriminate]. cbn [res_bind].
        destruct (py_item targets "resolution") as [resolution|]; [|discriminate].
        cbn [res_bind fst snd]. intros [= <-].
        destruct (truthy h (dict_get_or state "escalation_decision" (VBool false)));
          do 2 eexists; (split; [reflexivity|]); repeat split; try reflexivity;
          discriminate.
      * cbn [fst snd]. intros [= <-].
        destruct (truthy h (dict_get_or state "escalation_decision" (VBool false)));
          do 2 eexists; (split; [reflexivity|]); repeat split; try reflexivity;
          discriminate.
  - intros flags Hsel Hflags Hno. unfold _prepare_update_parameters.
    rewrite Hflags. cbn [str_in]. rewrite Hno.
    destruct Hsel as [-> | (solution & Hsol)].
    + cbn [res_bind]. eexists. reflexivity.
    + rewrite Hsol. destruct (truthy h (VDict solution)); cbn [py_get res_bind];
        eexists; reflexivity.
Qed.

(* ===================================================================== *)
(** ** The simulated servers *)
(* ===================================================================== *)

Lemma simulate_common_answers (rt : Runtime) (req : MCPRequest.t) (t : Z) :
  exists d, _simulate_common_response rt req t = Ok (VDict d).
Proof.
  unfold _simulate_common_response.
  repeat (match goal with |- context [if ?c then _ else _] => destruct c end;
          [eexists; reflexivity|]).
  eexists; reflexivity.
Qed.

Lemma simulate_atlas_answers (rt : Runtime) (req : MCPRequest.t) (t : Z) :
  (MCPRequest.ability_name req = "escalation_decision" ->
   exists q, as_num (dict_get_or (MCPRequest.parameters req) "solution_score" (VInt 0))
             = Some q) ->
  exists d, _simulate_atlas_response rt req t = Ok (VDict d).
Proof.
  intros Hnum. unfold _simulate_atlas_response.
  do 5 (match goal with |- context [if ?c then _ else _] => destruct c end;
        [eexists; reflexivity|]).
  destruct (String.eqb (MCPRequest.ability_name req) "escalation_decision") eqn:E.
  - apply String.eqb_eq in E. destruct (Hnum E) as [q Hq].
    unfold py_lt. rewrite Hq. cbn [as_num res_bind]. eexists. reflexivity.
  - repeat (match goal with |- context [if ?c then _ else _] => destruct c end;
            [eexists; reflexivity|]).
    eexists; reflexivity.
Qed.

(** X24. With the repository's simulated servers every ability of the
    routing table succeeds.  For each of the fifteen abilities, called with
    dict parameters and context and a string session id,
    [execute_ability] returns an envelope with [success=True], a dict as
    data, no error, and the routed server as [server_type]; the one
    condition is that [escalation_decision] is given a number as
    [solution_score] (its simulation compares it with 90 and 70). *)
Theorem simulated_servers_answer (rt : Runtime) (ability_name : string)
    (server : MCPServerType) (p c : Dict) (s : string) (w : World) :
  mapping_get server_mapping ability_name = Some server ->
  (ability_name = "escalation_decision" ->
   exists q, as_num (dict_get_or p "solution_score" (VInt 0)) = Some q) ->
  exists resp d,
    eval (execute_ability rt (_simulate_atlas_response rt) (_simulate_common_response rt)
            ability_name (VDict p) (VDict c) (VStr s)) w = Ok resp /\
    MCPResponse.success resp = true /\
    MCPResponse.data resp = VDict d /\
    MCPResponse.error resp = None /\
    MCPResponse.server_type resp = server.
Proof.
  intros Hmap Hnum. unfold eval, execute_ability. rewrite Hmap.
  unfold bind, record_call, get_heap, now, lift. cbn [heap clock].
  rewrite (execute_ability_request _ ability_name (Some p) (Some c) (Some s)).
  set (req := MCPRequest.mk _ _ _ _ _).
  destruct server; unfold _call_atlas_server, _call_common_server, bind, try_except, now, lift;
    cbn [clock].
  - match goal with |- context [_simulate_atlas_response rt req ?t] =>
      destruct (simulate_atlas_answers rt req t) as [d Hd] end.
    { intros Hn. apply Hnum. exact Hn. }
    rewrite Hd. cbn. do 2 eexists. repeat (match goal with |- _ /\ _ => split end);
      reflexivity.
  - match goal with |- context [_simulate_common_response rt req ?t] =>
      destruct (simulate_common_answers rt req t) as [d Hd] end.
    rewrite Hd. cbn. do 2 eexists. repeat (match goal with |- _ /\ _ => split end);
      reflexivity.
Qed.

Lemma simulated_servers_answer_witness :
  exists resp d,
    eval (execute_ability sample_runtime (_simulate_atlas_response sample_runtime)
            (_simulate_common_response sample_runtime)
            "escalation_decision" (VDict [("solution_score", VInt 85)]) (VDict [])
            (VStr "session-0")) empty_world = Ok resp /\
    MCPResponse.success resp = true /\
    MCPResponse.data resp = VDict d /\
    MCPResponse.server_type resp = ATLAS.
Proof.
  destruct (simulated_servers_answer sample_runtime "escalation_decision" ATLAS
              [("solution_score", VInt 85)] [] "session-0" empty_world eq_refl)
    as (resp & d & Hev & Hsucc & Hdata & _ & Hserver).
  { intros _. eexists. reflexivity. }
  exists resp, d. repeat (match goal with |- _ /\ _ => split end); assumption.
Defined.

(* ===================================================================== *)
(** ** DECIDE on a state whose PREPARE fields are unset *)
(* ===================================================================== *)

(** [_evaluate_solutions] reads the customer tier with
    [state.get("enriched_records", {}).get(...)]: the default serves a
    missing key, not a key that holds [None], and [None] has no [get]. *)
Lemma evaluate_solutions_without_records (rt : Runtime) (atlas common : Backend)
    (st : Dict) (w : World) :
  dict_get st "enriched_records" = Some VNone ->
  _evaluate_solutions rt atlas common st w = (Raise AttributeError, w).
Proof.
  intros Her. unfold _evaluate_solutions, dict_get_or. rewrite Her. reflexivity.
Qed.

(** [_make_escalation_decision] reads the SLA risk the same way from
    [calculated_flags], and raises before it has built the request. *)
Lemma make_escalation_decision_without_flags (rt : Runtime) (atlas common : Backend)
    (st : Dict) (er : Dict) (solution_evaluation best_score : PyVal) (w : World) :
  is_agent_state st ->
  dict_get st "enriched_records" = Some (VDict er) ->
  dict_get st "calculated_flags" = Some VNone ->
  _make_escalation_decision rt atlas common st solution_evaluation best_score w
  = (Raise AttributeError, w).
Proof.
  intros Hst Her Hcf.
  destruct (agent_state_item st "priority" Hst) as [prio Hprio]; [simpl; tauto|].
  unfold _make_escalation_decision, dict_get_or, item. rewrite Her, Hcf, Hprio.
  reflexivity.
Qed.

(** DECIDE on a score below the threshold, where [calculated_flags] is
    [None]: the evaluation is invoked, the escalation is not, and the
    [AttributeError] leaves through the handler of the stage. *)
Lemma decide_raises_without_flags (rt : Runtime) (atlas common : Backend)
    (session_id : string) (w : World) (hist : list Dict) (st : Dict) (a b : nat)
    (own_id : string) (er ev : Dict) (best_solution best_score : PyVal) (q : Q) :
  state_history w !! session_id = Some hist ->
  last hist = Some st ->
  is_agent_state st ->
  dict_get st "session_id" = Some (VStr own_id) ->
  dict_get st "execution_log" = Some (VRef a) ->
  dict_get st "errors" = Some (VRef b) ->
  a <> b ->
  truthy (heap w) (dict_get_or st "retrieved_solutions" VNone) = true ->
  dict_get st "enriched_records" = Some (VDict er) ->
  dict_get st "calculated_flags" = Some VNone ->
  (forall req t, MCPRequest.ability_name req = "solution_evaluation" ->
                 common req t = Ok (VDict ev)) ->
  _find_best_solution (heap w) (VDict ev) = Ok (best_solution, best_score) ->
  as_num best_score = Some q ->
  (q < inject_Z escalation_threshold)%Q ->
  exists entry : ExecutionLog,
    let w' := exec (decide_execute rt atlas common session_id) w in
    eval (decide_execute rt atlas common session_id) w = Raise AttributeError /\
    get_state_history session_id w' = (Ok hist, w') /\
    mcp_calls w' = (mcp_calls w ++ ["solution_evaluation"])%list /\
    deref (heap w') (VRef a) = (deref (heap w) (VRef a) ++ [VLog entry])%list /\
    stage_name entry = "DECIDE" /\
    status entry = FAILED /\
    abilities_executed entry = ["solution_evaluation"] /\
    error_message entry = Some (str_exn rt AttributeError).
Proof.
  intros Hh Hl Hst Hsid Ha Hb Hab Hret Her Hcf Hcommon Hbest Hq Hlt.
  apply Qlt_bool_true in Hlt.
  assert (Hbelow : py_lt best_score (VInt escalation_threshold) = Ok true).
  { unfold py_lt. rewrite Hq. cbn. now rewrite Hlt. }
  set (w0 := after_call "solution_evaluation" (tick w)).
  destruct (on_failure_raises rt session_id 7 "DECIDE" (clock w) ["solution_evaluation"]
              (h <- get_heap ;;
               best <- lift (_find_best_solution h (VDict ev)) ;;
               below <- lift (py_lt (snd best) (VInt escalation_threshold)) ;;
               if below then
                 escalation_result <- _make_escalation_decision rt atlas common st (VDict ev)
                                        (snd best) ;;
                 ret (true, snd best, escalation_result)
               else ret (false, snd best, fst best))%M
              w0 w0 AttributeError hist st a b)
    as (w2 & Hrun & Hh2 & Hc2 & Hda & _); auto.
  { unfold bind at 1, get_heap. cbv beta iota.
    unfold bind at 1, lift. cbn [heap after_call tick w0]. rewrite Hbest. cbv beta iota.
    unfold bind at 1. cbn [snd fst]. rewrite Hbelow. cbv beta iota.
    erewrite bind_raise; [reflexivity|].
    eapply make_escalation_decision_without_flags; eassumption. }
  eexists. cbv zeta. unfold eval, exec, decide_execute.
  erewrite bind_ok by reflexivity. fold (tick w).
  erewrite bind_ok.
  2:{ apply on_failure_ok. erewrite bind_ok.
      2:{ apply (get_current_state_eq session_id (tick w) hist st); assumption. }
      unfold bind, get_heap. cbn [heap tick]. rewrite Hret. reflexivity. }
  erewrite bind_ok.
  2:{ apply on_failure_ok. eapply evaluate_solutions_ok; eassumption. }
  fold w0. erewrite bind_raise by exact Hrun. cbn [fst snd].
  split; [reflexivity|].
  split. { unfold get_state_history. rewrite Hh2. subst w0. cbn [state_history after_call tick].
           now rewrite Hh. }
  split. { rewrite Hc2. reflexivity. }
  split. { rewrite Hda. reflexivity. }
  repeat split; reflexivity.
Qed.

(** Where every score is below the threshold, so is the score that
    [_find_best_solution] returns; where one score reaches it, the returned
    score does. *)
Lemma find_best_solution_below (h : Heap) (ev scores : Dict) :
  dict_get ev "solution_scores" = Some (VDict scores) ->
  scores <> [] ->
  well_scored scores = true ->
  (dict_get_or ev "recommended_solution" VNone = VNone \/
   exists rid, dict_get_or ev "recommended_solution" VNone = VStr rid /\
               dict_has scores rid = false) ->
  Forall (fun kv => exists qk, overall_of (snd kv) = Some qk /\
                               (qk < inject_Z escalation_threshold)%Q) scores ->
  exists best_solution best_score q,
    _find_best_solution h (VDict ev) = Ok (best_solution, best_score) /\
    as_num best_score = Some q /\
    (q < inject_Z escalation_threshold)%Q.
Proof.
  intros Hs Hne Hw Hrec Hall.
  destruct (find_best_solution_highest h ev scores Hs Hne Hw Hrec)
    as (id & score & q & Hbest & Hnum & _ & _ & Hwho).
  eexists _, score, q. split; [exact Hbest|]. split; [exact Hnum|].
  destruct Hwho as [[_ ->]|(k & d & _ & Hin & Hsc & _)].
  - cbn in Hnum. injection Hnum as <-. reflexivity.
  - apply (proj1 (List.Forall_forall _ _) Hall) in Hin. destruct Hin as (qk & Hov & Hlt).
    cbn [snd overall_of] in Hov. rewrite Hsc, Hnum in Hov. now injection Hov as ->.
Qed.

Lemma find_best_solution_reaches (h : Heap) (ev scores : Dict) :
  dict_get ev "solution_scores" = Some (VDict scores) ->
  scores <> [] ->
  well_scored scores = true ->
  (dict_get_or ev "recommended_solution" VNone = VNone \/
   exists rid, dict_get_or ev "recommended_solution" VNone = VStr rid /\
               dict_has scores rid = false) ->
  Exists (fun kv => exists qk, overall_of (snd kv) = Some qk /\
                               (inject_Z escalation_threshold <= qk)%Q) scores ->
  exists k d best_score q,
    _find_best_solution h (VDict ev)
    = Ok (VDict [ ("solution_id", VStr k); ("score", best_score);
                  ("details", details_of scores (VStr k)) ],
          best_score) /\
    In (k, VDict d) scores /\
    dict_get_or d "overall_score" (VInt 0) = best_score /\
    as_num best_score = Some q /\
    (inject_Z escalation_threshold <= q)%Q /\
    Forall (fun kv => exists qk, overall_of (snd kv) = Some qk /\ (qk <= q)%Q) scores.
Proof.
  intros Hs Hne Hw Hrec Hex.
  destruct (find_best_solution_highest h ev scores Hs Hne Hw Hrec)
    as (id & score & q & Hbest & Hnum & _ & Hall & Hwho).
  assert (Hge : (inject_Z escalation_threshold <= q)%Q).
  { apply List.Exists_exists in Hex as ([k0 v0] & Hin & qk & Hov & Hge).
    apply (proj1 (List.Forall_forall _ _) Hall) in Hin. destruct Hin as (qk' & Hov' & Hle).
    rewrite Hov in Hov'. injection Hov' as <-. eapply Qle_trans; eassumption. }
  destruct Hwho as [[_ ->]|(k & d & -> & Hin & Hsc & _)].
  - cbn in Hnum. injection Hnum as <-. exfalso. revert Hge.
    unfold Qle, escalation_threshold. simpl. lia.
  - exists k, d, score, q. repeat split; assumption.
Qed.

Lemma unflagged_state_is_agent_state : is_agent_state unflagged_state.
Proof.
  intros k Hk. simpl in Hk.
  repeat (destruct Hk as [<-|Hk]; [vm_compute; reflexivity|]). contradiction.
Qed.

(** C5 (the code departs from it). With a best score strictly below the
    threshold, DECIDE does not escalate on a state whose [calculated_flags]
    is [None], the value that [create_initial_state] gives it: the
    evaluation is invoked and answers, every overall score is below 90 (so
    is the best one, and no recommendation stands in for it),
    [_make_escalation_decision] raises [AttributeError] on
    [state.get("calculated_flags", {}).get(...)], the ability
    [escalation_decision] is not invoked, and no version is written:
    [escalation_decision], [selected_solution] and [decision_reasoning]
    stay as they were.  The handler of the stage logs a FAILED entry with
    [solution_evaluation] as the one ability executed and raises the error
    again. *)
Theorem decide_fails_below_threshold_without_flags (rt : Runtime) (atlas common : Backend)
    (session_id : string) (w : World) (hist : list Dict) (st : Dict) (a b : nat)
    (own_id : string) (er ev scores : Dict) :
  state_history w !! session_id = Some hist ->
  last hist = Some st ->
  is_agent_state st ->
  dict_get st "session_id" = Some (VStr own_id) ->
  dict_get st "execution_log" = Some (VRef a) ->
  dict_get st "errors" = Some (VRef b) ->
  a <> b ->
  truthy (heap w) (dict_get_or st "retrieved_solutions" VNone) = true ->
  dict_get st "enriched_records" = Some (VDict er) ->
  dict_get st "calculated_flags" = Some VNone ->
  (forall req t, MCPRequest.ability_name req = "solution_evaluation" ->
                 common req t = Ok (VDict ev)) ->
  dict_get ev "solution_scores" = Some (VDict scores) ->
  scores <> [] ->
  well_scored scores = true ->
  (dict_get_or ev "recommended_solution" VNone = VNone \/
   exists rid, dict_get_or ev "recommended_solution" VNone = VStr rid /\
               dict_has scores rid = false) ->
  Forall (fun kv => exists qk, overall_of (snd kv) = Some qk /\
                               (qk < inject_Z escalation_threshold)%Q) scores ->
  exists (best_solution best_score : PyVal) (q : Q) (entry : ExecutionLog),
    let w' := exec (decide_execute rt atlas common session_id) w in
    _find_best_solution (heap w) (VDict ev) = Ok (best_solution, best_score) /\
    as_num best_score = Some q /\
    (q < inject_Z escalation_threshold)%Q /\
    eval (decide_execute rt atlas common session_id) w = Raise AttributeError /\
    get_state_history session_id w' = (Ok hist, w') /\
    mcp_calls w' = (mcp_calls w ++ ["solution_evaluation"])%list /\
    deref (heap w') (VRef a) = (deref (heap w) (VRef a) ++ [VLog entry])%list /\
    stage_name entry = "DECIDE" /\
    status entry = FAILED /\
    abilities_executed entry = ["solution_evaluation"] /\
    error_message entry = Some (str_exn rt AttributeError).
Proof.
  intros Hh Hl Hst Hsid Ha Hb Hab Hret Her Hcf Hcommon Hs Hne Hw Hrec Hall.
  destruct (find_best_solution_below (heap w) ev scores Hs Hne Hw Hrec Hall)
    as (best_solution & best_score & q & Hbest & Hq & Hlt).
  destruct (decide_raises_without_flags rt atlas common session_id w hist st a b own_id
              er ev best_solution best_score q Hh Hl Hst Hsid Ha Hb Hab Hret Her Hcf
              Hcommon Hbest Hq Hlt) as (entry & Hrun).
  exists best_solution, best_score, q, entry. cbv zeta in *.
  split; [exact Hbest|]. split; [exact Hq|]. split; [exact Hlt|]. exact Hrun.
Qed.

Lemma decide_fails_below_threshold_without_flags_witness :
  exists (best_solution best_score : PyVal) (q : Q) (entry : ExecutionLog),
    let w' := exec (decide_execute sample_runtime sim_atlas (stub_common evaluation_70_85)
                      "session-0") unflagged_world in
    _find_best_solution (heap unflagged_world) (VDict evaluation_70_85)
      = Ok (best_solution, best_score) /\
    as_num best_score = Some q /\
    (q < inject_Z escalation_threshold)%Q /\
    eval (decide_execute sample_runtime sim_atlas (stub_common evaluation_70_85)
            "session-0") unflagged_world = Raise AttributeError /\
    get_state_history "session-0" w' = (Ok unflagged_history, w') /\
    mcp_calls w' = (mcp_calls unflagged_world ++ ["solution_evaluation"])%list /\
    deref (heap w') (VRef 0%nat)
      = (deref (heap unflagged_world) (VRef 0%nat) ++ [VLog entry])%list /\
    stage_name entry = "DECIDE" /\
    status entry = FAILED /\
    abilities_executed entry = ["solution_evaluation"] /\
    error_message entry = Some (str_exn sample_runtime AttributeError).
Proof.
  apply (decide_fails_below_threshold_without_flags sample_runtime sim_atlas
           (stub_common evaluation_70_85) "session-0" unflagged_world unflagged_history
           unflagged_state 0%nat 1%nat "session-0" [("customer_tier", VStr "premium")]
           evaluation_70_85
           [ ("SOL-001", VDict [("overall_score", VInt 70)]);
             ("SOL-002", VDict [("overall_score", VInt 85)]) ]).
  - vm_compute; reflexivity.
  - vm_compute; reflexivity.
  - exact unflagged_state_is_agent_state.
  - vm_compute; reflexivity.
  - vm_compute; reflexivity.
  - vm_compute; reflexivity.
  - discriminate.
  - vm_compute; reflexivity.
  - vm_compute; reflexivity.
  - vm_compute; reflexivity.
  - intros req t Hn. unfold stub_common. rewrite Hn. reflexivity.
  - reflexivity.
  - discriminate.
  - reflexivity.
  - left. reflexivity.
  - repeat constructor; eexists; (split; [reflexivity|]);
      unfold Qlt, escalation_threshold; simpl; lia.
Defined.

(** C9 (the code departs from it). When the result of
    [solution_evaluation] has no [solution_scores] or an empty one,
    [_find_best_solution] gives the empty solution and the score 0.0, and
    DECIDE takes the escalation branch; on a state whose [calculated_flags]
    is [None], the value that [create_initial_state] gives it, the branch
    fails: [_make_escalation_decision] raises [AttributeError] on
    [state.get("calculated_flags", {}).get(...)] before it invokes
    [escalation_decision], no version is written, and the stage raises the
    error again after logging a FAILED entry. *)
Theorem decide_fails_without_scores_and_flags (rt : Runtime) (atlas common : Backend)
    (session_id : string) (w : World) (hist : list Dict) (st : Dict) (a b : nat)
    (own_id : string) (er ev : Dict) :
  state_history w !! session_id = Some hist ->
  last hist = Some st ->
  is_agent_state st ->
  dict_get st "session_id" = Some (VStr own_id) ->
  dict_get st "execution_log" = Some (VRef a) ->
  dict_get st "errors" = Some (VRef b) ->
  a <> b ->
  truthy (heap w) (dict_get_or st "retrieved_solutions" VNone) = true ->
  dict_get st "enriched_records" = Some (VDict er) ->
  dict_get st "calculated_flags" = Some VNone ->
  (forall req t, MCPRequest.ability_name req = "solution_evaluation" ->
                 common req t = Ok (VDict ev)) ->
  (dict_get ev "solution_scores" = None \/ dict_get ev "solution_scores" = Some (VDict [])) ->
  _find_best_solution (heap w) (VDict ev) = Ok (VDict [], VFloat 0) /\
  exists entry : ExecutionLog,
    let w' := exec (decide_execute rt atlas common session_id) w in
    eval (decide_execute rt atlas common session_id) w = Raise AttributeError /\
    get_state_history session_id w' = (Ok hist, w') /\
    mcp_calls w' = (mcp_calls w ++ ["solution_evaluation"])%list /\
    deref (heap w') (VRef a) = (deref (heap w) (VRef a) ++ [VLog entry])%list /\
    stage_name entry = "DECIDE" /\
    status entry = FAILED /\
    abilities_executed entry = ["solution_evaluation"] /\
    error_message entry = Some (str_exn rt AttributeError).
Proof.
  intros Hh Hl Hst Hsid Ha Hb Hab Hret Her Hcf Hcommon Hscores.
  pose proof (find_best_solution_no_scores (heap w) ev Hscores) as Hbest.
  split; [exact Hbest|].
  apply (decide_raises_without_flags rt atlas common session_id w hist st a b own_id
           er ev (VDict []) (VFloat 0) 0%Q Hh Hl Hst Hsid Ha Hb Hab Hret Her Hcf
           Hcommon Hbest eq_refl).
  reflexivity.
Qed.

Lemma decide_fails_without_scores_and_flags_witness :
  _find_best_solution (heap unflagged_world) (VDict evaluation_without_scores)
    = Ok (VDict [], VFloat 0) /\
  exists entry : ExecutionLog,
    let w' := exec (decide_execute sample_runtime sim_atlas
                      (stub_common evaluation_without_scores) "session-0")
                   unflagged_world in
    eval (decide_execute sample_runtime sim_atlas (stub_common evaluation_without_scores)
            "session-0") unflagged_world = Raise AttributeError /\
    get_state_history "session-0" w' = (Ok unflagged_history, w') /\
    mcp_calls w' = (mcp_calls unflagged_world ++ ["solution_evaluation"])%list /\
    deref (heap w') (VRef 0%nat)
      = (deref (heap unflagged_world) (VRef 0%nat) ++ [VLog entry])%list /\
    stage_name entry = "DECIDE" /\
    status entry = FAILED /\
    abilities_executed entry = ["solution_evaluation"] /\
    error_message entry = Some (str_exn sample_runtime AttributeError).
Proof.
  apply (decide_fails_without_scores_and_flags sample_runtime sim_atlas
           (stub_common evaluation_without_scores) "session-0" unflagged_world
           unflagged_history unflagged_state 0%nat 1%nat "session-0"
           [("customer_tier", VStr "premium")] evaluation_without_scores).
  - vm_compute; reflexivity.
  - vm_compute; reflexivity.
  - exact unflagged_state_is_agent_state.
  - vm_compute; reflexivity.
  - vm_compute; reflexivity.
  - vm_compute; reflexivity.
  - discriminate.
  - vm_compute; reflexivity.
  - vm_compute; reflexivity.
  - vm_compute; reflexivity.
  - intros req t Hn. unfold stub_common. rewrite Hn. reflexivity.
  - left. reflexivity.
Defined.

(** X25. DECIDE fails on the state that the agent's own workflow hands to
    it.  On a session with retrieved solutions whose [enriched_records] is
    [None] (as [create_initial_state] sets it and as the simulated PREPARE
    of the workflow leaves it), [DecideStage.execute] raises
    [AttributeError] from [state.get("enriched_records", {}).get(...)]
    before it invokes any ability, whatever the servers would answer; the
    handler logs a FAILED entry for DECIDE with no ability executed, and no
    version is added. *)
Theorem decide_raises_without_enriched_records (rt : Runtime) (atlas common : Backend)
    (session_id : string) (w : World) (hist : list Dict) (st : Dict) (a b : nat) :
  state_history w !! session_id = Some hist ->
  last hist = Some st ->
  dict_get st "execution_log" = Some (VRef a) ->
  dict_get st "errors" = Some (VRef b) ->
  a <> b ->
  truthy (heap w) (dict_get_or st "retrieved_solutions" VNone) = true ->
  dict_get st "enriched_records" = Some VNone ->
  exists entry : ExecutionLog,
    let w' := exec (decide_execute rt atlas common session_id) w in
    eval (decide_execute rt atlas common session_id) w = Raise AttributeError /\
    get_state_history session_id w' = (Ok hist, w') /\
    mcp_calls w' = mcp_calls w /\
    deref (heap w') (VRef a) = (deref (heap w) (VRef a) ++ [VLog entry])%list /\
    stage_name entry = "DECIDE" /\
    status entry = FAILED /\
    abilities_executed entry = [] /\
    error_message entry = Some (str_exn rt AttributeError).
Proof.
  intros Hh Hl Ha Hb Hab Hret Her.
  destruct (on_failure_raises rt session_id 7 "DECIDE" (clock w) []
              (_evaluate_solutions rt atlas common st) (tick w) (tick w) AttributeError
              hist st a b)
    as (w2 & Hrun & Hh2 & Hc2 & Hda & _); auto.
  { now apply evaluate_solutions_without_records. }
  eexists. cbv zeta. unfold eval, exec, decide_execute.
  erewrite bind_ok by reflexivity. fold (tick w).
  erewrite bind_ok.
  2:{ apply on_failure_ok. erewrite bind_ok.
      2:{ apply (get_current_state_eq session_id (tick w) hist st); assumption. }
      unfold bind, get_heap. cbn [heap tick]. rewrite Hret. reflexivity. }
  erewrite bind_raise by exact Hrun. cbn [fst snd].
  split; [reflexivity|].
  split. { unfold get_state_history. rewrite Hh2. cbn [state_history tick]. now rewrite Hh. }
  split. { rewrite Hc2. reflexivity. }
  split. { rewrite Hda. reflexivity. }
  repeat split; reflexivity.
Qed.

Lemma decide_raises_without_enriched_records_witness :
  exists entry : ExecutionLog,
    let w' := exec (decide_execute sample_runtime sim_atlas sim_common "session-0")
                   retrieved_world in
    eval (decide_execute sample_runtime sim_atlas sim_common "session-0") retrieved_world
      = Raise AttributeError /\
    get_state_history "session-0" w' = (Ok retrieved_history, w') /\
    mcp_calls w' = mcp_calls retrieved_world /\
    deref (heap w') (VRef 0%nat)
      = (deref (heap retrieved_world) (VRef 0%nat) ++ [VLog entry])%list /\
    stage_name entry = "DECIDE" /\
    status entry = FAILED /\
    abilities_executed entry = [] /\
    error_message entry = Some (str_exn sample_runtime AttributeError).
Proof.
  apply (decide_raises_without_enriched_records sample_runtime sim_atlas sim_common
           "session-0" retrieved_world retrieved_history retrieved_state 0%nat 1%nat);
    first [vm_compute; reflexivity | discriminate].
Defined.

(** X15. The workflow leaves DECIDE by the threshold.  Let the state be
    ready for DECIDE: solutions retrieved, [enriched_records] and
    [calculated_flags] both dicts, log and notes kept in list objects.  Let
    the servers answer (ATLAS at least the escalation requests that carry a
    numeric score), and let the evaluation hold scored solutions and no
    usable recommendation (none, or one that is not among the scored
    solutions).  Then [DecideStage.execute] returns.  When some solution
    has an overall score of 90 or more, the state it returns has
    [escalation_decision = False] and, as [selected_solution], a scored
    solution whose score is the highest of all and at least 90, and
    [_decide_next_stage] gives ["update"].  When every overall score is
    below 90, the state has [escalation_decision = True] and
    [selected_solution = None], and [_decide_next_stage] gives ["escalate"],
    the end of the workflow. *)
Theorem decide_routes_on_threshold (rt : Runtime) (atlas common : Backend)
    (session_id : string) (w : World) (hist : list Dict) (st : Dict) (a b : nat)
    (own_id : string) (er cf ev scores : Dict) :
  state_history w !! session_id = Some hist ->
  last hist = Some st ->
  is_agent_state st ->
  dict_get st "session_id" = Some (VStr own_id) ->
  dict_get st "execution_log" = Some (VRef a) ->
  dict_get st "errors" = Some (VRef b) ->
  truthy (heap w) (dict_get_or st "retrieved_solutions" VNone) = true ->
  dict_get st "enriched_records" = Some (VDict er) ->
  dict_get st "calculated_flags" = Some (VDict cf) ->
  (forall req t, MCPRequest.ability_name req = "solution_evaluation" ->
                 common req t = Ok (VDict ev)) ->
  (forall req t score q,
     MCPRequest.ability_name req = "escalation_decision" ->
     dict_get (MCPRequest.parameters req) "solution_score" = Some score ->
     as_num score = Some q ->
     exists esc, atlas req t = Ok (VDict esc)) ->
  dict_get ev "solution_scores" = Some (VDict scores) ->
  scores <> [] ->
  well_scored scores = true ->
  (dict_get_or ev "recommended_solution" VNone = VNone \/
   exists rid, dict_get_or ev "recommended_solution" VNone = VStr rid /\
               dict_has scores rid = false) ->
  exists st',
    eval (decide_execute rt atlas common session_id) w = Ok st' /\
    (Exists (fun kv => exists qk, overall_of (snd kv) = Some qk /\
                                  (inject_Z escalation_threshold <= qk)%Q) scores ->
     dict_get st' "escalation_decision" = Some (VBool false) /\
     (exists k d score q,
        dict_get st' "selected_solution"
          = Some (VDict [ ("solution_id", VStr k); ("score", score);
                          ("details", details_of scores (VStr k)) ]) /\
        In (k, VDict d) scores /\
        dict_get_or d "overall_score" (VInt 0) = score /\
        as_num score = Some q /\
        (inject_Z escalation_threshold <= q)%Q /\
        Forall (fun kv => exists qk, overall_of (snd kv) = Some qk /\ (qk <= q)%Q) scores) /\
     _decide_next_stage (heap (exec (decide_execute rt atlas common session_id) w)) st'
     = "update") /\
    (Forall (fun kv => exists qk, overall_of (snd kv) = Some qk /\
                                  (qk < inject_Z escalation_threshold)%Q) scores ->
     dict_get st' "escalation_decision" = Some (VBool true) /\
     dict_get st' "selected_solution" = Some VNone /\
     _decide_next_stage (heap (exec (decide_execute rt atlas common session_id) w)) st'
     = "escalate").
Proof.
  intros Hh Hl Hst Hsid Ha Hb Hret Her Hcf Hcommon Hatlas Hs Hne Hw Hrec.
  destruct (find_best_solution_highest (heap w) ev scores Hs Hne Hw Hrec)
    as (id & score & q & Hbest & Hnum & _ & Hall & Hwho).
  destruct (decide_execute_spec rt atlas common session_id w hist st a b own_id er ev
              _ score q Hh Hl Hst Hsid Ha Hb Hret Her Hcommon Hbest Hnum)
    as (st' & w' & Hrun & _ & Hres).
  { intros _. split; [eauto|]. intros req t Hn Hp. now apply (Hatlas req t score q). }
  exists st'. unfold eval, exec. rewrite Hrun. cbn [fst snd].
  split; [reflexivity|]. split.
  - intros Hex.
    destruct (find_best_solution_reaches (heap w) ev scores Hs Hne Hw Hrec Hex)
      as (k & d & score' & q' & Hbest' & Hin & Hsc & Hnum' & Hge & Hall').
    rewrite Hbest in Hbest'. injection Hbest' as Hid <-. subst id.
    rewrite Hnum in Hnum'. injection Hnum' as <-.
    assert (Hlt : Qlt_bool q 90 = false) by now apply Qlt_bool_false.
    rewrite Hlt in Hres. destruct Hres as (_ & Hdec & Hsel & _).
    split; [exact Hdec|]. split.
    + exists k, d, score, q. repeat split; assumption.
    + unfold _decide_next_stage, dict_get_or. rewrite Hdec. reflexivity.
  - intros Hlow.
    destruct (find_best_solution_below (heap w) ev scores Hs Hne Hw Hrec Hlow)
      as (sol' & score' & q' & Hbest' & Hnum' & Hlt).
    rewrite Hbest in Hbest'. injection Hbest' as _ <-.
    rewrite Hnum in Hnum'. injection Hnum' as <-.
    apply Qlt_bool_true in Hlt. change (Qlt_bool q 90 = true) in Hlt. rewrite Hlt in Hres.
    destruct Hres as (_ & Hdec & Hsel & _).
    split; [exact Hdec|]. split; [exact Hsel|].
    unfold _decide_next_stage, dict_get_or. rewrite Hdec. reflexivity.
Qed.

Lemma decide_routes_on_threshold_witness :
  exists st',
    eval (decide_execute sample_runtime sim_atlas (stub_common evaluation_70_85) "session-0")
         prepared_world = Ok st' /\
    dict_get st' "escalation_decision" = Some (VBool true) /\
    dict_get st' "selected_solution" = Some VNone /\
    _decide_next_stage
      (heap (exec (decide_execute sample_runtime sim_atlas (stub_common evaluation_70_85)
                     "session-0") prepared_world)) st'
    = "escalate".
Proof.
  destruct (decide_routes_on_threshold sample_runtime sim_atlas (stub_common evaluation_70_85)
              "session-0" prepared_world prepared_history prepared_state 0%nat 1%nat
              "session-0" [("customer_tier", VStr "premium")] [("sla_risk_score", VInt 75)]
              evaluation_70_85
              [ ("SOL-001", VDict [("overall_score", VInt 70)]);
                ("SOL-002", VDict [("overall_score", VInt 85)]) ])
    as (st' & Hev & _ & Hlow).
  - vm_compute; reflexivity.
  - vm_compute; reflexivity.
  - exact prepared_state_is_agent_state.
  - vm_compute; reflexivity.
  - vm_compute; reflexivity.
  - vm_compute; reflexivity.
  - vm_compute; reflexivity.
  - vm_compute; reflexivity.
  - vm_compute; reflexivity.
  - intros req t Hn. unfold stub_common. rewrite Hn. reflexivity.
  - intros req t score q Hn Hp Hq. unfold sim_atlas, _simulate_atlas_response.
    rewrite Hn. simpl. unfold dict_get_or. rewrite Hp. unfold py_lt. rewrite Hq. simpl.
    eexists. reflexivity.
  - reflexivity.
  - discriminate.
  - reflexivity.
  - left. reflexivity.
  - exists st'. split; [exact Hev|]. apply Hlow.
    repeat constructor; eexists; (split; [reflexivity|]);
      unfold Qlt, escalation_threshold; simpl; lia.
Defined.

(* ===================================================================== *)
(** ** Text in the payload *)
(* ===================================================================== *)

(** White space and length are those of the characters, not of the bytes:
    a name that is one no-break space is refused as blank, and the space
    counts as one character. *)
Lemma validate_payload_refuses_blank_name (rt : Runtime) (h : Heap) :
  is_blank no_break_space = true /\
  py_len h (VStr (no_break_space +:+ "a")) = Ok 2 /\
  _validate_payload rt h payload_blank_name
  = Ok ["Field 'customer_name' must be a non-empty string"].
Proof. repeat split; reflexivity. Qed.

(* ===================================================================== *)
(** ** A new list for the notes *)
(* ===================================================================== *)

(** An update may give [errors] a new list; the notes of later updates go
    to that list, which the later versions share, and the list of the
    initial version stays as it was. *)
Lemma notes_follow_rebound_errors :
  exists (v0 v1 v2 : Dict) (b b' : nat),
    eval rebind_errors_then_note empty_world = Ok [v0; v1; v2] /\
    dict_get v0 "errors" = Some (VRef b) /\
    dict_get v1 "errors" = Some (VRef b') /\
    dict_get v2 "errors" = Some (VRef b') /\
    b <> b' /\
    deref (heap (exec rebind_errors_then_note empty_world)) (VRef b) = [] /\
    deref (heap (exec rebind_errors_then_note empty_world)) (VRef b')
      = [VStr "Unknown state key: foo from stage PREPARE"].
Proof.
  do 3 eexists. exists 1%nat, 2%nat.
  split; [vm_compute; reflexivity|].
  repeat (match goal with |- _ /\ _ => split end);
    first [vm_compute; reflexivity | discriminate].
Qed.
